(** * Competency hybrid search engine: provider mappers, indexing strategies,
      filter translation and the entity service.

    Shallow embedding of
      - [data_importer/mappers/{esco,rome,forma,forma14}.py]
      - [data_importer/indexing_strategies/field_{combination,duplication}.py]
      - [search_engine/adapters/infrastructure/qdrant/repository.py]
        (filter translation)
      - [search_engine/domain/services/entity_service.py]

    Text is modelled by [string] (8-bit characters).  Case mapping, digits
    and white space follow Python's [str] on the ASCII range; characters
    above 127 are kept as they are and count as neither space nor letter. *)

From Stdlib Require Import List String Ascii Bool Arith Lia ZArith.
From Stdlib Require Import Sorted Permutation DecimalString.
Import ListNotations.
Local Open Scope list_scope.
Local Open Scope string_scope.

(* ================================================================== *)
(** ** Python's [str] operations used by the importer *)
(* ================================================================== *)

Module PyStr.

(** [c.isspace()] for one character: TAB, LF, VT, FF, CR, the four
    separators FS, GS, RS, US and the blank. *)
Definition isspace (c : ascii) : bool :=
  let n := nat_of_ascii c in
  (((9 <=? n) && (n <=? 13)) || ((28 <=? n) && (n <=? 32)))%nat.

Definition isdigit (c : ascii) : bool :=
  let n := nat_of_ascii c in ((48 <=? n) && (n <=? 57))%nat.

Definition upper_char (c : ascii) : ascii :=
  let n := nat_of_ascii c in
  if ((97 <=? n) && (n <=? 122))%nat then ascii_of_nat (n - 32) else c.

Definition lower_char (c : ascii) : ascii :=
  let n := nat_of_ascii c in
  if ((65 <=? n) && (n <=? 90))%nat then ascii_of_nat (n + 32) else c.

Fixpoint lower (s : string) : string :=
  match s with
  | EmptyString => EmptyString
  | String c r => String (lower_char c) (lower r)
  end.

(** [s.capitalize()]: first character upper-cased, the rest lower-cased. *)
Definition capitalize (s : string) : string :=
  match s with
  | EmptyString => EmptyString
  | String c r => String (upper_char c) (lower r)
  end.

(** Truth value of a string: [bool(s)]. *)
Definition truthy (s : string) : bool :=
  match s with EmptyString => false | _ => true end.

Fixpoint lstrip (s : string) : string :=
  match s with
  | EmptyString => EmptyString
  | String c r => if isspace c then lstrip r else s
  end.

Fixpoint rstrip (s : string) : string :=
  match s with
  | EmptyString => EmptyString
  | String c r =>
      match rstrip r with
      | EmptyString => if isspace c then EmptyString else String c EmptyString
      | r' => String c r'
      end
  end.

(** [s.strip()] *)
Definition strip (s : string) : string := rstrip (lstrip s).

(** [s.split()]: the maximal runs of non-space characters. *)
Fixpoint split_ws (s : string) : list string :=
  match s with
  | EmptyString => []
  | String c r =>
      if isspace c then split_ws r
      else match r with
           | EmptyString => [String c EmptyString]
           | String c' _ =>
               if isspace c' then String c EmptyString :: split_ws r
               else match split_ws r with
                    | w :: ws => String c w :: ws
                    | [] => [String c EmptyString]
                    end
           end
  end.

(** [s.split(sep)] for a non-empty [sep]: cut at the leftmost
    occurrences of [sep], scanning left to right.  [skip] counts the
    characters of a separator found earlier that are still to be passed. *)
Fixpoint split_go (sep : string) (skip : nat) (s : string) : list string :=
  match s with
  | EmptyString => [EmptyString]
  | String c r =>
      match skip with
      | S k => split_go sep k r
      | O =>
          if prefix sep s
          then EmptyString :: split_go sep (String.length sep - 1) r
          else match split_go sep 0 r with
               | p :: ps => String c p :: ps
               | [] => [String c EmptyString]
               end
      end
  end.

Definition split (sep s : string) : list string := split_go sep 0 s.

(** [sep.join(l)] *)
Definition join (sep : string) (l : list string) : string :=
  String.concat sep l.

(** [sub in s] *)
Fixpoint contains (sub s : string) : bool :=
  prefix sub s ||
  match s with
  | EmptyString => false
  | String _ r => contains sub r
  end.

(** [s.replace(old, new)] for a non-empty [old]: the pieces between the
    leftmost occurrences of [old], glued with [new]. *)
Definition replace (old new s : string) : string :=
  join new (split old s).

(** [s[n:]] *)
Fixpoint drop (n : nat) (s : string) : string :=
  match n, s with
  | O, _ => s
  | S k, EmptyString => EmptyString
  | S k, String _ r => drop k r
  end.

(** [s.endswith(suf)] *)
Fixpoint endswith (suf s : string) : bool :=
  (s =? suf) ||
  match s with
  | EmptyString => false
  | String _ r => endswith suf r
  end.

(** [s[:-1]] *)
Fixpoint but_last (s : string) : string :=
  match s with
  | EmptyString => EmptyString
  | String c EmptyString => EmptyString
  | String c r => String c (but_last r)
  end.

(** [s.split(sep, 1)[1]] when [sep] occurs in [s]: what follows the
    first occurrence. *)
Fixpoint after_first (sep s : string) : option string :=
  if prefix sep s then Some (drop (String.length sep) s)
  else match s with
       | EmptyString => None
       | String _ r => after_first sep r
       end.

(** [s.rsplit(sep, 1)[0]] when [sep] occurs in [s]: what precedes the
    last occurrence. *)
Fixpoint before_last (sep s : string) : option string :=
  match s with
  | EmptyString => None
  | String c r =>
      match before_last sep r with
      | Some p => Some (String c p)
      | None => if prefix sep s then Some EmptyString else None
      end
  end.

(** [n] leading digits: the regular expression [\d{n}] at the start. *)
Fixpoint digits_prefix (n : nat) (s : string) : option string :=
  match n with
  | O => Some s
  | S k =>
      match s with
      | String c r => if isdigit c then digits_prefix k r else None
      | EmptyString => None
      end
  end.

End PyStr.

(* ================================================================== *)
(** ** Python's [set] and [sorted] on strings *)
(* ================================================================== *)

Module PyList.

(** [set(l)]: the distinct elements of [l].  A Python set has no order
    of its own; the importer only ever passes it to [sorted]. *)
Definition set_of (l : list string) : list string := nodup string_dec l.

Fixpoint insert (x : string) (l : list string) : list string :=
  match l with
  | [] => [x]
  | h :: t => if String.leb x h then x :: l else h :: insert x t
  end.

(** [sorted(l)]: ascending by code point, compared character by
    character. *)
Definition sorted (l : list string) : list string :=
  fold_right insert [] l.

(** [x or y] on optional strings: [x] when it is a non-empty string. *)
Definition or_else (x : option string) (y : string) : string :=
  match x with
  | Some v => if PyStr.truthy v then v else y
  | None => y
  end.

(** Truth value of an optional string. *)
Definition truthy_opt (x : option string) : bool :=
  match x with
  | Some v => PyStr.truthy v
  | None => false
  end.

End PyList.

(* ================================================================== *)
(** ** The canonical record ([data_importer/schemas.py], [enums.py]) *)
(* ================================================================== *)

Inductive Provider := ESCO | ROME | FORMA | FORMA14.
Inductive CompetencyType := OCCUPATION | SKILL | CERTIFICATION.
Inductive Language := EN | FR.

Record Competency := mkCompetency {
  code : string;
  lang : Language;
  type : CompetencyType;
  provider : Provider;
  title : string;
  url : option string;
  category : option string;
  description : option string;
  keywords : option (list string);
  indexed_text : option string
}.

(** [competency.model_copy(update={"indexed_text": v})] *)
Definition with_indexed_text (c : Competency) (v : string) : Competency :=
  mkCompetency (code c) (lang c) (type c) (provider c) (title c) (url c)
               (category c) (description c) (keywords c) (Some v).

(** Failure of pydantic's validation when a model is built. *)
Inductive PydanticError := MissingCode.

(** Line feed, Python's ["\n"]. *)
Definition nl : string := String (ascii_of_nat 10) EmptyString.

(* ================================================================== *)
(** ** [mappers/rome.py] *)
(* ================================================================== *)

Module RomeMapper.

Record t := mk {
  provider : Provider;
  competency_type : CompetencyType;
  lang : Language;
  code : string;
  intitule : string;
  category : string;
  description : string;
  keywords : list string;
  indexed_text : option string
}.

(** [mots[:n]] and [mots[-n:]] for [0 < n]. *)
Definition first_words (n : nat) (mots : list string) := firstn n mots.
Definition last_words (n : nat) (mots : list string) :=
  skipn (List.length mots - n) mots.

Definition clean_rome_appelation (appelation : string) : list string :=
  if negb (PyStr.contains "/" appelation) then [appelation]
  else
    let parties := map PyStr.strip (PyStr.split "/" appelation) in
    match parties with
    | [gauche; droite] =>
        let mots_gauche := PyStr.split_ws gauche in
        let mots_droite := PyStr.split_ws droite in
        let '(first, second) :=
          if (List.length mots_droite <? List.length mots_gauche)%nat then
            let nb_mots_prefixe :=
              List.length mots_gauche - List.length mots_droite in
            let prefixe :=
              PyStr.join " " (first_words nb_mots_prefixe mots_gauche) in
            (gauche, prefixe ++ " " ++ droite)
          else if (List.length mots_gauche <? List.length mots_droite)%nat then
            let nb_mots_suffixe :=
              List.length mots_droite - List.length mots_gauche in
            let suffixe :=
              PyStr.join " " (last_words nb_mots_suffixe mots_droite) in
            (gauche ++ " " ++ suffixe, droite)
          else (gauche, droite) in
        [PyStr.strip first; PyStr.strip second]
    | _ => [appelation]
    end.

Definition cleaned_keywords (r : t) : list string :=
  PyList.sorted
    (PyList.set_of (flat_map clean_rome_appelation (keywords r))).

Definition to_competency (r : t) : Competency :=
  mkCompetency
    (code r) (lang r) (competency_type r) (provider r) (intitule r)
    (Some ("https://candidat.pole-emploi.fr/metierscope/fiche-metier/"
             ++ code r))
    (Some (category r)) (Some (description r))
    (Some (cleaned_keywords r))
    (Some (PyList.or_else (indexed_text r) (intitule r))).

End RomeMapper.

(* ================================================================== *)
(** ** [mappers/esco.py] *)
(* ================================================================== *)

Module EscoMapper.

Record t := mk {
  provider : Provider;
  competency_type : CompetencyType;
  lang : Language;
  preferred_label : string;
  description : string;
  concept_uri : string;
  alt_labels : option string;
  hidden_labels : option string;
  code : option string;
  category : option string;
  broader_concept_pt : option string;
  indexed_text : option string
}.

Definition clean_esco_appelation (appelation : string) : list string :=
  if negb (PyStr.contains "/" appelation) then [appelation]
  else
    match map PyStr.strip (PyStr.split "/" appelation) with
    | [p0; p1] => [p0; p1]
    | _ => [appelation]
    end.

Definition cleaned_title (r : t) : string :=
  PyStr.capitalize (PyStr.strip (preferred_label r)).

(** [[label.strip() for label in l if label.strip()]] *)
Definition stripped_labels (l : list string) : list string :=
  map PyStr.strip (filter (fun label => PyStr.truthy (PyStr.strip label)) l).

Definition alt_label_keywords (r : t) : list string :=
  match alt_labels r with
  | Some alt =>
      if PyStr.truthy alt then
        let alt_label_list :=
          if PyStr.contains " | " alt then PyStr.split " | " alt
          else if PyStr.contains nl alt then PyStr.split nl alt
          else [alt] in
        stripped_labels alt_label_list
      else []
  | None => []
  end.

Definition hidden_label_keywords (r : t) : list string :=
  match hidden_labels r with
  | Some hidden =>
      if PyStr.truthy hidden then stripped_labels (PyStr.split nl hidden)
      else []
  | None => []
  end.

(** What the split rule appends to the keyword list. *)
Definition appelation_keywords (r : t) : list string :=
  let cleaned_appelations := clean_esco_appelation (cleaned_title r) in
  if (1 <? List.length cleaned_appelations)%nat then cleaned_appelations else [].

(** [sorted({k.capitalize() for k in keywords if k.strip()})] *)
Definition unique_keywords (keywords : list string) : list string :=
  PyList.sorted
    (PyList.set_of
       (map PyStr.capitalize
            (filter (fun k => PyStr.truthy (PyStr.strip k)) keywords))).

Definition keywords (r : t) : list string :=
  unique_keywords
    (alt_label_keywords r ++ hidden_label_keywords r
       ++ appelation_keywords r)%list.

Definition filled_code (r : t) : option string :=
  if negb (PyList.truthy_opt (code r)) && PyStr.truthy (concept_uri r)
  then Some (PyStr.strip (concept_uri r))
  else code r.

Definition filled_category (r : t) : option string :=
  match broader_concept_pt r with
  | Some broader =>
      if negb (PyList.truthy_opt (category r)) && PyStr.truthy broader
      then Some (PyStr.replace " | " ", " (PyStr.strip broader))
      else category r
  | None => category r
  end.

(** The canonical record requires a [code]; building it fails when the
    mapper has none. *)
Definition to_competency (r : t) : PydanticError + Competency :=
  match filled_code r with
  | None => inl MissingCode
  | Some c =>
      inr (mkCompetency
             c (lang r) (competency_type r) (provider r) (cleaned_title r)
             (Some (concept_uri r)) (filled_category r)
             (Some (description r)) (Some (keywords r))
             (Some (PyList.or_else (indexed_text r) (cleaned_title r))))
  end.

End EscoMapper.

(** [str(n)] for an integer. *)
Definition str_of_int (n : Z) : string := NilZero.string_of_int (Z.to_int n).

(* ================================================================== *)
(** ** [mappers/forma.py] *)
(* ================================================================== *)

Module FormaMapper.

Record t := mk {
  provider : Provider;
  competency_type : CompetencyType;
  lang : Language;
  code : Z;
  title : string;
  category : string;
  NSF : option string;
  semantic_field : option string;
  synonym : option string;
  synonym_job : option string;
  specific_terms : option string;
  associated_terms : option string;
  ROME : option string;
  explication_note : option string;
  application_note : option string;
  indexed_text : option string
}.

Definition remove_code_from_str
    (text : string) (code_length_to_remove : nat) : string :=
  PyStr.drop (code_length_to_remove + 1) text.

(** [f(field) if field else dflt] on an optional string. *)
Definition if_truthy {A} (field : option string)
    (f : string -> A) (dflt : A) : A :=
  match field with
  | Some v => if PyStr.truthy v then f v else dflt
  | None => dflt
  end.

(** [[s.strip().capitalize() for s in field.split("$")]] *)
Definition split_synonyms (field : string) : list string :=
  map (fun s => PyStr.capitalize (PyStr.strip s)) (PyStr.split "$" field).

(** [[remove_code_from_str(term.strip(), 5) for term in field.split("$")
      if term.strip()]] *)
Definition split_terms (field : string) : list string :=
  map (fun term => remove_code_from_str (PyStr.strip term) 5)
      (filter (fun term => PyStr.truthy (PyStr.strip term))
              (PyStr.split "$" field)).

Definition cleaned_category (r : t) : option string :=
  if PyStr.truthy (category r)
  then Some (PyStr.capitalize (remove_code_from_str (category r) 5))
  else None.

Definition cleaned_nsf (r : t) : option string :=
  if_truthy (NSF r) (fun v => Some (remove_code_from_str v 3)) None.

Definition cleaned_semantic_field (r : t) : list string :=
  if_truthy (semantic_field r)
    (fun v => [PyStr.capitalize (remove_code_from_str v 3)]) [].

Definition cleaned_synonym (r : t) : list string :=
  if_truthy (synonym r) split_synonyms [].

Definition cleaned_synonym_job (r : t) : list string :=
  if_truthy (synonym_job r) split_synonyms [].

Definition cleaned_specific_terms (r : t) : list string :=
  if_truthy (specific_terms r)
    (fun v => map PyStr.capitalize (split_terms v)) [].

Definition cleaned_associated_terms (r : t) : list string :=
  if_truthy (associated_terms r)
    (fun v => map PyStr.capitalize (split_terms v)) [].

Definition cleaned_rome (r : t) : list string :=
  if_truthy (ROME r) split_terms [].

Definition description_parts (r : t) : list string :=
  (if_truthy (cleaned_nsf r) (fun v => [v]) []
   ++ if_truthy (explication_note r) (fun v => [v]) []
   ++ if_truthy (application_note r) (fun v => [v]) [])%list.

Definition cleaned_description (r : t) : string :=
  PyStr.join ". " (filter PyStr.truthy (description_parts r)).

(** The keyword list before the last pass: [sorted(set(...))]. *)
Definition sorted_keywords (r : t) : list string :=
  PyList.sorted
    (PyList.set_of
       (cleaned_semantic_field r ++ cleaned_synonym r
          ++ cleaned_synonym_job r ++ cleaned_specific_terms r
          ++ cleaned_associated_terms r ++ cleaned_rome r)%list).

(** [[keyword.capitalize() for keyword in cleaned_keywords if keyword]] *)
Definition cleaned_keywords (r : t) : list string :=
  map PyStr.capitalize (filter PyStr.truthy (sorted_keywords r)).

Definition to_competency (r : t) : Competency :=
  let cleaned_title := PyStr.capitalize (title r) in
  mkCompetency
    (str_of_int (code r)) (lang r) (competency_type r) (provider r)
    cleaned_title
    (Some ("https://formacode.centre-inffo.fr/spip.php?page=thesaurus&fcd_code="
             ++ str_of_int (code r)))
    (cleaned_category r) (Some (cleaned_description r))
    (Some (cleaned_keywords r))
    (Some (PyList.or_else (indexed_text r) cleaned_title)).

End FormaMapper.

(* ================================================================== *)
(** ** [mappers/forma14.py] *)
(* ================================================================== *)

Module Forma14Mapper.

Record t := mk {
  provider : Provider;
  competency_type : CompetencyType;
  lang : Language;
  code : Z;
  title : string;
  category : string;
  semantic_field : string;
  synonym : option string;
  synonym_job : option string;
  specific_terms : option string;
  associated_terms : option string;
  application_note : option string;
  explication_note : option string;
  indexed_text : option string
}.

(** [re.search(f"^\d{{{n}}} ", text)] *)
Definition starts_with_code (n : nat) (text : string) : bool :=
  match PyStr.digits_prefix n text with
  | Some rest => prefix " " rest
  | None => false
  end.

(** The pattern [f" - \d{{{n}}}$"] tried where [text] begins; [$] also
    matches just before a final line feed. *)
Definition code_end_here (n : nat) (text : string) : bool :=
  prefix " - " text &&
  match PyStr.digits_prefix n (PyStr.drop 3 text) with
  | Some rest => (rest =? "") || (rest =? nl)
  | None => false
  end.

(** [re.search(f" - \d{{{n}}}$", text)] *)
Fixpoint ends_with_code (n : nat) (text : string) : bool :=
  code_end_here n text ||
  match text with
  | EmptyString => false
  | String _ r => ends_with_code n r
  end.

Definition remove_code_from_str_start
    (text : string) (code_length_to_remove : nat) : string :=
  if starts_with_code code_length_to_remove text
  then match PyStr.after_first " " text with
       | Some rest => rest
       | None => text
       end
  else text.

Definition remove_code_from_str_end
    (text : string) (code_length_to_remove : nat) : string :=
  if ends_with_code code_length_to_remove text
  then match PyStr.before_last " - " text with
       | Some head => head
       | None => text
       end
  else text.

Definition if_truthy {A} (field : option string)
    (f : string -> A) (dflt : A) : A :=
  match field with
  | Some v => if PyStr.truthy v then f v else dflt
  | None => dflt
  end.

(** [[s.strip().capitalize() for s in field.split("###")]] *)
Definition split_synonyms (field : string) : list string :=
  map (fun s => PyStr.capitalize (PyStr.strip s)) (PyStr.split "###" field).

(** [[remove_code_from_str_end(term.strip(), 5)
      for term in field.split(sep) if term.strip()]] *)
Definition split_terms (sep field : string) : list string :=
  map (fun term => remove_code_from_str_end (PyStr.strip term) 5)
      (filter (fun term => PyStr.truthy (PyStr.strip term))
              (PyStr.split sep field)).

Definition cleaned_category (r : t) : string :=
  remove_code_from_str_end (category r) 5.

Definition cleaned_semantic_field (r : t) : string :=
  PyStr.capitalize (remove_code_from_str_start (semantic_field r) 3).

Definition cleaned_synonym (r : t) : list string :=
  if_truthy (synonym r) split_synonyms [].

Definition cleaned_synonym_job (r : t) : list string :=
  if_truthy (synonym_job r) split_synonyms [].

Definition cleaned_specific_terms (r : t) : list string :=
  if_truthy (specific_terms r) (split_terms "###") [].

Definition cleaned_associated_terms (r : t) : list string :=
  if_truthy (associated_terms r) (split_terms "$") [].

Definition cleaned_description (r : t) : string :=
  PyStr.strip
    (if_truthy (explication_note r) (fun v => v) ""
     ++ if_truthy (application_note r) (fun v => v) "").

Definition cleaned_keywords (r : t) : list string :=
  filter (fun kw => PyStr.truthy (PyStr.strip kw))
    (PyList.sorted
       (PyList.set_of
          (cleaned_semantic_field r :: cleaned_synonym r
             ++ cleaned_synonym_job r ++ cleaned_specific_terms r
             ++ cleaned_associated_terms r)%list)).

Definition to_competency (r : t) : Competency :=
  mkCompetency
    (str_of_int (code r)) (lang r) (competency_type r) (provider r)
    (title r)
    (Some ("https://centreinffo.mondeca.com/KB/index#Concept:uri=https://centre-inffo.fr/descripteur_formacode/"
             ++ str_of_int (code r) ++ ";tab=props;"))
    (Some (cleaned_category r)) (Some (cleaned_description r))
    (Some (cleaned_keywords r))
    (Some (PyList.or_else (indexed_text r) (title r))).

End Forma14Mapper.

(* ================================================================== *)
(** ** [indexing_strategies/] *)
(* ================================================================== *)

(** [indexing_strategies/schemas.py]: the members of the string
    enumeration [IndexingField].  A member compares and hashes as its
    value, so a requested field is modelled by its name. *)
Module IndexingField.
Definition TITLE := "title".
Definition DESCRIPTION := "description".
Definition CATEGORY := "category".
Definition KEYWORDS := "keywords".
End IndexingField.

(** Exceptions of the importer's strategies. *)
Inductive StrategyError :=
| ValueError (missing : list string)
| KeyError (key : string).

Module FieldDuplicationStrategy.

Record t := mk { fields : list string }.

(** The dictionary [_field_extractors]. *)
Definition _field_extractors
  : list (string * (Competency -> list string)) :=
  [ (IndexingField.TITLE, fun comp => [title comp]);
    (IndexingField.DESCRIPTION,
      fun comp => if PyList.truthy_opt (description comp)
                  then [PyList.or_else (description comp) ""] else []);
    (IndexingField.CATEGORY,
      fun comp => if PyList.truthy_opt (category comp)
                  then [PyList.or_else (category comp) ""] else []);
    (IndexingField.KEYWORDS,
      fun comp => match keywords comp with
                  | Some l => l
                  | None => []
                  end) ].

Fixpoint lookup {A} (k : string) (d : list (string * A)) : option A :=
  match d with
  | [] => None
  | (k', v) :: d' => if k =? k' then Some v else lookup k d'
  end.

(** [set(self.fields) - set(self._field_extractors)] *)
Definition missing (fs : list string) : list string :=
  filter (fun f => match lookup f _field_extractors with
                   | Some _ => false
                   | None => true
                   end)
         (PyList.set_of fs).

Definition __init__ (fs : list string) : StrategyError + t :=
  match missing fs with
  | [] => inr (mk fs)
  | m => inl (ValueError m)
  end.

Fixpoint expand_fields (fs : list string) (competency : Competency)
  : StrategyError + list Competency :=
  match fs with
  | [] => inr []
  | field :: fs' =>
      match lookup field _field_extractors with
      | None => inl (KeyError field)
      | Some extractor =>
          let values := extractor competency in
          let copies :=
            map (with_indexed_text competency)
                (filter (fun value => PyStr.truthy (PyStr.strip value))
                        values) in
          match expand_fields fs' competency with
          | inl e => inl e
          | inr rest => inr (copies ++ rest)%list
          end
      end
  end.

Definition expand_competency (self : t) (competency : Competency)
  : StrategyError + list Competency :=
  expand_fields (fields self) competency.

End FieldDuplicationStrategy.

Module FieldCombinationStrategy.

Record t := mk { fields : list string }.

Definition __init__ (fs : list string) : StrategyError + t := inr (mk fs).

(** What [getattr(competency, field, "")] can yield. *)
Inductive Attr :=
| AStr (s : string)
| AList (l : list string)
| ANone.

Definition of_option (o : option string) : Attr :=
  match o with
  | Some s => AStr s
  | None => ANone
  end.

Definition lang_value (l : Language) : string :=
  match l with EN => "en" | FR => "fr" end.
Definition type_value (t : CompetencyType) : string :=
  match t with
  | OCCUPATION => "occupation"
  | SKILL => "skill"
  | CERTIFICATION => "certification"
  end.
Definition provider_value (p : Provider) : string :=
  match p with
  | ESCO => "esco" | ROME => "rome" | FORMA => "forma" | FORMA14 => "forma14"
  end.

(** [getattr(competency, field, "")] over the fields of the model; any
    other name is taken to name no attribute and yields the default.  The
    attributes the class has beside its fields (such as [model_config]) are
    outside this model: what is proved of the combination is stated for
    field names. *)
Definition getattr (competency : Competency) (field : string) : Attr :=
  if field =? "title" then AStr (title competency)
  else if field =? "description" then of_option (description competency)
  else if field =? "category" then of_option (category competency)
  else if field =? "keywords" then
    match keywords competency with
    | Some l => AList l
    | None => ANone
    end
  else if field =? "code" then AStr (code competency)
  else if field =? "lang" then AStr (lang_value (lang competency))
  else if field =? "type" then AStr (type_value (type competency))
  else if field =? "provider" then
    AStr (provider_value (provider competency))
  else if field =? "url" then of_option (url competency)
  else if field =? "indexed_text" then
    of_option (indexed_text competency)
  else AStr "".

(** What one turn of the loop appends to [parts]. *)
Definition field_parts (competency : Competency) (field : string)
  : list string :=
  match getattr competency field with
  | AList value => [PyStr.join ", " (filter PyStr.truthy value)]
  | AStr value =>
      if PyStr.truthy value then
        ((if PyStr.endswith "." value then [PyStr.but_last value] else [])
           ++ [value])%list
      else []
  | ANone => []
  end.

Definition combined_text (fs : list string) (competency : Competency)
  : string :=
  PyStr.strip
    (PyStr.join ". " (flat_map (field_parts competency) fs)).

Definition expand_competency (self : t) (competency : Competency)
  : list Competency :=
  [with_indexed_text competency (combined_text (fields self) competency)].

End FieldCombinationStrategy.

(* ================================================================== *)
(** ** Filter translation ([qdrant/repository.py], [domain/types/filters.py]) *)
(* ================================================================== *)

(** A filter value (Python's [Any]): [None], a scalar (an integer, a
    string, a boolean, or a finite float [mantissa * 2 ^ exponent]), or a
    list of scalars for the membership operators. *)
Inductive PyScalar :=
| SInt (n : Z)
| SStr (s : string)
| SBool (b : bool)
| SFloat (mantissa exponent : Z).

Inductive PyValue :=
| VScalar (v : PyScalar)
| VList (l : list PyScalar)
| VNone.

Inductive DomainFilterOperator :=
| EQUAL | NOT_EQUAL
| GREATER_THAN | GREATER_THAN_OR_EQUAL
| LESS_THAN | LESS_THAN_OR_EQUAL
| IN | NOT_IN.

Record DomainFilter := mkDomainFilter {
  field : string;
  operator : DomainFilterOperator;
  value : PyValue
}.

Module Qdrant.

(** The store's models ([qdrant_client.http.models]) belong to a library
    outside the repository.  Building one validates its argument and
    raises pydantic's [ValidationError] when the value is refused, so what
    they accept is a parameter of the translation:
    [MatchValue(value=v)] and [MatchAny(any=v)] keep an accepted value as
    given; a bound of [Range] is refused, absent ([None]) or converted to
    the store's number type. *)
Record StoreModels (Number : Type) := mkStoreModels {
  match_value_accepts : PyValue -> bool;
  match_any_accepts : PyValue -> bool;
  range_bound : PyValue -> option (option Number)
}.

Arguments match_value_accepts {Number}.
Arguments match_any_accepts {Number}.
Arguments range_bound {Number}.

Inductive Match :=
| MatchValue (value : PyValue)
| MatchAny (any : PyValue).

(** [f.operator in (NOT_EQUAL, NOT_IN)] *)
Definition is_negative (op : DomainFilterOperator) : bool :=
  match op with
  | NOT_EQUAL | NOT_IN => true
  | _ => false
  end.

(** [l if l else None] *)
Definition or_none {A} (l : list A) : option (list A) :=
  match l with
  | [] => None
  | _ => Some l
  end.

(** pydantic's [ValidationError], raised by the model that refused the
    value of this filter. *)
Inductive PydanticValidationError :=
| Refused (domain_filter : DomainFilter).

Section Translation.

Variable Number : Type.
Variable models : StoreModels Number.

Record Range := mkRange {
  gt : option Number;
  gte : option Number;
  lt : option Number;
  lte : option Number
}.

Record FieldCondition := mkFieldCondition {
  key : string;
  match_ : option Match;
  range : option Range
}.

Record Filter := mkFilter {
  must : option (list FieldCondition);
  must_not : option (list FieldCondition)
}.

(** [Range(<slot>=value)]: the bound is validated, then put in its slot. *)
Definition range_condition (domain_filter : DomainFilter)
    (slot : option Number -> Range)
  : PydanticValidationError + FieldCondition :=
  match range_bound models (value domain_filter) with
  | None => inl (Refused domain_filter)
  | Some bound =>
      inr (mkFieldCondition (field domain_filter) None (Some (slot bound)))
  end.

Definition _create_field_condition (domain_filter : DomainFilter)
  : PydanticValidationError + FieldCondition :=
  let k := field domain_filter in
  let v := value domain_filter in
  match operator domain_filter with
  | EQUAL | NOT_EQUAL =>
      if match_value_accepts models v
      then inr (mkFieldCondition k (Some (MatchValue v)) None)
      else inl (Refused domain_filter)
  | IN | NOT_IN =>
      if match_any_accepts models v
      then inr (mkFieldCondition k (Some (MatchAny v)) None)
      else inl (Refused domain_filter)
  | GREATER_THAN =>
      range_condition domain_filter (fun b => mkRange b None None None)
  | GREATER_THAN_OR_EQUAL =>
      range_condition domain_filter (fun b => mkRange None b None None)
  | LESS_THAN =>
      range_condition domain_filter (fun b => mkRange None None b None)
  | LESS_THAN_OR_EQUAL =>
      range_condition domain_filter (fun b => mkRange None None None b)
  end.

(** The loop of [_build_search_filters]: the two lists it appends to.  It
    ends at the first filter whose condition cannot be built. *)
Fixpoint collect (filters : list DomainFilter)
    (must_conditions must_not_conditions : list FieldCondition)
  : PydanticValidationError
    + (list FieldCondition * list FieldCondition) :=
  match filters with
  | [] => inr (must_conditions, must_not_conditions)
  | f :: fs =>
      match _create_field_condition f with
      | inl e => inl e
      | inr condition =>
          if is_negative (operator f)
          then collect fs must_conditions
                       (must_not_conditions ++ [condition])%list
          else collect fs (must_conditions ++ [condition])%list
                       must_not_conditions
      end
  end.

Definition _build_search_filters (filters : list DomainFilter)
  : PydanticValidationError + Filter :=
  match filters with
  | [] => inr (mkFilter None None)
  | _ =>
      match collect filters [] [] with
      | inl e => inl e
      | inr (must_conditions, must_not_conditions) =>
          inr (mkFilter (or_none must_conditions)
                        (or_none must_not_conditions))
      end
  end.

(** The conditions a clause holds; an absent clause holds none. *)
Definition conditions (clause : option (list FieldCondition))
  : list FieldCondition :=
  match clause with
  | Some l => l
  | None => []
  end.

(** [f] is translated into the condition [c]. *)
Definition built (f : DomainFilter) (c : FieldCondition) : Prop :=
  _create_field_condition f = inr c.

End Translation.

Arguments mkRange {Number}.
Arguments gt {Number}.
Arguments gte {Number}.
Arguments lt {Number}.
Arguments lte {Number}.
Arguments mkFieldCondition {Number}.
Arguments key {Number}.
Arguments match_ {Number}.
Arguments range {Number}.
Arguments mkFilter {Number}.
Arguments must {Number}.
Arguments must_not {Number}.
Arguments range_condition {Number}.
Arguments _create_field_condition {Number}.
Arguments collect {Number}.
Arguments _build_search_filters {Number}.
Arguments conditions {Number}.
Arguments built {Number}.

End Qdrant.

(* ================================================================== *)
(** ** The entity service ([domain/services/entity_service.py]) *)
(* ================================================================== *)

Module Domain.

(** [domain/types/search_type.py] and [domain/types/vectors.py]: string
    enumerations; a member equals its value. *)
Module SearchType.
Definition SEMANTIC := "semantic".
Definition SPARSE := "sparse".
Definition HYBRID := "hybrid".
End SearchType.

Inductive VectorName := DENSE | SPARSE.

(** The identifier of a stored entity (a UUID, by its text). *)
Definition Identifier := string.

(** [domain/types/competency.py]: the importer's record and an open
    [metadata] bag. *)
Record Competency := mkCompetency {
  code : string;
  lang : Language;
  type : CompetencyType;
  provider : Provider;
  title : string;
  url : option string;
  category : option string;
  description : option string;
  keywords : option (list string);
  indexed_text : option string;
  metadata : option (list (string * PyValue))
}.

(** [domain/exceptions.py], and an exception of a collaborator that the
    service lets through.  Such an exception is kept by its text alone,
    under [Raised], whatever its class: a repository that raises one of the
    domain's own errors is not told apart, so the properties of the runs
    speak of the calls made and of the errors the service itself raises. *)
Inductive Exn :=
| ValidationError (msg : string)
| EntityNotFoundError (msg : string)
| EmbeddingError (msg : string)
| Raised (msg : string).

Section Service.

(** Floating-point numbers: the service never computes with them. *)
Variable float : Type.

Record DenseVector := mkDense { dense_values : list float }.
Record SparseVector := mkSparse {
  indices : list Z;
  sparse_values : list float
}.

Record Entity := mkEntity {
  identifier : Identifier;
  competency : Competency;
  dense_vector : option DenseVector;
  sparse_vector : option SparseVector
}.

Record SearchResult := mkSearchResult {
  entity : Entity;
  score : float
}.

(** [CreateEntityModel] and [UpdateEntityModel].  On update the service
    passes the stored vectors on as they are, absent ones included. *)
Record CreateEntityModel := mkCreate {
  create_competency : Competency;
  create_dense_vector : DenseVector;
  create_sparse_vector : SparseVector
}.

Record UpdateEntityModel := mkUpdate {
  update_identifier : Identifier;
  update_competency : Competency;
  update_dense_vector : option DenseVector;
  update_sparse_vector : option SparseVector
}.

(** The vector handed to the single-vector search. *)
Inductive Vector :=
| OfDense (v : DenseVector)
| OfSparse (v : SparseVector).

(** A call either returns or raises an exception with text [str(e)]. *)
Definition Raises (A : Type) : Type := (string + A)%type.

(** The collaborators the service is built with. *)
Record Collaborators := mkCollaborators {
  dense_encode : string -> Raises DenseVector;
  sparse_encode : string -> Raises SparseVector;
  repo_create_entity : CreateEntityModel -> Raises Entity;
  repo_get_entity : Identifier -> Raises (option Entity);
  repo_update_entity : UpdateEntityModel -> Raises Entity;
  repo_delete_entity : Identifier -> Raises unit;
  repo_search_by_vector_and_filters :
    Vector -> list DomainFilter -> Z -> VectorName
    -> Raises (list SearchResult);
  repo_search_hybrid_by_vectors_and_filters :
    DenseVector -> SparseVector -> list DomainFilter -> Z
    -> Raises (list SearchResult)
}.

(** The calls the service makes on its collaborators, in order. *)
Inductive Call :=
| DenseEncode (text : string)
| SparseEncode (text : string)
| RepoCreate (model : CreateEntityModel)
| RepoGet (identifier : Identifier)
| RepoUpdate (model : UpdateEntityModel)
| RepoDelete (identifier : Identifier)
| RepoSearch (vector : Vector) (filters : list DomainFilter) (top : Z)
             (vector_name : VectorName)
| RepoHybrid (dense_vector : DenseVector) (sparse_vector : SparseVector)
             (filters : list DomainFilter) (top : Z).

(** A computation of the service: the calls made so far are threaded
    through, and it ends with a value or an exception. *)
Definition M (A : Type) : Type := list Call -> list Call * (Exn + A).

Definition ret {A} (a : A) : M A := fun log => (log, inr a).
Definition raise {A} (e : Exn) : M A := fun log => (log, inl e).
Definition bind {A B} (m : M A) (k : A -> M B) : M B :=
  fun log =>
    match m log with
    | (log', inr a) => k a log'
    | (log', inl e) => (log', inl e)
    end.

(** [try: m  except Exception as e: raise wrap(str(e))].  The domain
    errors are exceptions as well, so whatever [m] raises is wrapped. *)
Definition exn_text (e : Exn) : string :=
  match e with
  | ValidationError m | EntityNotFoundError m
  | EmbeddingError m | Raised m => m
  end.

Definition try_wrap {A} (m : M A) (wrap : string -> Exn) : M A :=
  fun log =>
    match m log with
    | (log', inr a) => (log', inr a)
    | (log', inl e) => (log', inl (wrap (exn_text e)))
    end.

(** One call on a collaborator: recorded, then its result taken. *)
Definition call {A} (c : Call) (r : Raises A) : M A :=
  fun log =>
    (log ++ [c],
     match r with
     | inl msg => inl (Raised msg)
     | inr a => inr a
     end)%list.

Definition run {A} (m : M A) : list Call * (Exn + A) := m [].

Notation "x <- m ;; k" := (bind m (fun x => k))
  (at level 61, m at next level, right associativity).

Variable self : Collaborators.

Definition create_entity (competency : Competency) (text : option string)
  : M Entity :=
  let text :=
    match text with
    | Some t => if PyStr.truthy t then Some (PyStr.strip t) else None
    | None => None
    end in
  match text with
  | None => raise (ValidationError "Text cannot be empty.")
  | Some text =>
      if negb (PyStr.truthy text)
      then raise (ValidationError "Text cannot be empty.")
      else
        vectors <-
          try_wrap
            (dense_vector <-
               call (DenseEncode text) (dense_encode self text) ;;
             sparse_vector <-
               call (SparseEncode text) (sparse_encode self text) ;;
             ret (dense_vector, sparse_vector))
            (fun e => EmbeddingError ("Encoding error: " ++ e)) ;;
        let model := mkCreate competency (fst vectors) (snd vectors) in
        call (RepoCreate model) (repo_create_entity self model)
  end.

Definition get_entity (identifier : Identifier) : M Entity :=
  entity <- call (RepoGet identifier) (repo_get_entity self identifier) ;;
  match entity with
  | None =>
      raise (EntityNotFoundError
               ("Entity " ++ identifier ++ " not found"))
  | Some entity => ret entity
  end.

(** [entity.competency.indexed_text == text] for a [text] that is not
    [None]. *)
Definition same_text (stored : option string) (text : string) : bool :=
  match stored with
  | Some s => s =? text
  | None => false
  end.

Definition update_entity (identifier : Identifier)
    (competency' : Competency) (text : option string) : M Entity :=
  entity <- get_entity identifier ;;
  vectors <-
    match text with
    | None => ret (dense_vector entity, sparse_vector entity)
    | Some text =>
        if same_text (indexed_text (competency entity)) text
        then ret (dense_vector entity, sparse_vector entity)
        else
          let text := PyStr.strip text in
          if negb (PyStr.truthy text)
          then raise (ValidationError "Text cannot be empty.")
          else
            try_wrap
              (dense_vector <-
                 call (DenseEncode text) (dense_encode self text) ;;
               sparse_vector <-
                 call (SparseEncode text) (sparse_encode self text) ;;
               ret (Some dense_vector, Some sparse_vector))
              (fun e => EmbeddingError ("Encoding error: " ++ e))
    end ;;
  let model :=
    mkUpdate identifier competency' (fst vectors) (snd vectors) in
  call (RepoUpdate model) (repo_update_entity self model).

Definition delete_entity (identifier : Identifier) : M unit :=
  _ <- get_entity identifier ;;
  call (RepoDelete identifier) (repo_delete_entity self identifier).

Definition search_by_text_and_filters_with_type
    (text : string) (filters : list DomainFilter) (top : Z)
    (search_type : string) : M (list SearchResult) :=
  let text := PyStr.strip text in
  if negb (PyStr.truthy text)
  then raise (ValidationError "Searched text cannot be empty.")
  else if search_type =? SearchType.SEMANTIC then
    dense_vector <-
      try_wrap (call (DenseEncode text) (dense_encode self text))
               (fun e => EmbeddingError ("Dense encoding error: " ++ e)) ;;
    call (RepoSearch (OfDense dense_vector) filters top DENSE)
         (repo_search_by_vector_and_filters
            self (OfDense dense_vector) filters top DENSE)
  else if search_type =? SearchType.SPARSE then
    sparse_vector <-
      try_wrap (call (SparseEncode text) (sparse_encode self text))
               (fun e => EmbeddingError ("Sparse encoding error: " ++ e)) ;;
    call (RepoSearch (OfSparse sparse_vector) filters top SPARSE)
         (repo_search_by_vector_and_filters
            self (OfSparse sparse_vector) filters top SPARSE)
  else if search_type =? SearchType.HYBRID then
    vectors <-
      try_wrap
        (dense_vector <-
           call (DenseEncode text) (dense_encode self text) ;;
         sparse_vector <-
           call (SparseEncode text) (sparse_encode self text) ;;
         ret (dense_vector, sparse_vector))
        (fun e => EmbeddingError ("Encoding error: " ++ e)) ;;
    call (RepoHybrid (fst vectors) (snd vectors) filters top)
         (repo_search_hybrid_by_vectors_and_filters
            self (fst vectors) (snd vectors) filters top)
  else
    raise (ValidationError ("Unsupported search type: " ++ search_type)).

End Service.

Arguments mkDense {float}.
Arguments mkSparse {float}.
Arguments mkEntity {float}.
Arguments mkSearchResult {float}.
Arguments mkCreate {float}.
Arguments mkUpdate {float}.
Arguments mkCollaborators {float}.
Arguments OfDense {float}.
Arguments OfSparse {float}.
Arguments DenseEncode {float}.
Arguments SparseEncode {float}.
Arguments RepoCreate {float}.
Arguments RepoGet {float}.
Arguments RepoUpdate {float}.
Arguments RepoDelete {float}.
Arguments RepoSearch {float}.
Arguments RepoHybrid {float}.
Arguments dense_encode {float}.
Arguments sparse_encode {float}.
Arguments repo_create_entity {float}.
Arguments repo_get_entity {float}.
Arguments repo_update_entity {float}.
Arguments repo_delete_entity {float}.
Arguments repo_search_by_vector_and_filters {float}.
Arguments repo_search_hybrid_by_vectors_and_filters {float}.
Arguments identifier {float}.
Arguments competency {float}.
Arguments dense_vector {float}.
Arguments sparse_vector {float}.
Arguments create_competency {float}.
Arguments create_dense_vector {float}.
Arguments create_sparse_vector {float}.
Arguments update_identifier {float}.
Arguments update_competency {float}.
Arguments update_dense_vector {float}.
Arguments update_sparse_vector {float}.
Arguments run {float A}.
Arguments create_entity {float}.
Arguments get_entity {float}.
Arguments update_entity {float}.
Arguments delete_entity {float}.
Arguments search_by_text_and_filters_with_type {float}.

(** What the caller sees of a collaborator's result when the service
    returns it as it is. *)
Definition passed_on {A} (r : string + A) : Exn + A :=
  match r with
  | inl msg => inl (Raised msg)
  | inr a => inr a
  end.

End Domain.

(* ================================================================== *)
(** ** Collection provisioning ([qdrant/client.py]) *)
(* ================================================================== *)

Module QdrantClientWrapper.

(** What [create_collection] answers: [True], or anything else. *)
Inductive Response := IsTrue | IsNotTrue.

(** The store's client, as far as the wrapper calls it. *)
Record Client := mkClient {
  get_collections : string + list string;
  create_collection :
    string -> Z -> string -> string -> string -> string + Response
}.

Inductive ClientCall :=
| GetCollections
| CreateCollection (collection_name : string) (vector_dimensions : Z)
                   (vector_distance : string)
                   (dense_vector_name sparse_vector_name : string).

(** [adapters/exceptions.py] *)
Inductive ProvisioningError := CollectionCreationError (msg : string).

(** The calls made on the client, and how the method ends; the entries
    written to the logger are left out.  The arguments of
    [create_collection] are built inside the second [try], before the
    call: [VectorParams(size, distance)] is a model of the store's library
    and validates them, so what it accepts is the parameter
    [vector_params_accepted]; when it refuses, the client is not called. *)
Definition create_db_collection_if_not_exists
    (vector_params_accepted : Z -> string -> bool) (client : Client)
    (collection_name : string) (vector_dimensions : Z)
    (vector_distance dense_vector_name sparse_vector_name : string)
  : list ClientCall * (ProvisioningError + unit) :=
  let creation :=
    CreateCollection collection_name vector_dimensions vector_distance
      dense_vector_name sparse_vector_name in
  match get_collections client with
  | inl _ =>
      ([GetCollections],
       inl (CollectionCreationError
              ("Error checking collection '" ++ collection_name ++ "'")))
  | inr names =>
      if existsb (String.eqb collection_name) names
      then ([GetCollections], inr tt)
      else if negb (vector_params_accepted vector_dimensions vector_distance)
      then
        ([GetCollections],
         inl (CollectionCreationError
                ("Error creating collection '" ++ collection_name ++ "'")))
      else
        match create_collection client collection_name vector_dimensions
                vector_distance dense_vector_name sparse_vector_name with
        | inl _ =>
            ([GetCollections; creation],
             inl (CollectionCreationError
                    ("Error creating collection '" ++ collection_name
                       ++ "'")))
        | inr IsTrue => ([GetCollections; creation], inr tt)
        | inr IsNotTrue =>
            ([GetCollections; creation],
             inl (CollectionCreationError
                    ("Failed to create collection '" ++ collection_name
                       ++ "'")))
        end
  end.

End QdrantClientWrapper.

(* ================================================================== *)
(** ** The importer's dependencies ([data_importer/dependencies.py]) *)
(* ================================================================== *)

Module Importer.

(** Modelled from the spec: the enumeration [IndexingStrategy] of
    [data_importer/enums.py], a file that is missing; the specification and
    the registry below name its two members. *)
Inductive IndexingStrategy := FIELD_DUPLICATION | FIELD_COMBINATION.

(** An indexing strategy object, of either class. *)
Inductive Strategy :=
| Duplication (s : FieldDuplicationStrategy.t)
| Combination (s : FieldCombinationStrategy.t).

(** What the dependency can raise: the [HTTPException] of the framework,
    or the exception of a strategy's constructor. *)
Inductive DependencyError :=
| HTTPException (status_code : Z) (detail : string)
| FromStrategy (e : StrategyError).

(** The constructor of a strategy class, as the registry holds it. *)
Definition StrategyClass : Type :=
  list string -> DependencyError + Strategy.

Definition FieldDuplicationStrategy_class : StrategyClass :=
  fun fs =>
    match FieldDuplicationStrategy.__init__ fs with
    | inl e => inl (FromStrategy e)
    | inr s => inr (Duplication s)
    end.

Definition FieldCombinationStrategy_class : StrategyClass :=
  fun fs =>
    match FieldCombinationStrategy.__init__ fs with
    | inl e => inl (FromStrategy e)
    | inr s => inr (Combination s)
    end.

Definition INDEXING_STRATEGY : list (IndexingStrategy * StrategyClass) :=
  [ (FIELD_DUPLICATION, FieldDuplicationStrategy_class);
    (FIELD_COMBINATION, FieldCombinationStrategy_class) ].

Definition DEFAULT_STRATEGY : list string :=
  ["title"; "description"; "category"; "keywords"].

Definition same_strategy (a b : IndexingStrategy) : bool :=
  match a, b with
  | FIELD_DUPLICATION, FIELD_DUPLICATION
  | FIELD_COMBINATION, FIELD_COMBINATION => true
  | _, _ => false
  end.

Fixpoint registered (k : IndexingStrategy)
    (d : list (IndexingStrategy * StrategyClass)) : option StrategyClass :=
  match d with
  | [] => None
  | (k', v) :: d' => if same_strategy k k' then Some v else registered k d'
  end.

Definition strategy_name (k : IndexingStrategy) : string :=
  match k with
  | FIELD_DUPLICATION => "field_duplication"
  | FIELD_COMBINATION => "field_combination"
  end.

(** The argument [fields_to_index : list[str] | str | None]. *)
Inductive FieldsToIndex :=
| FieldsStr (s : string)
| FieldsList (l : list string)
| FieldsNone.

(** [[field.strip() for field in l if field.strip()]] *)
Definition stripped_fields (l : list string) : list string :=
  map PyStr.strip (filter (fun field => PyStr.truthy (PyStr.strip field)) l).

Definition get_indexing_strat (fields_to_index : FieldsToIndex)
    (indexing_strategy : IndexingStrategy) : DependencyError + Strategy :=
  match registered indexing_strategy INDEXING_STRATEGY with
  | None =>
      inl (HTTPException 400
             ("Unsupported indexing strategy: "
                ++ strategy_name indexing_strategy))
  | Some strategy_class =>
      let fields_to_index :=
        match fields_to_index with
        | FieldsStr s => stripped_fields (PyStr.split "," s)
        | FieldsList l => stripped_fields l
        | FieldsNone => []
        end in
      if (0 <? List.length fields_to_index)%nat
      then strategy_class fields_to_index
      else FieldDuplicationStrategy_class DEFAULT_STRATEGY
  end.

(** [strategy.expand_competency(competency)], whichever the class. *)
Definition expand_competency (strategy : Strategy) (competency : Competency)
  : StrategyError + list Competency :=
  match strategy with
  | Duplication s => FieldDuplicationStrategy.expand_competency s competency
  | Combination s =>
      inr (FieldCombinationStrategy.expand_competency s competency)
  end.

(** The fields a strategy was built with. *)
Definition fields_of (strategy : Strategy) : list string :=
  match strategy with
  | Duplication s => FieldDuplicationStrategy.fields s
  | Combination s => FieldCombinationStrategy.fields s
  end.

End Importer.

(* ================================================================== *)
(** ** The import route ([data_importer/main.py]) *)
(* ================================================================== *)

Module ImporterMain.

(** A mapper instance, of whichever class the registry holds for the
    provider. *)
Inductive MapperInstance :=
| OfEsco (m : EscoMapper.t)
| OfRome (m : RomeMapper.t)
| OfForma (m : FormaMapper.t)
| OfForma14 (m : Forma14Mapper.t).

(** [mapper_instance.to_competency()] *)
Definition to_competency (mapper_instance : MapperInstance)
  : PydanticError + Competency :=
  match mapper_instance with
  | OfEsco m => EscoMapper.to_competency m
  | OfRome m => inr (RomeMapper.to_competency m)
  | OfForma m => inr (FormaMapper.to_competency m)
  | OfForma14 m => inr (Forma14Mapper.to_competency m)
  end.






End ImporterMain.

(* ================================================================== *)
(** ** The HTTP adapter ([adapters/api/]) *)
(* ================================================================== *)

Module Api.

(** [search/schemas.py]: the string enumerations of the requests. *)
Module APIFilterOperator.

Inductive t :=
| EQUAL | NOT_EQUAL | IN | NOT_IN
| GREATER_THAN | GREATER_THAN_OR_EQUAL
| LESS_THAN | LESS_THAN_OR_EQUAL.

Definition value (op : t) : string :=
  match op with
  | EQUAL => "eq"
  | NOT_EQUAL => "neq"
  | IN => "in"
  | NOT_IN => "nin"
  | GREATER_THAN => "gt"
  | GREATER_THAN_OR_EQUAL => "gte"
  | LESS_THAN => "lt"
  | LESS_THAN_OR_EQUAL => "lte"
  end.

End APIFilterOperator.

Module SearchType.

Inductive t := SEMANTIC | SPARSE | HYBRID.

Definition value (st : t) : string :=
  match st with
  | SEMANTIC => "semantic"
  | SPARSE => "sparse"
  | HYBRID => "hybrid"
  end.

End SearchType.

Record APIFilter := mkAPIFilter {
  api_field : string;
  api_operator : APIFilterOperator.t;
  api_value : PyValue
}.

Record SearchRequest := mkSearchRequest {
  text : string;
  filters : list APIFilter;
  top : Z;
  search_type : SearchType.t
}.

(** [entity/schemas.py] *)
Record CreateEntityRequest := mkCreateEntityRequest {
  create_request_competency : Domain.Competency
}.

Record UpdateEntityRequest := mkUpdateEntityRequest {
  update_request_competency : Domain.Competency
}.

Record EntityResponse := mkEntityResponse {
  response_identifier : Domain.Identifier;
  response_competency : Domain.Competency
}.

(** [mapper.py] *)
Module ApiCompetencyMapper.

Definition domain_to_adapter (competency : Domain.Competency)
  : Domain.Competency :=
  Domain.mkCompetency
    (Domain.code competency) (Domain.lang competency)
    (Domain.type competency) (Domain.provider competency)
    (Domain.title competency) (Domain.url competency)
    (Domain.category competency) (Domain.description competency)
    None None None.

End ApiCompetencyMapper.

Module ApiFilterMapper.

Definition _OPERATOR_MAPPING
  : list (APIFilterOperator.t * DomainFilterOperator) :=
  [ (APIFilterOperator.EQUAL, EQUAL);
    (APIFilterOperator.NOT_EQUAL, NOT_EQUAL);
    (APIFilterOperator.GREATER_THAN, GREATER_THAN);
    (APIFilterOperator.GREATER_THAN_OR_EQUAL, GREATER_THAN_OR_EQUAL);
    (APIFilterOperator.LESS_THAN, LESS_THAN);
    (APIFilterOperator.LESS_THAN_OR_EQUAL, LESS_THAN_OR_EQUAL);
    (APIFilterOperator.IN, IN);
    (APIFilterOperator.NOT_IN, NOT_IN) ].

(** [d.get(k)]: the members of a string enumeration are looked up by
    their value. *)
Fixpoint get {A} (k : APIFilterOperator.t)
    (d : list (APIFilterOperator.t * A)) : option A :=
  match d with
  | [] => None
  | (k', v) :: d' =>
      if APIFilterOperator.value k =? APIFilterOperator.value k'
      then Some v else get k d'
  end.

Definition _get_domain_filter_operator (api_operator : APIFilterOperator.t)
  : Domain.Exn + DomainFilterOperator :=
  match get api_operator _OPERATOR_MAPPING with
  | None =>
      inl (Domain.ValidationError
             ("Unsupported API filter operator: "
                ++ APIFilterOperator.value api_operator))
  | Some domain_operator => inr domain_operator
  end.

Fixpoint map_api_filters_to_domain (api_filters : list APIFilter)
  : Domain.Exn + list DomainFilter :=
  match api_filters with
  | [] => inr []
  | f :: fs =>
      match _get_domain_filter_operator (api_operator f) with
      | inl e => inl e
      | inr op =>
          match map_api_filters_to_domain fs with
          | inl e => inl e
          | inr rest =>
              inr (mkDomainFilter (api_field f) op (api_value f) :: rest)
          end
      end
  end.

End ApiFilterMapper.

Section Routes.

Variable float : Type.

Record SearchResultResponse := mkSearchResultResponse {
  result_identifier : string;
  result_competency : Domain.Competency;
  result_score : float
}.

Record SearchResponse := mkSearchResponse {
  results : list SearchResultResponse
}.

(** [ApiEntityMapper.domain_to_adapter] *)
Definition entity_to_adapter (entity : Domain.Entity float)
  : EntityResponse :=
  mkEntityResponse
    (Domain.identifier entity)
    (ApiCompetencyMapper.domain_to_adapter (Domain.competency entity)).

(** [ApiSearchResultMapper.domain_to_adapter] *)
Definition search_result_to_adapter
    (search_result : Domain.SearchResult float) : SearchResultResponse :=
  mkSearchResultResponse
    (Domain.identifier (Domain.entity float search_result))
    (ApiCompetencyMapper.domain_to_adapter
       (Domain.competency (Domain.entity float search_result)))
    (Domain.score float search_result).

(** [ApiSearchResultMapper.domains_to_adapters] *)
Definition domains_to_adapters
    (search_results : list (Domain.SearchResult float))
  : list SearchResultResponse :=
  map search_result_to_adapter search_results.

(** A computation of the adapter that calls no collaborator. *)
Definition pure {A} (r : Domain.Exn + A) : Domain.M float A :=
  fun log => (log, r).

(** [entity/router.py] *)
Definition create_entity (req : CreateEntityRequest)
    (service : Domain.Collaborators float) : Domain.M float EntityResponse :=
  Domain.bind float
    (Domain.create_entity service (create_request_competency req)
       (Domain.indexed_text (create_request_competency req)))
    (fun entity => Domain.ret float (entity_to_adapter entity)).

Definition get_entity (entity_id : Domain.Identifier)
    (service : Domain.Collaborators float) : Domain.M float EntityResponse :=
  Domain.bind float
    (Domain.get_entity service entity_id)
    (fun entity => Domain.ret float (entity_to_adapter entity)).

Definition update_entity (entity_id : Domain.Identifier)
    (req : UpdateEntityRequest) (service : Domain.Collaborators float)
  : Domain.M float EntityResponse :=
  Domain.bind float
    (Domain.update_entity service entity_id (update_request_competency req)
       (if PyList.truthy_opt
             (Domain.indexed_text (update_request_competency req))
        then Domain.indexed_text (update_request_competency req)
        else None))
    (fun entity => Domain.ret float (entity_to_adapter entity)).

Definition delete_entity (entity_id : Domain.Identifier)
    (service : Domain.Collaborators float) : Domain.M float unit :=
  Domain.delete_entity service entity_id.

(** [DomainSearchType(value)]: the member with that value; the
    enumeration raises [ValueError] for any other value. *)
Definition DomainSearchType (value : string) : Domain.Exn + string :=
  if (value =? Domain.SearchType.SEMANTIC)
     || (value =? Domain.SearchType.SPARSE)
     || (value =? Domain.SearchType.HYBRID)
  then inr value
  else inl (Domain.Raised ("'" ++ value ++ "' is not a valid SearchType")).

(** [search/router.py] *)
Definition search (req : SearchRequest)
    (service : Domain.Collaborators float) : Domain.M float SearchResponse :=
  Domain.bind float
    (pure (ApiFilterMapper.map_api_filters_to_domain (filters req)))
    (fun domain_filters =>
  Domain.bind float
    (pure (DomainSearchType (SearchType.value (search_type req))))
    (fun domain_search_type =>
  Domain.bind float
    (Domain.search_by_text_and_filters_with_type
       service (text req) domain_filters (top req) domain_search_type)
    (fun results =>
  Domain.ret float (mkSearchResponse (domains_to_adapters results))))).

End Routes.

Arguments mkSearchResultResponse {float}.
Arguments result_identifier {float}.
Arguments result_competency {float}.
Arguments result_score {float}.
Arguments mkSearchResponse {float}.
Arguments results {float}.
Arguments entity_to_adapter {float}.
Arguments search_result_to_adapter {float}.
Arguments domains_to_adapters {float}.
Arguments create_entity {float}.
Arguments get_entity {float}.
Arguments update_entity {float}.
Arguments delete_entity {float}.
Arguments search {float}.

(** [exception_handler.py], [adapters/exceptions.py]: the class of an
    exception, [type(exc)]. *)
Module ExceptionHandler.

Inductive ExceptionType :=
| ValidationError | EntityNotFoundError | EmbeddingError | DomainError
| EncodingError | ModelLoadingError | EmbeddingAdapterError
| DBConnectionError | CollectionCreationError | RepositoryError
| DBAdapterError | AdapterError
| OtherException (name : string).

Definition same_type (a b : ExceptionType) : bool :=
  match a, b with
  | ValidationError, ValidationError
  | EntityNotFoundError, EntityNotFoundError
  | EmbeddingError, EmbeddingError
  | DomainError, DomainError
  | EncodingError, EncodingError
  | ModelLoadingError, ModelLoadingError
  | EmbeddingAdapterError, EmbeddingAdapterError
  | DBConnectionError, DBConnectionError
  | CollectionCreationError, CollectionCreationError
  | RepositoryError, RepositoryError
  | DBAdapterError, DBAdapterError
  | AdapterError, AdapterError => true
  | OtherException n, OtherException m => n =? m
  | _, _ => false
  end.

Definition HTTP_400_BAD_REQUEST : Z := 400.
Definition HTTP_404_NOT_FOUND : Z := 404.
Definition HTTP_500_INTERNAL_SERVER_ERROR : Z := 500.

Definition error_mapping : list (ExceptionType * Z) :=
  [ (ValidationError, HTTP_400_BAD_REQUEST);
    (EntityNotFoundError, HTTP_404_NOT_FOUND);
    (EmbeddingError, HTTP_500_INTERNAL_SERVER_ERROR);
    (EncodingError, HTTP_500_INTERNAL_SERVER_ERROR);
    (ModelLoadingError, HTTP_500_INTERNAL_SERVER_ERROR);
    (DBConnectionError, HTTP_500_INTERNAL_SERVER_ERROR);
    (CollectionCreationError, HTTP_500_INTERNAL_SERVER_ERROR);
    (RepositoryError, HTTP_500_INTERNAL_SERVER_ERROR);
    (EmbeddingAdapterError, HTTP_500_INTERNAL_SERVER_ERROR);
    (DBAdapterError, HTTP_500_INTERNAL_SERVER_ERROR);
    (AdapterError, HTTP_500_INTERNAL_SERVER_ERROR);
    (DomainError, HTTP_500_INTERNAL_SERVER_ERROR) ].

(** [d.get(k, default)] *)
Fixpoint get (k : ExceptionType) (d : list (ExceptionType * Z))
    (default : Z) : Z :=
  match d with
  | [] => default
  | (k', v) :: d' => if same_type k k' then v else get k d' default
  end.

Record JSONResponse := mkJSONResponse {
  status_code : Z;
  detail : string
}.

(** The exception is given by its class and its text [str(exc)]; the
    entry written to the request's logger is left out. *)
Definition known_exception_handler
    (exc_type : ExceptionType) (exc_text : string) : JSONResponse :=
  mkJSONResponse
    (get exc_type error_mapping HTTP_500_INTERNAL_SERVER_ERROR) exc_text.

Definition global_exception_handler
    (exc_type : ExceptionType) (exc_text : string) : JSONResponse :=
  mkJSONResponse HTTP_500_INTERNAL_SERVER_ERROR "An error occurred.".

End ExceptionHandler.

End Api.

(* ================================================================== *)
(** ** Vocabulary of the properties *)
(* ================================================================== *)

(** The operators the specification lists as positive (must-match) ... *)
Definition positive_operator (op : DomainFilterOperator) : bool :=
  match op with
  | EQUAL | GREATER_THAN | GREATER_THAN_OR_EQUAL
  | LESS_THAN | LESS_THAN_OR_EQUAL | IN => true
  | NOT_EQUAL | NOT_IN => false
  end.

(** ... and as negative (must-not-match). *)
Definition negative_operator (op : DomainFilterOperator) : bool :=
  match op with
  | NOT_EQUAL | NOT_IN => true
  | _ => false
  end.

Definition positive_filters (filters : list DomainFilter) :=
  filter (fun f => positive_operator (operator f)) filters.
Definition negative_filters (filters : list DomainFilter) :=
  filter (fun f => negative_operator (operator f)) filters.

(** The filters of the specification's example:
    [(a, EQ, 1), (b, NEQ, 2), (c, IN, [3,4])]. *)
Definition example_filters : list DomainFilter :=
  [ mkDomainFilter "a" EQUAL (VScalar (SInt 1));
    mkDomainFilter "b" NOT_EQUAL (VScalar (SInt 2));
    mkDomainFilter "c" IN (VList [SInt 3; SInt 4]) ].

Definition all_strings (l : list PyScalar) : bool :=
  forallb (fun x => match x with SStr _ => true | _ => false end) l.

Definition all_integers (l : list PyScalar) : bool :=
  forallb (fun x => match x with SInt _ => true | _ => false end) l.

(** Sample store models for the examples.  They follow the declared types
    of the store's models on the values the examples use: a boolean, an
    integer or a string is accepted as a matched value, a list of strings
    or of integers as a membership set, an integer as a bound, [None]
    leaves the bound out, and text that is no number is refused as a
    bound.  On the other values (a float, a boolean or text holding a
    number as a bound) they are a sample only. *)
Definition sample_models : Qdrant.StoreModels Z :=
  Qdrant.mkStoreModels Z
    (fun v => match v with
              | VScalar (SBool _) | VScalar (SInt _) | VScalar (SStr _) => true
              | _ => false
              end)
    (fun v => match v with
              | VList l => all_strings l || all_integers l
              | _ => false
              end)
    (fun v => match v with
              | VScalar (SInt n) => Some (Some n)
              | VNone => Some None
              | _ => None
              end).

(** A text that differs from the stored one only by surrounding white
    space: not the same string, the same once trimmed. *)
Definition differs_only_by_surrounding_whitespace (text stored : string)
  : Prop :=
  text <> stored /\ PyStr.strip text = PyStr.strip stored.

(** *** Sample collaborators *)

Module Fixtures.

Import Domain.

Definition competency_with (text : option string) : Domain.Competency :=
  Domain.mkCompetency "C1" EN SKILL ESCO "Baker" None None None None text None.

Definition stored_dense : DenseVector Z := mkDense [1; 2]%Z.
Definition stored_sparse : SparseVector Z := mkSparse [0]%Z [3]%Z.
Definition fresh_dense : DenseVector Z := mkDense [7; 8]%Z.
Definition fresh_sparse : SparseVector Z := mkSparse [4]%Z [9]%Z.

(** The store holds the entity ["e1"], indexed under ["baker"], and the
    entity ["e0"], whose indexed text is empty. *)
Definition stored (identifier : Identifier) : option (Entity Z) :=
  if identifier =? "e1" then
    Some (mkEntity "e1" (competency_with (Some "baker"))
            (Some stored_dense) (Some stored_sparse))
  else if identifier =? "e0" then
    Some (mkEntity "e0" (competency_with (Some ""))
            (Some stored_dense) (Some stored_sparse))
  else None.

(** Encoders that return, and a store that answers. *)
Definition working : Collaborators Z :=
  mkCollaborators
    (fun _ => inr fresh_dense)
    (fun _ => inr fresh_sparse)
    (fun model =>
       inr (mkEntity "new" (create_competency model)
              (Some (create_dense_vector model))
              (Some (create_sparse_vector model))))
    (fun identifier => inr (stored identifier))
    (fun model =>
       inr (mkEntity (update_identifier model) (update_competency model)
              (update_dense_vector model) (update_sparse_vector model)))
    (fun _ => inr tt)
    (fun _ _ _ _ => inr [])
    (fun _ _ _ _ => inr []).

(** The same, with a dense encoder that raises. *)
Definition dense_down : Collaborators Z :=
  mkCollaborators
    (fun _ => inl "model not loaded")
    (sparse_encode working)
    (repo_create_entity working)
    (repo_get_entity working)
    (repo_update_entity working)
    (repo_delete_entity working)
    (repo_search_by_vector_and_filters working)
    (repo_search_hybrid_by_vectors_and_filters working).

End Fixtures.

(** *** Indexing strategies *)

(** The field names the strategies recognise. *)
Definition recognised_fields : list string :=
  [IndexingField.TITLE; IndexingField.DESCRIPTION;
   IndexingField.CATEGORY; IndexingField.KEYWORDS].

(** A competency whose title ends with a period. *)
Definition baker_competency : Competency :=
  mkCompetency "C1" EN OCCUPATION ESCO "Baker." None None None None None.

(** *** Keyword lists *)

(** Ascending order of a keyword list, as [sorted] leaves it: every entry
    is at most each entry that follows it. *)
Definition ascending (l : list string) : Prop :=
  StronglySorted (fun a b => String.leb a b = true) l.

(** No two entries equal up to case. *)
Definition no_duplicates_ignoring_case (l : list string) : Prop :=
  NoDup (map PyStr.lower l).

(** [str.isascii]: every character is below 128.  On such text the case
    mapping of [PyStr] is Python's. *)
Definition isascii (s : string) : bool :=
  forallb (fun c => (nat_of_ascii c <? 128)%nat) (list_ascii_of_string s).

(** *** Trimmed text *)

(** The first character is no white space. *)
Definition starts_nonspace (s : string) : Prop :=
  match s with
  | EmptyString => False
  | String c _ => PyStr.isspace c = false
  end.

(** The last character is no white space. *)
Fixpoint ends_nonspace (s : string) : Prop :=
  match s with
  | EmptyString => False
  | String c EmptyString => PyStr.isspace c = false
  | String _ r => ends_nonspace r
  end.

(** A text with something to read at both ends: what trimming leaves of
    a text that is not blank. *)
Definition trimmed (s : string) : Prop :=
  starts_nonspace s /\ ends_nonspace s.

(** *** Sample provider records *)

(** An ESCO record with the given title and alternative labels. *)
Definition esco_record (preferred_label : string) (alt : option string)
  : EscoMapper.t :=
  EscoMapper.mk ESCO OCCUPATION EN preferred_label "Bakes bread."
    "http://data.europa.eu/esco/occupation/baker" alt None None None None
    None.

(** A ROME record with the given appellations. *)
Definition rome_record (appellations : list string) : RomeMapper.t :=
  RomeMapper.mk ROME OCCUPATION FR "D1102" "Boulangerie" "Alimentation"
    "Fabrication de pains." appellations None.

(** A FORMA record with the given ROME field. *)
Definition forma_record (rome : option string) : FormaMapper.t :=
  FormaMapper.mk FORMA SKILL FR 21528 "boulangerie" "21500 alimentation"
    None None None None None None rome None None None.

(** *** Reading a trace of calls *)

Module Trace.

Import Domain.

(** The texts handed to the encoders, in order. *)
Definition encoder_texts {float} (log : list (Call float)) : list string :=
  flat_map (fun c => match c with
                     | DenseEncode t | SparseEncode t => [t]
                     | _ => []
                     end) log.

(** A call that changes the store. *)
Definition is_write {float} (c : Call float) : bool :=
  match c with
  | RepoCreate _ | RepoUpdate _ | RepoDelete _ => true
  | _ => false
  end.

(** A call on the repository. *)
Definition is_repository_call {float} (c : Call float) : bool :=
  match c with
  | DenseEncode _ | SparseEncode _ => false
  | _ => true
  end.

(** A search on the repository. *)
Definition is_search_call {float} (c : Call float) : bool :=
  match c with
  | RepoSearch _ _ _ _ | RepoHybrid _ _ _ _ => true
  | _ => false
  end.

End Trace.

(** *** What a response shows *)

(** A competency as the API shows it: without keywords, indexed text
    and metadata. *)
Definition hides_indexing_fields (c : Domain.Competency) : Prop :=
  Domain.keywords c = None
  /\ Domain.indexed_text c = None
  /\ Domain.metadata c = None.

(** The API operators that exclude: [neq] and [nin]. *)
Definition excluding_operator (op : Api.APIFilterOperator.t) : bool :=
  match op with
  | Api.APIFilterOperator.NOT_EQUAL | Api.APIFilterOperator.NOT_IN => true
  | _ => false
  end.

(** *** Documents of a competency *)

(** The values a competency holds in a field the strategies recognise. *)
Definition field_values (c : Competency) (field : string) : list string :=
  if field =? "title" then [title c]
  else if field =? "description" then
    match description c with Some v => [v] | None => [] end
  else if field =? "category" then
    match category c with Some v => [v] | None => [] end
  else if field =? "keywords" then
    match keywords c with Some l => l | None => [] end
  else [].

(** A value with something to read in it. *)
Definition nonblank (v : string) : bool := PyStr.truthy (PyStr.strip v).

(** The documents of a competency for a list of fields: for each field in
    turn, one copy of the competency per value that is not blank, indexed
    under that value. *)
Definition documents_of (c : Competency) (fs : list string)
  : list Competency :=
  flat_map (fun f => map (with_indexed_text c)
                         (filter nonblank (field_values c f))) fs.

(** A string of decimal digits. *)
Fixpoint all_digits (s : string) : Prop :=
  match s with
  | EmptyString => True
  | String c r => PyStr.isdigit c = true /\ all_digits r
  end.

(** A mapper's output is indexed as asked: under the override when one
    is given and not empty, under its own title otherwise. *)
Definition indexed_as_asked (override : option string) (c : Competency)
  : Prop :=
  (forall v, override = Some v -> v <> "" -> indexed_text c = Some v)
  /\ (override = None \/ override = Some "" ->
      indexed_text c = Some (title c)).

(** The strategy the dependency falls back on. *)
Definition default_strategy : Importer.Strategy :=
  Importer.Duplication
    (FieldDuplicationStrategy.mk ["title"; "description"; "category";
                                  "keywords"]).

(** A competency with a description and two keywords. *)
Definition pastry_competency : Competency :=
  mkCompetency "C2" EN OCCUPATION ESCO "Pastry chef" None None
    (Some "Makes pastries") (Some ["Confectioner"; "  "; "Baker"]) None.

(* ================================================================== *)
(** * Properties *)
(* ================================================================== *)

(** ** Truth of a string *)

Lemma truthy_false s : PyStr.truthy s = false <-> s = "".
Proof. destruct s; simpl; split; congruence. Qed.

Lemma truthy_true s : PyStr.truthy s = true <-> s <> "".
Proof. destruct s; simpl; split; congruence. Qed.

(** ** Order of strings, [sorted] and [set] *)

Lemma ascii_compare_trans_lt a b c :
  Ascii.compare a b = Lt -> Ascii.compare b c = Lt -> Ascii.compare a c = Lt.
Proof.
  unfold Ascii.compare. rewrite !N.compare_lt_iff. apply N.lt_trans.
Qed.

Lemma ascii_compare_refl a : Ascii.compare a a = Eq.
Proof. apply N.compare_refl. Qed.

Lemma string_compare_refl a : String.compare a a = Eq.
Proof.
  induction a as [|x a IH]; simpl; [reflexivity|].
  now rewrite ascii_compare_refl.
Qed.

Lemma string_compare_trans_lt : forall a b c,
  String.compare a b = Lt -> String.compare b c = Lt ->
  String.compare a c = Lt.
Proof.
  induction a as [|x a IH]; intros [|y b] [|z c]; simpl; try congruence.
  destruct (Ascii.compare x y) eqn:Hxy; try discriminate;
    destruct (Ascii.compare y z) eqn:Hyz; try discriminate; intros Hab Hbc.
  - apply Ascii.compare_eq_iff in Hxy, Hyz. subst.
    rewrite ascii_compare_refl. eauto.
  - apply Ascii.compare_eq_iff in Hxy. subst. now rewrite Hyz.
  - apply Ascii.compare_eq_iff in Hyz. subst. now rewrite Hxy.
  - now rewrite (ascii_compare_trans_lt _ _ _ Hxy Hyz).
Qed.

Lemma string_leb_trans a b c :
  String.leb a b = true -> String.leb b c = true -> String.leb a c = true.
Proof.
  unfold String.leb.
  destruct (String.compare a b) eqn:Hab; try discriminate;
    destruct (String.compare b c) eqn:Hbc; try discriminate; intros _ _.
  - apply String.compare_eq_iff in Hab, Hbc. subst.
    now rewrite string_compare_refl.
  - apply String.compare_eq_iff in Hab. subst. now rewrite Hbc.
  - apply String.compare_eq_iff in Hbc. subst. now rewrite Hab.
  - now rewrite (string_compare_trans_lt _ _ _ Hab Hbc).
Qed.

Lemma string_leb_false a b :
  String.leb a b = false -> String.leb b a = true.
Proof. destruct (String.leb_total a b); congruence. Qed.

Lemma insert_perm x l : Permutation (PyList.insert x l) (x :: l).
Proof.
  induction l as [|h t IH]; simpl; [reflexivity|].
  destruct (String.leb x h); [reflexivity|].
  rewrite IH. apply perm_swap.
Qed.

Lemma sorted_perm l : Permutation (PyList.sorted l) l.
Proof.
  induction l as [|h t IH]; simpl; [reflexivity|].
  rewrite insert_perm. now constructor.
Qed.

Lemma in_sorted x l : In x (PyList.sorted l) <-> In x l.
Proof.
  split; apply Permutation_in;
    [apply sorted_perm | symmetry; apply sorted_perm].
Qed.

Lemma in_sorted_set x l : In x (PyList.sorted (PyList.set_of l)) <-> In x l.
Proof. unfold PyList.set_of. now rewrite in_sorted, nodup_In. Qed.

Lemma insert_ascending x l : ascending l -> ascending (PyList.insert x l).
Proof.
  unfold ascending.
  induction l as [|h t IH]; intros Hl; simpl.
  - constructor; constructor.
  - destruct (String.leb x h) eqn:Hxh.
    + constructor; [exact Hl|].
      constructor; [exact Hxh|].
      apply StronglySorted_inv in Hl. destruct Hl as [_ Hall].
      eapply Forall_impl; [|exact Hall].
      intros y Hy. eapply string_leb_trans; eauto.
    + apply StronglySorted_inv in Hl. destruct Hl as [Ht Hall].
      constructor; [auto|].
      rewrite Forall_forall in *. intros y Hy.
      apply (Permutation_in _ (insert_perm x t)) in Hy.
      destruct Hy as [<-|Hy]; [now apply string_leb_false|auto].
Qed.

Lemma sorted_ascending l : ascending (PyList.sorted l).
Proof.
  induction l as [|h t IH]; simpl; [constructor|].
  now apply insert_ascending.
Qed.

Lemma sorted_set_nodup l : NoDup (PyList.sorted (PyList.set_of l)).
Proof.
  eapply Permutation_NoDup; [symmetry; apply sorted_perm|].
  apply NoDup_nodup.
Qed.

Lemma filter_ascending f l : ascending l -> ascending (filter f l).
Proof.
  unfold ascending. induction 1 as [|h t Ht IH Hall]; simpl; [constructor|].
  destruct (f h); [|exact IH].
  constructor; [exact IH|].
  rewrite Forall_forall in *. intros y Hy.
  apply filter_In in Hy. now apply Hall.
Qed.

(** ** Trimming and splitting *)

Lemma rstrip_cons_nonspace c r :
  PyStr.isspace c = false ->
  PyStr.rstrip (String c r) = String c (PyStr.rstrip r).
Proof. intros Hc. simpl. rewrite Hc. now destruct (PyStr.rstrip r). Qed.

Lemma lstrip_starts s : starts_nonspace s -> PyStr.lstrip s = s.
Proof. destruct s as [|c r]; simpl; [tauto|]. now intros ->. Qed.

Lemma rstrip_ends s : ends_nonspace s -> PyStr.rstrip s = s.
Proof.
  induction s as [|c r IH]; [simpl; tauto|].
  destruct r as [|d r'].
  - simpl. now intros ->.
  - intros H. change (ends_nonspace (String d r')) in H.
    specialize (IH H). simpl in *. now rewrite IH.
Qed.

Lemma strip_trimmed s : trimmed s -> PyStr.strip s = s.
Proof.
  intros [Hs He]. unfold PyStr.strip.
  rewrite (lstrip_starts _ Hs). now apply rstrip_ends.
Qed.

Lemma lstrip_result s :
  PyStr.lstrip s = "" \/ starts_nonspace (PyStr.lstrip s).
Proof.
  induction s as [|c r IH]; simpl; [now left|].
  destruct (PyStr.isspace c) eqn:Hc; [exact IH|].
  right. exact Hc.
Qed.

Lemma rstrip_result s :
  PyStr.rstrip s = "" \/ ends_nonspace (PyStr.rstrip s).
Proof.
  induction s as [|c r IH]; simpl; [now left|].
  destruct (PyStr.rstrip r) as [|d r'] eqn:Hr.
  - destruct (PyStr.isspace c) eqn:Hc; [now left|].
    right. exact Hc.
  - right. destruct IH as [IH|IH]; [discriminate|exact IH].
Qed.

Lemma strip_result s : PyStr.strip s = "" \/ trimmed (PyStr.strip s).
Proof.
  unfold PyStr.strip, trimmed.
  destruct (lstrip_result s) as [-> | Hs]; [now left|].
  destruct (PyStr.lstrip s) as [|c r] eqn:Hl; [destruct Hs|].
  simpl in Hs. rewrite (rstrip_cons_nonspace _ _ Hs).
  right. split; [exact Hs|].
  destruct (rstrip_result (String c r)) as [H|H];
    rewrite (rstrip_cons_nonspace _ _ Hs) in H; [discriminate|exact H].
Qed.

Lemma strip_idempotent s : PyStr.strip (PyStr.strip s) = PyStr.strip s.
Proof.
  destruct (strip_result s) as [-> | H]; [reflexivity|].
  now apply strip_trimmed.
Qed.

Lemma starts_nonspace_app a b :
  starts_nonspace a -> starts_nonspace (a ++ b).
Proof. destruct a; simpl; tauto. Qed.

Lemma ends_nonspace_app a b :
  ends_nonspace b -> ends_nonspace (a ++ b).
Proof.
  intros Hb. induction a as [|c a IH]; [exact Hb|].
  simpl. destruct (a ++ b) eqn:Hab; [|exact IH].
  destruct IH.
Qed.

Lemma rstrip_app_blank a : PyStr.rstrip (a ++ " ") = PyStr.rstrip a.
Proof.
  induction a as [|c a IH]; [reflexivity|].
  simpl. now rewrite IH.
Qed.

Lemma strip_app_blank a : trimmed a -> PyStr.strip (a ++ " ") = a.
Proof.
  intros [Hs He]. unfold PyStr.strip.
  rewrite (lstrip_starts _ (starts_nonspace_app _ _ Hs)).
  rewrite rstrip_app_blank. now apply rstrip_ends.
Qed.

Lemma strip_blank_app a : trimmed a -> PyStr.strip (" " ++ a) = a.
Proof.
  intros Ha. change (PyStr.strip (" " ++ a)) with (PyStr.strip a).
  now apply strip_trimmed.
Qed.

(** Every word of [s.split()] has something to read at both ends. *)
Lemma split_ws_trimmed s : Forall trimmed (PyStr.split_ws s).
Proof.
  induction s as [|c r IH]; simpl; [constructor|].
  destruct (PyStr.isspace c) eqn:Hc; [exact IH|].
  destruct r as [|d r'].
  - constructor; [|constructor]. now split.
  - destruct (PyStr.isspace d) eqn:Hd.
    + constructor; [now split | exact IH].
    + destruct (PyStr.split_ws (String d r')) as [|w ws];
        [constructor; [now split | constructor]|].
      inversion IH as [|? ? [Hw1 Hw2] Hws]; subst.
      constructor; [|exact Hws].
      split; [exact Hc|].
      destruct w; [destruct Hw1 | exact Hw2].
Qed.

Lemma join_trimmed : forall ws,
  ws <> [] -> Forall trimmed ws -> trimmed (PyStr.join " " ws).
Proof.
  induction ws as [|w ws IH]; intros Hne Hall; [congruence|].
  inversion Hall as [|? ? Hw Hws]; subst.
  destruct ws as [|w' ws']; [exact Hw|].
  change (PyStr.join " " (w :: w' :: ws'))
    with (w ++ " " ++ PyStr.join " " (w' :: ws')).
  destruct Hw as [Hw1 Hw2].
  destruct (IH ltac:(discriminate) Hws) as [_ Hj].
  split; [now apply starts_nonspace_app|].
  now apply ends_nonspace_app, ends_nonspace_app.
Qed.

Lemma trimmed_nonempty s : trimmed s -> s <> "".
Proof. intros [H _] ->. exact H. Qed.

(** Splitting on the slash. *)
Lemma prefix_slash c r :
  prefix "/" (String c r) = if ascii_dec "/"%char c then true else false.
Proof.
  cbn [prefix]. destruct (ascii_dec "/"%char c); [now destruct r|reflexivity].
Qed.

Lemma split_without_slash s :
  PyStr.contains "/" s = false -> PyStr.split "/" s = [s].
Proof.
  unfold PyStr.split.
  induction s as [|c r IH]; [reflexivity|].
  cbn [PyStr.contains PyStr.split_go]. intros H.
  apply orb_false_elim in H. destruct H as [Hp Hr].
  rewrite Hp, (IH Hr). reflexivity.
Qed.

Lemma split_one_slash l r :
  PyStr.contains "/" l = false -> PyStr.contains "/" r = false ->
  PyStr.split "/" (l ++ "/" ++ r) = [l; r].
Proof.
  intros Hl Hr. unfold PyStr.split.
  induction l as [|c l IH].
  - change ("" ++ "/" ++ r) with (String "/" r).
    cbn [PyStr.split_go]. rewrite prefix_slash.
    destruct (ascii_dec "/"%char "/"%char); [|congruence].
    change (String.length "/" - 1)%nat with 0%nat.
    fold (PyStr.split "/" r). now rewrite (split_without_slash r Hr).
  - cbn [PyStr.contains] in Hl. apply orb_false_elim in Hl.
    destruct Hl as [Hp Hl].
    change (String c l ++ "/" ++ r) with (String c (l ++ "/" ++ r)).
    cbn [PyStr.split_go].
    rewrite prefix_slash in *.
    destruct (ascii_dec "/"%char c); [discriminate|].
    now rewrite (IH Hl).
Qed.

Lemma contains_of_two_parts s :
  List.length (PyStr.split "/" s) = 2%nat -> PyStr.contains "/" s = true.
Proof.
  intros H. destruct (PyStr.contains "/" s) eqn:Hc; [reflexivity|].
  rewrite (split_without_slash s Hc) in H. discriminate.
Qed.

(** ** The ROME appellation splitter *)

Lemma Forall_firstn {A} (P : A -> Prop) n : forall l,
  Forall P l -> Forall P (firstn n l).
Proof.
  induction n as [|n IH]; intros [|x l] H; simpl; try constructor;
    inversion H; subst; auto.
Qed.

Lemma Forall_skipn {A} (P : A -> Prop) n : forall l,
  Forall P l -> Forall P (skipn n l).
Proof.
  induction n as [|n IH]; intros [|x l] H; simpl; auto.
  inversion H; subst; auto.
Qed.

Lemma leading_words_trimmed n s :
  (0 < n)%nat -> PyStr.split_ws s <> [] ->
  trimmed (PyStr.join " " (firstn n (PyStr.split_ws s))).
Proof.
  intros Hn Hne. apply join_trimmed.
  - intros H. apply (f_equal (@List.length string)) in H.
    rewrite length_firstn in H. simpl in H.
    destruct (PyStr.split_ws s); [congruence|]. simpl in H. lia.
  - apply Forall_firstn, split_ws_trimmed.
Qed.

Lemma trailing_words_trimmed n s :
  (n < List.length (PyStr.split_ws s))%nat ->
  trimmed (PyStr.join " " (skipn n (PyStr.split_ws s))).
Proof.
  intros Hn. apply join_trimmed.
  - intros H. apply (f_equal (@List.length string)) in H.
    rewrite length_skipn in H. simpl in H. lia.
  - apply Forall_skipn, split_ws_trimmed.
Qed.

Lemma trimmed_around_blank a b :
  trimmed a -> trimmed b -> trimmed (a ++ " " ++ b).
Proof.
  intros [Ha _] [_ Hb]. split.
  - now apply starts_nonspace_app.
  - now apply ends_nonspace_app, ends_nonspace_app.
Qed.

Lemma stripped_part x : PyStr.strip x = "" \/ trimmed (PyStr.strip x).
Proof. apply strip_result. Qed.

(** C7 (as amended).  The ROME appellation splitter: without a slash the
    string comes back as the single item; when the split on the slash gives
    exactly two parts, trimmed into [left] and [right], then with more
    words on the left the result is [left; prefix ++ " " ++ right], the
    prefix being the excess leading words of [left] (and [left; prefix]
    when [right] is empty), with more words on the right it is
    [left ++ " " ++ suffix; right], the suffix being the excess trailing
    words of [right] (and [suffix; right] when [left] is empty), and with
    as many words on both sides it is [left; right]; with any other number
    of parts the string comes back as the single item. *)
Theorem clean_rome_appelation_cases (appelation : string) :
  (PyStr.contains "/" appelation = false ->
     RomeMapper.clean_rome_appelation appelation = [appelation])
  /\ (forall left right,
      map PyStr.strip (PyStr.split "/" appelation) = [left; right] ->
      let words_left := PyStr.split_ws left in
      let words_right := PyStr.split_ws right in
      ((List.length words_right < List.length words_left)%nat ->
         let prefix :=
           PyStr.join " "
             (firstn (List.length words_left - List.length words_right)
                     words_left) in
         (right <> "" ->
            RomeMapper.clean_rome_appelation appelation
              = [left; prefix ++ " " ++ right])
         /\ (right = "" ->
            RomeMapper.clean_rome_appelation appelation = [left; prefix]))
      /\ ((List.length words_left < List.length words_right)%nat ->
         let suffix :=
           PyStr.join " " (skipn (List.length words_left) words_right) in
         (left <> "" ->
            RomeMapper.clean_rome_appelation appelation
              = [left ++ " " ++ suffix; right])
         /\ (left = "" ->
            RomeMapper.clean_rome_appelation appelation = [suffix; right]))
      /\ (List.length words_left = List.length words_right ->
          RomeMapper.clean_rome_appelation appelation = [left; right]))
  /\ (PyStr.contains "/" appelation = true ->
      List.length (PyStr.split "/" appelation) <> 2%nat ->
      RomeMapper.clean_rome_appelation appelation = [appelation]).
Proof.
  split; [|split].
  - intros Hc. unfold RomeMapper.clean_rome_appelation. now rewrite Hc.
  - intros left right Hparts words_left words_right.
    assert (Hc : PyStr.contains "/" appelation = true).
    { apply contains_of_two_parts.
      rewrite <- (length_map PyStr.strip), Hparts. reflexivity. }
    assert (Hl : PyStr.strip left = left /\ (left = "" \/ trimmed left)).
    { destruct (PyStr.split "/" appelation) as [|x [|y [|z l]]];
        try discriminate.
      injection Hparts as <- _.
      split; [apply strip_idempotent | apply stripped_part]. }
    assert (Hr : PyStr.strip right = right /\ (right = "" \/ trimmed right)).
    { destruct (PyStr.split "/" appelation) as [|x [|y [|z l]]];
        try discriminate.
      injection Hparts as _ <-.
      split; [apply strip_idempotent | apply stripped_part]. }
    destruct Hl as [Hsl Hl], Hr as [Hsr Hr].
    assert (Hrun :
      RomeMapper.clean_rome_appelation appelation
      = let '(first, second) :=
          if (List.length words_right <? List.length words_left)%nat then
            (left,
             PyStr.join " "
               (RomeMapper.first_words
                  (List.length words_left - List.length words_right)
                  words_left) ++ " " ++ right)
          else if (List.length words_left <? List.length words_right)%nat then
            (left ++ " "
               ++ PyStr.join " "
                    (RomeMapper.last_words
                       (List.length words_right - List.length words_left)
                       words_right),
             right)
          else (left, right) in
        [PyStr.strip first; PyStr.strip second]).
    { unfold RomeMapper.clean_rome_appelation.
      rewrite Hc, Hparts. reflexivity. }
    rewrite Hrun. clear Hrun.
    split; [|split].
    + intros Hlt prefix.
      rewrite (proj2 (Nat.ltb_lt _ _) Hlt).
      fold (RomeMapper.first_words
              (List.length words_left - List.length words_right) words_left).
      unfold RomeMapper.first_words. fold prefix.
      assert (Hp : trimmed prefix).
      { apply leading_words_trimmed; [lia|].
        fold words_left. intros H. rewrite H in Hlt. simpl in Hlt. lia. }
      rewrite Hsl. split.
      * intros Hne. destruct Hr as [Hr|Hr]; [congruence|].
        now rewrite (strip_trimmed _ (trimmed_around_blank _ _ Hp Hr)).
      * intros ->. change (prefix ++ " " ++ "") with (prefix ++ " ").
        now rewrite (strip_app_blank _ Hp).
    + intros Hlt suffix.
      rewrite (proj2 (Nat.ltb_ge _ _) (Nat.lt_le_incl _ _ Hlt)).
      rewrite (proj2 (Nat.ltb_lt _ _) Hlt).
      unfold RomeMapper.last_words.
      replace (List.length words_right
               - (List.length words_right - List.length words_left))%nat
        with (List.length words_left) by lia.
      fold suffix.
      assert (Hs : trimmed suffix)
        by (apply trailing_words_trimmed; exact Hlt).
      rewrite Hsr. split.
      * intros Hne. destruct Hl as [Hl|Hl]; [congruence|].
        now rewrite (strip_trimmed _ (trimmed_around_blank _ _ Hl Hs)).
      * intros ->. change ("" ++ " " ++ suffix) with (" " ++ suffix).
        now rewrite (strip_blank_app _ Hs).
    + intros Heq. rewrite Heq, Nat.ltb_irrefl. now rewrite Hsl, Hsr.
  - intros Hc Hlen. unfold RomeMapper.clean_rome_appelation.
    rewrite Hc. cbn [negb].
    destruct (PyStr.split "/" appelation) as [|x [|y [|z l]]];
      try reflexivity.
    now elim Hlen.
Qed.

Lemma clean_rome_appelation_cases_witness :
  RomeMapper.clean_rome_appelation
    "Technicien de maintenance industrielle / Technicienne"
  = ["Technicien de maintenance industrielle";
     "Technicien de maintenance Technicienne"].
Proof.
  destruct (clean_rome_appelation_cases
              "Technicien de maintenance industrielle / Technicienne")
    as [_ [H _]].
  destruct (H _ _ eq_refl) as [Hmore _].
  destruct (Hmore ltac:(cbv; lia)) as [Hright _].
  exact (Hright ltac:(discriminate)).
Defined.

(** C7, as stated, fails when the right part is empty: for
    "Commis de cuisine /" the claim has the second item end with a blank,
    the code trims it. *)
Lemma clean_rome_appelation_empty_right :
  map PyStr.strip (PyStr.split "/" "Commis de cuisine /")
    = ["Commis de cuisine"; ""]
  /\ PyStr.split_ws "Commis de cuisine" = ["Commis"; "de"; "cuisine"]
  /\ PyStr.split_ws "" = []
  /\ RomeMapper.clean_rome_appelation "Commis de cuisine /"
     = ["Commis de cuisine"; "Commis de cuisine"]
  /\ RomeMapper.clean_rome_appelation "Commis de cuisine /"
     <> ["Commis de cuisine";
         PyStr.join " " (firstn (3 - 0) ["Commis"; "de"; "cuisine"])
           ++ " " ++ ""].
Proof. repeat split; try reflexivity. discriminate. Qed.

(** ** The ESCO split rule *)

Lemma in_unique_keywords half l :
  In half l -> PyStr.strip half = half -> half <> "" ->
  In (PyStr.capitalize half) (EscoMapper.unique_keywords l).
Proof.
  intros Hin Hs Hne. unfold EscoMapper.unique_keywords.
  apply in_sorted_set, in_map, filter_In. split; [exact Hin|].
  rewrite Hs. now apply truthy_true.
Qed.

Lemma esco_keywords_of_competency r c :
  EscoMapper.to_competency r = inr c ->
  keywords c = Some (EscoMapper.keywords r).
Proof.
  unfold EscoMapper.to_competency.
  destruct (EscoMapper.filled_code r); [|discriminate].
  now intros [= <-].
Qed.

(** C8 (as amended).  For an ESCO record whose cleaned title has exactly
    one slash, each half of the title around the slash that is not empty
    once trimmed is added to the output keywords, capitalised as every
    keyword is; when the split of the cleaned title on the slash does not
    give exactly two parts, the keywords are unaffected by the split: they
    are those of the alternative and hidden labels alone. *)
Theorem esco_title_split_rule (r : EscoMapper.t) (c : Competency) :
  EscoMapper.to_competency r = inr c ->
  (forall left right,
     EscoMapper.cleaned_title r = left ++ "/" ++ right ->
     PyStr.contains "/" left = false ->
     PyStr.contains "/" right = false ->
     forall half,
       In half [PyStr.strip left; PyStr.strip right] -> half <> "" ->
       exists ks, keywords c = Some ks /\ In (PyStr.capitalize half) ks)
  /\ (List.length (PyStr.split "/" (EscoMapper.cleaned_title r)) <> 2%nat ->
      keywords c
      = Some (EscoMapper.unique_keywords
                (EscoMapper.alt_label_keywords r
                   ++ EscoMapper.hidden_label_keywords r)%list)).
Proof.
  intros Hc. rewrite (esco_keywords_of_competency _ _ Hc). split.
  - intros left right Htitle Hl Hr half Hin Hne.
    exists (EscoMapper.keywords r). split; [reflexivity|].
    assert (Hsplit : PyStr.split "/" (EscoMapper.cleaned_title r)
                     = [left; right])
      by (rewrite Htitle; now apply split_one_slash).
    assert (Happ : EscoMapper.appelation_keywords r
                   = [PyStr.strip left; PyStr.strip right]).
    { unfold EscoMapper.appelation_keywords,
        EscoMapper.clean_esco_appelation.
      rewrite (contains_of_two_parts (EscoMapper.cleaned_title r))
        by now rewrite Hsplit.
      now rewrite Hsplit. }
    unfold EscoMapper.keywords. rewrite Happ.
    apply in_unique_keywords; [| |exact Hne].
    + apply in_or_app. right. apply in_or_app. right. exact Hin.
    + destruct Hin as [<-|[<-|[]]]; apply strip_idempotent.
  - intros Hlen. f_equal. unfold EscoMapper.keywords.
    assert (Happ : EscoMapper.appelation_keywords r = []).
    { unfold EscoMapper.appelation_keywords,
        EscoMapper.clean_esco_appelation.
      destruct (PyStr.contains "/" (EscoMapper.cleaned_title r));
        [|reflexivity].
      cbn [negb].
      destruct (PyStr.split "/" (EscoMapper.cleaned_title r))
        as [|x [|y [|z l]]]; try reflexivity.
      now elim Hlen. }
    rewrite Happ. now rewrite app_nil_r.
Qed.

(** The record titled "Baker / Pastry chef": both "Baker" and
    "Pastry chef" are keywords. *)
Lemma esco_title_split_rule_witness :
  exists c,
    EscoMapper.to_competency (esco_record "Baker / Pastry chef" None) = inr c
    /\ (exists ks, keywords c = Some ks /\ In "Baker" ks)
    /\ (exists ks, keywords c = Some ks /\ In "Pastry chef" ks).
Proof.
  eexists. split; [reflexivity|].
  destruct (esco_title_split_rule
              (esco_record "Baker / Pastry chef" None) _ eq_refl)
    as [H _].
  split.
  - exact (H "Baker " " pastry chef" eq_refl eq_refl eq_refl "Baker"
             (or_introl eq_refl) ltac:(discriminate)).
  - exact (H "Baker " " pastry chef" eq_refl eq_refl eq_refl "pastry chef"
             (or_intror (or_introl eq_refl)) ltac:(discriminate)).
Defined.

(** C8, as stated, fails on the title "Baker /": it holds exactly one
    slash, its two trimmed halves are "Baker" and the empty string, and the
    empty half is not added to the keywords, which are "Baker" alone. *)
Lemma esco_empty_half_not_kept :
  EscoMapper.cleaned_title (esco_record "Baker /" None) = "Baker /"
  /\ PyStr.split "/" "Baker /" = ["Baker "; ""]
  /\ map PyStr.strip (PyStr.split "/" "Baker /") = ["Baker"; ""]
  /\ (exists c,
        EscoMapper.to_competency (esco_record "Baker /" None) = inr c
        /\ keywords c = Some ["Baker"])
  /\ ~ In "" (EscoMapper.keywords (esco_record "Baker /" None)).
Proof.
  split; [reflexivity|]. split; [reflexivity|]. split; [reflexivity|].
  split; [eexists; split; reflexivity|].
  intros [H|[]]; discriminate.
Qed.

(** ** The keyword lists of the mappers *)

Lemma lower_char_idempotent c :
  PyStr.lower_char (PyStr.lower_char c) = PyStr.lower_char c.
Proof. destruct c as [[] [] [] [] [] [] [] []]; reflexivity. Qed.

Lemma upper_of_lower_of_upper c :
  PyStr.upper_char (PyStr.lower_char (PyStr.upper_char c))
  = PyStr.upper_char c.
Proof. destruct c as [[] [] [] [] [] [] [] []]; reflexivity. Qed.

Lemma lower_idempotent s : PyStr.lower (PyStr.lower s) = PyStr.lower s.
Proof.
  induction s as [|c r IH]; simpl; [reflexivity|].
  now rewrite lower_char_idempotent, IH.
Qed.

(** A capitalised string is recovered from its lower-case form. *)
Lemma capitalize_of_lower s :
  PyStr.capitalize (PyStr.lower (PyStr.capitalize s)) = PyStr.capitalize s.
Proof.
  destruct s as [|c r]; simpl; [reflexivity|].
  now rewrite upper_of_lower_of_upper, !lower_idempotent.
Qed.

Lemma capitalize_nonempty s : s <> "" -> PyStr.capitalize s <> "".
Proof. destruct s; simpl; congruence. Qed.

Lemma capitalized_distinct_ignoring_case (l : list string) :
  (forall k, In k l -> exists k', k = PyStr.capitalize k') ->
  NoDup l -> no_duplicates_ignoring_case l.
Proof.
  intros Hcap Hnd. apply NoDup_map_NoDup_ForallPairs; [|exact Hnd].
  intros x y Hx Hy Heq.
  destruct (Hcap x Hx) as [x' ->], (Hcap y Hy) as [y' ->].
  rewrite <- (capitalize_of_lower x'), <- (capitalize_of_lower y').
  now rewrite Heq.
Qed.

Lemma esco_keywords_invariant l :
  let ks := EscoMapper.unique_keywords l in
  ascending ks /\ ~ In "" ks /\ NoDup ks
  /\ (Forall (fun k => isascii k = true) ks ->
      no_duplicates_ignoring_case ks).
Proof.
  intros ks. subst ks. unfold EscoMapper.unique_keywords.
  split; [apply sorted_ascending|]. split.
  - intros Hin. apply in_sorted_set, in_map_iff in Hin.
    destruct Hin as [k [Hcap Hk]].
    apply filter_In in Hk. destruct Hk as [_ Hk].
    apply (capitalize_nonempty k); [|exact Hcap].
    intros ->. discriminate.
  - split; [apply sorted_set_nodup|]. intros _.
    apply capitalized_distinct_ignoring_case; [|apply sorted_set_nodup].
    intros k Hk. apply in_sorted_set, in_map_iff in Hk.
    destruct Hk as [k' [<- _]]. now exists k'.
Qed.

(** C3 (as amended).  The keywords of a produced competency are always
    present.  ESCO: they are in ascending order, hold no empty entry and no
    repeated entry, and, when they are ASCII text, no two entries equal up
    to case.  ROME: they are in ascending order without repeated entry.
    FORMA14: they are in ascending order without repeated entry and without
    empty entry.  FORMA: they hold no empty entry. *)
Theorem mapper_keywords_invariant :
  (forall r c, EscoMapper.to_competency r = inr c ->
     exists ks, keywords c = Some ks
       /\ ascending ks /\ ~ In "" ks /\ NoDup ks
       /\ (Forall (fun k => isascii k = true) ks ->
           no_duplicates_ignoring_case ks))
  /\ (forall r,
      exists ks, keywords (RomeMapper.to_competency r) = Some ks
        /\ ascending ks /\ NoDup ks)
  /\ (forall r,
      exists ks, keywords (Forma14Mapper.to_competency r) = Some ks
        /\ ascending ks /\ NoDup ks /\ ~ In "" ks)
  /\ (forall r,
      exists ks, keywords (FormaMapper.to_competency r) = Some ks
        /\ ~ In "" ks).
Proof.
  split; [|split; [|split]].
  - intros r c Hc. exists (EscoMapper.keywords r).
    split; [now apply esco_keywords_of_competency|].
    apply esco_keywords_invariant.
  - intros r. exists (RomeMapper.cleaned_keywords r).
    split; [reflexivity|].
    split; [apply sorted_ascending | apply sorted_set_nodup].
  - intros r. exists (Forma14Mapper.cleaned_keywords r).
    split; [reflexivity|]. unfold Forma14Mapper.cleaned_keywords.
    split; [apply filter_ascending, sorted_ascending|].
    split; [apply NoDup_filter, sorted_set_nodup|].
    intros Hin. apply filter_In in Hin. destruct Hin as [_ Hin].
    discriminate.
  - intros r. exists (FormaMapper.cleaned_keywords r).
    split; [reflexivity|]. unfold FormaMapper.cleaned_keywords.
    intros Hin. apply in_map_iff in Hin. destruct Hin as [k [Hcap Hk]].
    apply filter_In in Hk. destruct Hk as [_ Hk].
    apply (capitalize_nonempty k); [|exact Hcap].
    now apply truthy_true.
Qed.

(** The ESCO record titled "Baker / Pastry chef" with the alternative
    labels "bread maker" and "Baker": its keywords are ASCII text. *)
Lemma mapper_keywords_invariant_witness :
  exists c ks,
    EscoMapper.to_competency
      (esco_record "Baker / Pastry chef" (Some "bread maker | Baker"))
      = inr c
    /\ keywords c = Some ks
    /\ ks = ["Baker"; "Bread maker"; "Pastry chef"]
    /\ ascending ks /\ ~ In "" ks /\ NoDup ks
    /\ no_duplicates_ignoring_case ks.
Proof.
  destruct (proj1 mapper_keywords_invariant
              (esco_record "Baker / Pastry chef"
                 (Some "bread maker | Baker")) _ eq_refl)
    as [ks [Hks [Hasc [Hne [Hnd Hci]]]]].
  assert (Heq : ks = ["Baker"; "Bread maker"; "Pastry chef"]).
  { cbv in Hks. now injection Hks as <-. }
  eexists. exists ks. split; [reflexivity|].
  split; [exact Hks|]. split; [exact Heq|].
  split; [exact Hasc|]. split; [exact Hne|]. split; [exact Hnd|].
  apply Hci. rewrite Heq. repeat constructor.
Defined.

(** C3, as stated, fails for the ROME mapper: with the appellations
    "boulanger", "Boulanger" and the empty string, the keywords keep the
    empty entry and both spellings. *)
Lemma rome_keywords_keep_case_and_empty :
  keywords (RomeMapper.to_competency
              (rome_record ["boulanger"; "Boulanger"; ""]))
    = Some [""; "Boulanger"; "boulanger"]
  /\ In "" [""; "Boulanger"; "boulanger"]
  /\ ~ no_duplicates_ignoring_case [""; "Boulanger"; "boulanger"].
Proof.
  split; [reflexivity|]. split; [now left|].
  unfold no_duplicates_ignoring_case. intros H.
  apply NoDup_cons_iff in H. destruct H as [_ H].
  apply NoDup_cons_iff in H. destruct H as [H _].
  apply H. now left.
Qed.

(** The FORMA mapper capitalises after it has sorted and removed the
    repeated entries: two ROME terms that differ by case come out as the
    same keyword twice. *)
Example forma_keywords_capitalised_after_sorting :
  keywords (FormaMapper.to_competency
              (forma_record (Some "D1102 boulanger$D1102 Boulanger")))
  = Some ["Boulanger"; "Boulanger"].
Proof. reflexivity. Qed.

(** ** Filter translation *)

Lemma conditions_or_none {Number} (l : list (Qdrant.FieldCondition Number)) :
  Qdrant.conditions (Qdrant.or_none l) = l.
Proof. destruct l; reflexivity. Qed.

Lemma or_none_spec {A} (l : list A) :
  Qdrant.or_none l <> Some [] /\ (Qdrant.or_none l = None <-> l = []).
Proof. destruct l; simpl; split; try split; congruence. Qed.

Lemma filters_partitioned (filters : list DomainFilter) :
  (List.length (positive_filters filters)
   + List.length (negative_filters filters) = List.length filters)%nat.
Proof.
  induction filters as [|f fs IH]; simpl; [reflexivity|].
  destruct (operator f); simpl; lia.
Qed.

Section FilterTranslation.

Variable Number : Type.
Variable models : Qdrant.StoreModels Number.

Lemma collect_built filters : forall must_acc must_not_acc must_out must_not_out,
  Qdrant.collect models filters must_acc must_not_acc
    = inr (must_out, must_not_out) ->
  exists positive negative,
    Forall2 (Qdrant.built models) (positive_filters filters) positive
    /\ Forall2 (Qdrant.built models) (negative_filters filters) negative
    /\ must_out = (must_acc ++ positive)%list
    /\ must_not_out = (must_not_acc ++ negative)%list.
Proof.
  induction filters as [|f fs IH]; intros m n m' n' H; simpl in H.
  - injection H as <- <-. exists [], [].
    rewrite !app_nil_r. repeat split; constructor.
  - destruct (Qdrant._create_field_condition models f) as [e|c] eqn:Hc;
      [discriminate|].
    unfold positive_filters, negative_filters. simpl.
    destruct (operator f) eqn:Hop; simpl in H |- *;
      apply IH in H as (ps & ns & Hps & Hns & -> & ->);
      first [ exists (c :: ps), ns;
              rewrite <- !app_assoc;
              repeat split; try assumption; now constructor
            | exists ps, (c :: ns);
              rewrite <- !app_assoc;
              repeat split; try assumption; now constructor ].
Qed.

Lemma collect_returns filters :
  (forall f, In f filters -> exists c, Qdrant.built models f c) ->
  forall must_acc must_not_acc,
    exists lists, Qdrant.collect models filters must_acc must_not_acc
                  = inr lists.
Proof.
  induction filters as [|f fs IH]; intros Hall m n; simpl.
  - eexists; reflexivity.
  - destruct (Hall f (or_introl eq_refl)) as [c Hc].
    unfold Qdrant.built in Hc. rewrite Hc.
    destruct (Qdrant.is_negative (operator f));
      apply IH; intros g Hg; apply Hall; now right.
Qed.

Lemma collect_raises filters : forall f,
  In f filters ->
  (exists e, Qdrant._create_field_condition models f = inl e) ->
  forall must_acc must_not_acc,
    exists e, Qdrant.collect models filters must_acc must_not_acc = inl e.
Proof.
  induction filters as [|g fs IH]; intros f Hin Hf m n; [destruct Hin|].
  simpl.
  destruct (Qdrant._create_field_condition models g) as [e|c] eqn:Hc;
    [eexists; reflexivity|].
  destruct Hin as [->|Hin].
  - destruct Hf as [e He]. congruence.
  - destruct (Qdrant.is_negative (operator g)); eapply IH; eassumption.
Qed.

(** The clauses of a filter that is returned. *)
Lemma build_clauses filters translated :
  Qdrant._build_search_filters models filters = inr translated ->
  exists positive negative,
    Forall2 (Qdrant.built models) (positive_filters filters) positive
    /\ Forall2 (Qdrant.built models) (negative_filters filters) negative
    /\ Qdrant.must translated = Qdrant.or_none positive
    /\ Qdrant.must_not translated = Qdrant.or_none negative.
Proof.
  unfold Qdrant._build_search_filters.
  destruct filters as [|f fs].
  - intros [= <-]. exists [], []. repeat split; constructor.
  - destruct (Qdrant.collect models (f :: fs) [] []) as [e|[m n]] eqn:Hc;
      [discriminate|].
    intros [= <-].
    apply collect_built in Hc as (ps & ns & Hps & Hns & -> & ->).
    exists ps, ns. repeat split; assumption.
Qed.

Lemma build_returns filters :
  (forall f, In f filters -> exists c, Qdrant.built models f c) ->
  exists translated,
    Qdrant._build_search_filters models filters = inr translated.
Proof.
  intros Hall. unfold Qdrant._build_search_filters.
  destruct filters as [|f fs]; [eexists; reflexivity|].
  destruct (collect_returns (f :: fs) Hall [] []) as [[m n] ->].
  eexists; reflexivity.
Qed.

(** C5 (as amended).  The translation partitions the filters by
    operator.  Building a condition validates the filter's value against
    the store's model; when the translation returns a filter, its positive
    clause holds the conditions of the filters whose operator is EQ, GT,
    GTE, LT, LTE or IN, its negative clause those of the filters whose
    operator is NEQ or NOT_IN, one condition per filter and in the order of
    the filters.  It returns a filter exactly when the value of every
    filter is accepted, and raises otherwise; no filter gives a filter
    without constraint; and the example, whose values the models accept,
    has 2 positive conditions and 1 negative one. *)
Theorem build_search_filters_partition :
  (forall filters translated,
     Qdrant._build_search_filters models filters = inr translated ->
     Forall2 (Qdrant.built models) (positive_filters filters)
             (Qdrant.conditions (Qdrant.must translated))
     /\ Forall2 (Qdrant.built models) (negative_filters filters)
                (Qdrant.conditions (Qdrant.must_not translated))
     /\ (List.length (Qdrant.conditions (Qdrant.must translated))
         + List.length (Qdrant.conditions (Qdrant.must_not translated))
         = List.length filters)%nat)
  /\ (forall filters,
        (forall f, In f filters -> exists c, Qdrant.built models f c) ->
        exists translated,
          Qdrant._build_search_filters models filters = inr translated)
  /\ (forall filters f,
        In f filters ->
        (exists e, Qdrant._create_field_condition models f = inl e) ->
        exists e, Qdrant._build_search_filters models filters = inl e)
  /\ Qdrant._build_search_filters models [] = inr (Qdrant.mkFilter None None)
  /\ ((forall f, In f example_filters -> exists c, Qdrant.built models f c) ->
      exists translated,
        Qdrant._build_search_filters models example_filters = inr translated
        /\ List.length (Qdrant.conditions (Qdrant.must translated)) = 2%nat
        /\ List.length (Qdrant.conditions (Qdrant.must_not translated))
           = 1%nat).
Proof.
  assert (Hpartition : forall filters translated,
     Qdrant._build_search_filters models filters = inr translated ->
     Forall2 (Qdrant.built models) (positive_filters filters)
             (Qdrant.conditions (Qdrant.must translated))
     /\ Forall2 (Qdrant.built models) (negative_filters filters)
                (Qdrant.conditions (Qdrant.must_not translated))
     /\ (List.length (Qdrant.conditions (Qdrant.must translated))
         + List.length (Qdrant.conditions (Qdrant.must_not translated))
         = List.length filters)%nat).
  { intros filters translated H.
    apply build_clauses in H as (ps & ns & Hps & Hns & -> & ->).
    rewrite !conditions_or_none.
    split; [exact Hps|]. split; [exact Hns|].
    rewrite <- (Forall2_length Hps), <- (Forall2_length Hns).
    apply filters_partitioned. }
  split; [exact Hpartition|].
  split; [exact build_returns|].
  split.
  { intros filters f Hin Hf. unfold Qdrant._build_search_filters.
    destruct filters as [|g fs]; [destruct Hin|].
    destruct (collect_raises (g :: fs) f Hin Hf [] []) as [e ->].
    eexists; reflexivity. }
  split; [reflexivity|].
  intros Hall. destruct (build_returns example_filters Hall) as [translated H].
  exists translated. split; [exact H|].
  destruct (Hpartition _ _ H) as (Hps & Hns & _).
  apply Forall2_length in Hps, Hns.
  rewrite <- Hps, <- Hns. split; reflexivity.
Qed.

End FilterTranslation.

(** The example with the sample models: a filter with two positive
    conditions and a negative one. *)
Lemma build_search_filters_partition_witness :
  exists translated,
    Qdrant._build_search_filters sample_models example_filters
      = inr translated
    /\ List.length (Qdrant.conditions (Qdrant.must translated)) = 2%nat
    /\ List.length (Qdrant.conditions (Qdrant.must_not translated)) = 1%nat.
Proof.
  apply (proj2 (proj2 (proj2 (proj2
           (build_search_filters_partition Z sample_models))))).
  intros f [<-|[<-|[<-|[]]]]; eexists; reflexivity.
Defined.

(** C5, as stated, fails on the filters [(level, GT, "abc")]: the bound of
    a range is a number, the text "abc" is refused, and the translation
    raises the validation error instead of producing the positive condition
    of the filter. *)
Lemma build_search_filters_refuses_text_bound :
  positive_filters
    [mkDomainFilter "level" GREATER_THAN (VScalar (SStr "abc"))]
  = [mkDomainFilter "level" GREATER_THAN (VScalar (SStr "abc"))]
  /\ Qdrant._create_field_condition sample_models
       (mkDomainFilter "level" GREATER_THAN (VScalar (SStr "abc")))
     = inl (Qdrant.Refused
              (mkDomainFilter "level" GREATER_THAN (VScalar (SStr "abc"))))
  /\ Qdrant._build_search_filters sample_models
       [mkDomainFilter "level" GREATER_THAN (VScalar (SStr "abc"))]
     = inl (Qdrant.Refused
              (mkDomainFilter "level" GREATER_THAN (VScalar (SStr "abc"))))
  /\ ~ (exists translated,
         Qdrant._build_search_filters sample_models
           [mkDomainFilter "level" GREATER_THAN (VScalar (SStr "abc"))]
         = inr translated).
Proof.
  split; [reflexivity|]. split; [reflexivity|]. split; [reflexivity|].
  intros [translated H]. discriminate H.
Qed.

(** ** Entity service *)

Section ServiceProperties.

Variable float : Type.
Variable self : Domain.Collaborators float.

Import Domain.

Ltac service_unfold :=
  unfold run, search_by_text_and_filters_with_type, create_entity,
    update_entity, get_entity, bind, try_wrap, call, ret, raise, passed_on.

(** C1. Search dispatch.  A text that is empty once trimmed raises
    [ValidationError] before any call.  Otherwise, with [t] the trimmed
    text: SEMANTIC calls the dense encoder only and then the single-vector
    search with [vector_name = dense]; SPARSE calls the sparse encoder only
    and then the single-vector search with [vector_name = sparse]; HYBRID
    calls the dense encoder, the sparse encoder and then the hybrid search,
    once each, with both vectors; an encoder that raises ends the operation
    with [EmbeddingError] and no repository call; any other search type
    raises [ValidationError] and nothing is called. *)
Theorem search_dispatch_by_type text filters top search_type :
  let t := PyStr.strip text in
  let r := run (search_by_text_and_filters_with_type
                  self text filters top search_type) in
  (t = "" ->
     r = ([], inl (ValidationError "Searched text cannot be empty.")))
  /\ (t <> "" ->
      (search_type = SearchType.SEMANTIC ->
         (forall v, dense_encode self t = inr v ->
            r = ([DenseEncode t; RepoSearch (OfDense v) filters top DENSE],
                 passed_on (repo_search_by_vector_and_filters
                              self (OfDense v) filters top DENSE)))
         /\ (forall msg, dense_encode self t = inl msg ->
            r = ([DenseEncode t],
                 inl (EmbeddingError ("Dense encoding error: " ++ msg)))))
      /\ (search_type = SearchType.SPARSE ->
         (forall v, sparse_encode self t = inr v ->
            r = ([SparseEncode t; RepoSearch (OfSparse v) filters top SPARSE],
                 passed_on (repo_search_by_vector_and_filters
                              self (OfSparse v) filters top SPARSE)))
         /\ (forall msg, sparse_encode self t = inl msg ->
            r = ([SparseEncode t],
                 inl (EmbeddingError ("Sparse encoding error: " ++ msg)))))
      /\ (search_type = SearchType.HYBRID ->
         (forall dv sv,
            dense_encode self t = inr dv -> sparse_encode self t = inr sv ->
            r = ([DenseEncode t; SparseEncode t; RepoHybrid dv sv filters top],
                 passed_on (repo_search_hybrid_by_vectors_and_filters
                              self dv sv filters top)))
         /\ (forall msg, dense_encode self t = inl msg ->
            r = ([DenseEncode t],
                 inl (EmbeddingError ("Encoding error: " ++ msg))))
         /\ (forall dv msg,
            dense_encode self t = inr dv -> sparse_encode self t = inl msg ->
            r = ([DenseEncode t; SparseEncode t],
                 inl (EmbeddingError ("Encoding error: " ++ msg)))))
      /\ (search_type <> SearchType.SEMANTIC ->
          search_type <> SearchType.SPARSE ->
          search_type <> SearchType.HYBRID ->
          r = ([], inl (ValidationError
                          ("Unsupported search type: " ++ search_type))))).
Proof.
  intros t r. subst r. service_unfold. fold t. clearbody t.
  split.
  - intros Ht. now rewrite (proj2 (truthy_false t) Ht).
  - intros Ht. rewrite (proj2 (truthy_true t) Ht). simpl negb. cbv iota.
    split; [|split; [|split]].
    + intros ->. simpl. split; [intros v Hv | intros msg Hv]; now rewrite Hv.
    + intros ->. simpl. split; [intros v Hv | intros msg Hv]; now rewrite Hv.
    + intros ->. simpl.
      split; [intros dv sv Hd Hs | split; [intros msg Hd | intros dv msg Hd Hs]];
        rewrite Hd; try rewrite Hs; reflexivity.
    + intros H1 H2 H3.
      rewrite (proj2 (String.eqb_neq _ _) H1), (proj2 (String.eqb_neq _ _) H2),
        (proj2 (String.eqb_neq _ _) H3).
      reflexivity.
Qed.

(** C4. Creation.  An absent, empty or blank text raises [ValidationError]
    and nothing is called.  With a valid text the dense and the sparse
    encoder are called on the trimmed text; if either raises, the operation
    ends with [EmbeddingError] and the repository is never called; when both
    return, the repository's [create_entity] is called exactly once, with
    the competency and both vectors, and its result is the result. *)
Theorem create_entity_validates_then_encodes competency text :
  let r := run (create_entity self competency text) in
  ((text = None \/ exists s, text = Some s /\ PyStr.strip s = "") ->
     r = ([], inl (ValidationError "Text cannot be empty.")))
  /\ (forall s, text = Some s -> PyStr.strip s <> "" ->
      let t := PyStr.strip s in
      (forall msg, dense_encode self t = inl msg ->
         r = ([DenseEncode t],
              inl (EmbeddingError ("Encoding error: " ++ msg))))
      /\ (forall dv msg,
         dense_encode self t = inr dv -> sparse_encode self t = inl msg ->
         r = ([DenseEncode t; SparseEncode t],
              inl (EmbeddingError ("Encoding error: " ++ msg))))
      /\ (forall dv sv,
         dense_encode self t = inr dv -> sparse_encode self t = inr sv ->
         r = ([DenseEncode t; SparseEncode t;
               RepoCreate (mkCreate competency dv sv)],
              passed_on (repo_create_entity self
                           (mkCreate competency dv sv))))).
Proof.
  intros r. subst r. split.
  - service_unfold. intros [-> | [s [-> Hs]]]; [reflexivity|].
    destruct (PyStr.truthy s); [|reflexivity].
    now rewrite Hs.
  - intros s -> Hs t. service_unfold.
    assert (Hne : s <> "") by (intros ->; now apply Hs).
    rewrite (proj2 (truthy_true s) Hne). fold t.
    rewrite (proj2 (truthy_true t) Hs). clearbody t. simpl.
    split; [intros msg Hd | split; [intros dv msg Hd Hs' | intros dv sv Hd Hs']];
      rewrite Hd; try rewrite Hs'; reflexivity.
Qed.

(** C2. Update.  An identifier without stored entity raises
    [EntityNotFoundError] right after the look-up.  For a stored entity: if
    the text is [None] or equals the stored indexed text, no encoder is
    called and the repository's update receives the entity's own dense and
    sparse vectors; otherwise the text is trimmed, an empty result raises
    [ValidationError], and else both encoders are called once each on the
    trimmed text and the update receives the fresh vectors; an encoder that
    raises ends the operation with [EmbeddingError]. *)
Theorem update_entity_reuses_or_reencodes identifier competency' text :
  let r := run (update_entity self identifier competency' text) in
  (repo_get_entity self identifier = inr None ->
     r = ([RepoGet identifier],
          inl (EntityNotFoundError
                 ("Entity " ++ identifier ++ " not found"))))
  /\ (forall entity, repo_get_entity self identifier = inr (Some entity) ->
      ((text = None \/ text = indexed_text (competency entity)) ->
         let model := mkUpdate identifier competency'
                        (dense_vector entity) (sparse_vector entity) in
         r = ([RepoGet identifier; RepoUpdate model],
              passed_on (repo_update_entity self model)))
      /\ (forall s, text = Some s ->
          indexed_text (competency entity) <> Some s ->
          let t := PyStr.strip s in
          (t = "" ->
             r = ([RepoGet identifier],
                  inl (ValidationError "Text cannot be empty.")))
          /\ (t <> "" ->
              (forall dv sv,
                 dense_encode self t = inr dv ->
                 sparse_encode self t = inr sv ->
                 let model :=
                   mkUpdate identifier competency' (Some dv) (Some sv) in
                 r = ([RepoGet identifier; DenseEncode t; SparseEncode t;
                       RepoUpdate model],
                      passed_on (repo_update_entity self model)))
              /\ (forall msg, dense_encode self t = inl msg ->
                 r = ([RepoGet identifier; DenseEncode t],
                      inl (EmbeddingError ("Encoding error: " ++ msg))))
              /\ (forall dv msg,
                 dense_encode self t = inr dv ->
                 sparse_encode self t = inl msg ->
                 r = ([RepoGet identifier; DenseEncode t; SparseEncode t],
                      inl (EmbeddingError ("Encoding error: " ++ msg))))))).
Proof.
  intros r. subst r. split.
  - service_unfold. intros Hget. now rewrite Hget.
  - intros entity Hget. split.
    + intros [-> | ->] model; subst model; service_unfold; rewrite Hget;
        simpl; [reflexivity|].
      destruct (indexed_text (competency entity)) as [stored|];
        [|reflexivity].
      unfold same_text. now rewrite String.eqb_refl.
    + intros s -> Hdiff t. service_unfold. rewrite Hget. simpl.
      assert (Hcmp : same_text (indexed_text (competency entity)) s = false).
      { unfold same_text.
        destruct (indexed_text (competency entity)) as [stored|];
          [|reflexivity].
        apply String.eqb_neq. congruence. }
      rewrite Hcmp. fold t. clearbody t. split.
      * intros Ht. now rewrite (proj2 (truthy_false t) Ht).
      * intros Ht. rewrite (proj2 (truthy_true t) Ht). simpl.
        split; [intros dv sv Hd Hs
               | split; [intros msg Hd | intros dv msg Hd Hs]];
          rewrite Hd; try rewrite Hs; reflexivity.
Qed.

(** C10 (as amended).  The comparison with the stored indexed text is exact
    and comes before trimming: for a stored entity and a text that differs
    from its indexed text only by surrounding white space, the stored
    vectors are not reused.  When the trimmed text is not empty both
    encoders are called on it and, both returning, the update receives the
    fresh vectors; when the trimmed text is empty [ValidationError] is
    raised and nothing is encoded or stored. *)
Theorem update_entity_compares_before_trimming
    identifier competency' entity stored text :
  repo_get_entity self identifier = inr (Some entity) ->
  indexed_text (competency entity) = Some stored ->
  differs_only_by_surrounding_whitespace text stored ->
  let t := PyStr.strip text in
  let r := run (update_entity self identifier competency' (Some text)) in
  (t <> "" ->
     forall dv sv,
       dense_encode self t = inr dv -> sparse_encode self t = inr sv ->
       let model := mkUpdate identifier competency' (Some dv) (Some sv) in
       r = ([RepoGet identifier; DenseEncode t; SparseEncode t;
             RepoUpdate model],
            passed_on (repo_update_entity self model)))
  /\ (t = "" ->
      r = ([RepoGet identifier],
           inl (ValidationError "Text cannot be empty."))).
Proof.
  intros Hget Hstored [Hdiff _] t r. subst r.
  assert (Hcmp : (stored =? text) = false)
    by (apply String.eqb_neq; congruence).
  split.
  - intros Ht dv sv Hd Hs model. subst model. service_unfold.
    rewrite Hget. simpl. rewrite Hstored. unfold same_text.
    rewrite Hcmp. fold t. clearbody t.
    rewrite (proj2 (truthy_true t) Ht). simpl.
    now rewrite Hd, Hs.
  - intros Ht. service_unfold.
    rewrite Hget. simpl. rewrite Hstored. unfold same_text.
    rewrite Hcmp. fold t. clearbody t.
    now rewrite (proj2 (truthy_false t) Ht).
Qed.

End ServiceProperties.

(** *** The service on the sample collaborators *)

(** A hybrid search for [" bread "]: both encoders, then the hybrid
    search, on the trimmed text. *)
Lemma search_dispatch_by_type_witness :
  Domain.run (Domain.search_by_text_and_filters_with_type
                Fixtures.working " bread " example_filters 10 "hybrid")
  = ([Domain.DenseEncode "bread"; Domain.SparseEncode "bread";
      Domain.RepoHybrid Fixtures.fresh_dense Fixtures.fresh_sparse
        example_filters 10],
     inr []).
Proof.
  destruct (search_dispatch_by_type Z Fixtures.working
              " bread " example_filters 10 "hybrid") as [_ H].
  destruct (H ltac:(cbv; discriminate)) as [_ [_ [Hhybrid _]]].
  destruct (Hhybrid eq_refl) as [Hok _].
  exact (Hok _ _ eq_refl eq_refl).
Defined.

(** Creation with a dense encoder that raises: [EmbeddingError], and the
    repository is not called. *)
Lemma create_entity_validates_then_encodes_witness :
  Domain.run (Domain.create_entity Fixtures.dense_down
                (Fixtures.competency_with None) (Some " baker "))
  = ([Domain.DenseEncode "baker"],
     inl (Domain.EmbeddingError "Encoding error: model not loaded")).
Proof.
  destruct (create_entity_validates_then_encodes Z Fixtures.dense_down
              (Fixtures.competency_with None) (Some " baker ")) as [_ H].
  destruct (H " baker " eq_refl ltac:(cbv; discriminate)) as [Hdense _].
  exact (Hdense _ eq_refl).
Defined.

(** Update of ["e1"] with its own indexed text: the stored vectors are
    passed on and no encoder is called. *)
Lemma update_entity_reuses_or_reencodes_witness :
  Domain.run (Domain.update_entity Fixtures.working "e1"
                (Fixtures.competency_with (Some "baker")) (Some "baker"))
  = ([Domain.RepoGet "e1";
      Domain.RepoUpdate
        (Domain.mkUpdate "e1" (Fixtures.competency_with (Some "baker"))
           (Some Fixtures.stored_dense) (Some Fixtures.stored_sparse))],
     inr (Domain.mkEntity "e1" (Fixtures.competency_with (Some "baker"))
            (Some Fixtures.stored_dense) (Some Fixtures.stored_sparse))).
Proof.
  destruct (update_entity_reuses_or_reencodes Z Fixtures.working "e1"
              (Fixtures.competency_with (Some "baker")) (Some "baker"))
    as [_ H].
  destruct (H _ eq_refl) as [Hreuse _].
  exact (Hreuse (or_intror eq_refl)).
Defined.

(** Update of ["e1"], indexed under ["baker"], with [" baker "]: the text
    is encoded afresh. *)
Lemma update_entity_compares_before_trimming_witness :
  differs_only_by_surrounding_whitespace " baker " "baker"
  /\ Domain.run (Domain.update_entity Fixtures.working "e1"
                   (Fixtures.competency_with (Some " baker "))
                   (Some " baker "))
     = ([Domain.RepoGet "e1"; Domain.DenseEncode "baker";
         Domain.SparseEncode "baker";
         Domain.RepoUpdate
           (Domain.mkUpdate "e1" (Fixtures.competency_with (Some " baker "))
              (Some Fixtures.fresh_dense) (Some Fixtures.fresh_sparse))],
        inr (Domain.mkEntity "e1" (Fixtures.competency_with (Some " baker "))
               (Some Fixtures.fresh_dense) (Some Fixtures.fresh_sparse))).
Proof.
  assert (Hd : differs_only_by_surrounding_whitespace " baker " "baker")
    by (split; [discriminate | reflexivity]).
  split; [exact Hd|].
  destruct (update_entity_compares_before_trimming Z Fixtures.working "e1"
              (Fixtures.competency_with (Some " baker ")) _ "baker" " baker "
              eq_refl eq_refl Hd) as [Hfresh _].
  exact (Hfresh ltac:(cbv; discriminate) _ _ eq_refl eq_refl).
Defined.

(** C10, as stated, fails on the entity ["e0"], whose indexed text is
    empty, and the text [" "]: the two differ only by surrounding white
    space, yet no encoder is called and nothing is stored; the operation
    raises [ValidationError]. *)
Lemma update_entity_blank_text_not_encoded :
  Domain.repo_get_entity Fixtures.working "e0"
  = inr (Some (Domain.mkEntity "e0" (Fixtures.competency_with (Some ""))
                 (Some Fixtures.stored_dense) (Some Fixtures.stored_sparse)))
  /\ differs_only_by_surrounding_whitespace " " ""
  /\ Domain.run (Domain.update_entity Fixtures.working "e0"
                   (Fixtures.competency_with (Some " ")) (Some " "))
     = ([Domain.RepoGet "e0"],
        inl (Domain.ValidationError "Text cannot be empty.")).
Proof.
  split; [reflexivity|]. split; [|reflexivity].
  split; [discriminate | reflexivity].
Qed.

(** ** Indexing strategies *)

Lemma extractor_lookup f :
  FieldDuplicationStrategy.lookup f FieldDuplicationStrategy._field_extractors
    = None
  <-> ~ In f recognised_fields.
Proof.
  unfold FieldDuplicationStrategy._field_extractors, recognised_fields,
    IndexingField.TITLE, IndexingField.DESCRIPTION, IndexingField.CATEGORY,
    IndexingField.KEYWORDS.
  simpl.
  destruct (String.eqb_spec f "title") as [->|H1];
    [split; [discriminate | intros H; exfalso; apply H; auto]|].
  destruct (String.eqb_spec f "description") as [->|H2];
    [split; [discriminate | intros H; exfalso; apply H; auto]|].
  destruct (String.eqb_spec f "category") as [->|H3];
    [split; [discriminate | intros H; exfalso; apply H; auto]|].
  destruct (String.eqb_spec f "keywords") as [->|H4];
    [split; [discriminate | intros H; exfalso; apply H; auto]|].
  split; [|reflexivity].
  intros _ [H|[H|[H|[H|[]]]]]; congruence.
Qed.

Lemma in_missing f fs :
  In f (FieldDuplicationStrategy.missing fs)
  <-> In f fs /\ ~ In f recognised_fields.
Proof.
  unfold FieldDuplicationStrategy.missing, PyList.set_of.
  rewrite filter_In, nodup_In, <- extractor_lookup.
  destruct (FieldDuplicationStrategy.lookup f
              FieldDuplicationStrategy._field_extractors);
    intuition congruence.
Qed.

(** C9 (as amended).  Field Duplication: a requested field list that
    contains a name outside title, description, category and keywords makes
    the construction fail with a [ValueError] that carries exactly the
    unrecognised names, so there is no strategy to expand a competency
    with; a list of recognised names is accepted.  Field Combination: the
    constructor checks nothing and accepts every field list. *)
Theorem strategy_construction_checks_fields (fs : list string) :
  ((exists f, In f fs /\ ~ In f recognised_fields) ->
     exists unknown,
       FieldDuplicationStrategy.__init__ fs = inl (ValueError unknown)
       /\ (forall f, In f unknown <-> In f fs /\ ~ In f recognised_fields))
  /\ ((forall f, In f fs -> In f recognised_fields) ->
      FieldDuplicationStrategy.__init__ fs
        = inr (FieldDuplicationStrategy.mk fs))
  /\ FieldCombinationStrategy.__init__ fs
     = inr (FieldCombinationStrategy.mk fs).
Proof.
  split; [|split; [|reflexivity]].
  - intros [f Hf]. exists (FieldDuplicationStrategy.missing fs).
    split; [|intros g; apply in_missing].
    apply in_missing in Hf. unfold FieldDuplicationStrategy.__init__.
    destruct (FieldDuplicationStrategy.missing fs); [destruct Hf|reflexivity].
  - intros Hall. unfold FieldDuplicationStrategy.__init__.
    destruct (FieldDuplicationStrategy.missing fs) as [|g m] eqn:Hm;
      [reflexivity|].
    assert (Hg : In g (FieldDuplicationStrategy.missing fs))
      by (rewrite Hm; left; reflexivity).
    apply in_missing in Hg. destruct Hg as [Hin Hnot].
    exfalso. apply Hnot, Hall, Hin.
Qed.

Lemma strategy_construction_checks_fields_witness :
  exists unknown,
    FieldDuplicationStrategy.__init__ ["title"; "summary"; "keywords"]
      = inl (ValueError unknown)
    /\ (forall f, In f unknown <->
                  In f ["title"; "summary"; "keywords"]
                  /\ ~ In f recognised_fields).
Proof.
  apply (proj1 (strategy_construction_checks_fields
                  ["title"; "summary"; "keywords"])).
  exists "summary". split; [simpl; auto|].
  intros [H|[H|[H|[H|[]]]]]; discriminate.
Defined.

(** C9, as stated, fails for Field Combination: the unrecognised field
    ["summary"] is accepted at construction. *)
Lemma field_combination_accepts_unknown_field :
  In "summary" ["title"; "summary"]
  /\ ~ In "summary" recognised_fields
  /\ FieldCombinationStrategy.__init__ ["title"; "summary"]
     = inr (FieldCombinationStrategy.mk ["title"; "summary"]).
Proof.
  split; [simpl; auto|]. split; [|reflexivity].
  intros [H|[H|[H|[H|[]]]]]; discriminate.
Qed.

(** C6 at the input that breaks it.  Combining the single field title of
    a competency titled "Baker." gives the indexed text "Baker. Baker.":
    the title is contributed twice, once without its period and once with
    it, where the claim has the one segment "Baker". *)
Theorem field_combination_repeats_dotted_value :
  FieldCombinationStrategy.expand_competency
    (FieldCombinationStrategy.mk [IndexingField.TITLE]) baker_competency
  = [with_indexed_text baker_competency "Baker. Baker."].
Proof. reflexivity. Qed.

(** ** Entity service: what every run keeps *)

Section ServiceInvariants.

Variable float : Type.
Variable self : Domain.Collaborators float.

Import Domain.

Ltac run_service :=
  unfold run, search_by_text_and_filters_with_type, create_entity,
    update_entity, delete_entity, get_entity, bind, try_wrap, call, ret,
    raise, passed_on, same_text.

(** Case analysis on what the collaborators answer. *)
Ltac split_cases :=
  repeat match goal with
         | |- context [dense_encode ?s ?t] => destruct (dense_encode s t)
         | |- context [sparse_encode ?s ?t] => destruct (sparse_encode s t)
         | |- context [repo_create_entity ?s ?m] =>
             destruct (repo_create_entity s m)
         | |- context [repo_update_entity ?s ?m] =>
             destruct (repo_update_entity s m)
         | |- context [repo_delete_entity ?s ?m] =>
             destruct (repo_delete_entity s m)
         | |- context [repo_search_by_vector_and_filters ?s ?v ?f ?n ?k] =>
             destruct (repo_search_by_vector_and_filters s v f n k)
         | |- context [repo_search_hybrid_by_vectors_and_filters
                         ?s ?d ?v ?f ?n] =>
             destruct (repo_search_hybrid_by_vectors_and_filters s d v f n)
         | |- context [String.eqb ?a ?b] => destruct (String.eqb a b)
         end.

Lemma strip_truthy_trimmed s :
  PyStr.truthy (PyStr.strip s) = true -> trimmed (PyStr.strip s).
Proof.
  intros H. destruct (strip_result s) as [He|Ht]; [|exact Ht].
  rewrite He in H. discriminate.
Qed.

(** X1.  [delete_entity] looks the entity up first and deletes only what
    it found: a failing look-up passes through, an absent entity raises
    [EntityNotFoundError], and in both cases the repository's delete is
    not called; a stored entity is deleted by one call that follows the
    look-up, and a failure of that call passes through. *)
Theorem delete_entity_checks_existence identifier :
  let r := run (delete_entity self identifier) in
  (forall msg, repo_get_entity self identifier = inl msg ->
     r = ([RepoGet identifier], inl (Raised msg)))
  /\ (repo_get_entity self identifier = inr None ->
      r = ([RepoGet identifier],
           inl (EntityNotFoundError
                  ("Entity " ++ identifier ++ " not found"))))
  /\ (forall entity, repo_get_entity self identifier = inr (Some entity) ->
      r = ([RepoGet identifier; RepoDelete identifier],
           passed_on (repo_delete_entity self identifier))).
Proof.
  intros r. subst r. run_service.
  split; [|split]; intros; rewrite H; reflexivity.
Qed.

(** X2.  Whatever the collaborators do, the encoders only ever receive a
    text that is not empty and carries no white space at either end, in
    [create_entity], [update_entity] and the search alike. *)
Theorem encoders_receive_trimmed_text :
  (forall competency text t,
     In t (Trace.encoder_texts
             (fst (run (create_entity self competency text)))) ->
     trimmed t)
  /\ (forall identifier competency text t,
      In t (Trace.encoder_texts
              (fst (run (update_entity self identifier competency text)))) ->
      trimmed t)
  /\ (forall text filters top search_type t,
      In t (Trace.encoder_texts
              (fst (run (search_by_text_and_filters_with_type
                           self text filters top search_type)))) ->
      trimmed t).
Proof.
  split; [|split].
  - intros competency text t. run_service.
    destruct text as [s|]; [|simpl; tauto].
    destruct (PyStr.truthy s); [|simpl; tauto].
    destruct (PyStr.truthy (PyStr.strip s)) eqn:Hs; [|simpl; tauto].
    apply strip_truthy_trimmed in Hs. simpl negb. cbv iota.
    split_cases; simpl; intuition (subst; assumption).
  - intros identifier competency text t. run_service.
    destruct (repo_get_entity self identifier) as [msg|[entity|]];
      [simpl; tauto| |simpl; tauto].
    destruct text as [s|]; [|simpl; tauto].
    destruct (indexed_text (Domain.competency entity)) as [stored|].
    + destruct (stored =? s); [simpl; tauto|].
      destruct (PyStr.truthy (PyStr.strip s)) eqn:Hs; [|simpl; tauto].
      apply strip_truthy_trimmed in Hs. simpl negb. cbv iota.
      split_cases; simpl; intuition (subst; assumption).
    + destruct (PyStr.truthy (PyStr.strip s)) eqn:Hs; [|simpl; tauto].
      apply strip_truthy_trimmed in Hs. simpl negb. cbv iota.
      split_cases; simpl; intuition (subst; assumption).
  - intros text filters top search_type t. run_service.
    destruct (PyStr.truthy (PyStr.strip text)) eqn:Hs; [|simpl; tauto].
    apply strip_truthy_trimmed in Hs. simpl negb. cbv iota.
    split_cases; simpl; intuition (subst; assumption).
Qed.

(** Case analysis on the branch the service takes. *)
Ltac split_branches :=
  repeat match goal with
         | |- context [repo_get_entity ?s ?i] =>
             destruct (repo_get_entity s i) as [?|[?|]]
         | |- context [PyStr.truthy ?t] => destruct (PyStr.truthy t)
         | |- context [match ?x with Some _ => _ | None => _ end] =>
             destruct x
         end.

Ltac crunch :=
  simpl negb; cbv iota; repeat (progress (split_cases; simpl)).

(** Membership in an explicit trace, one call at a time. *)
Ltac in_trace H :=
  simpl in H;
  repeat match type of H with
         | _ \/ _ => destruct H as [H|H]
         end;
  try contradiction; try discriminate H; subst.

(** X3.  The search only reads: whatever the search type and whatever
    the collaborators answer, no call of the run creates, updates, deletes
    or looks up an entity; the repository is called at most once; and a
    search call carries the caller's filters and limit. *)
Theorem search_only_reads text filters top search_type :
  let log := fst (run (search_by_text_and_filters_with_type
                         self text filters top search_type)) in
  (forall c, In c log ->
     Trace.is_repository_call c = true -> Trace.is_search_call c = true)
  /\ (List.length (filter Trace.is_repository_call log) <= 1)%nat
  /\ (forall v fs k name, In (RepoSearch v fs k name) log ->
      fs = filters /\ k = top)
  /\ (forall dv sv fs k, In (RepoHybrid dv sv fs k) log ->
      fs = filters /\ k = top).
Proof.
  intros log. subst log. run_service.
  destruct (PyStr.truthy (PyStr.strip text)); simpl negb; cbv iota;
    [|simpl; split; [|split; [|split]]; try tauto; lia].
  split_cases; simpl; (split; [|split; [|split]]);
    try (intros c Hc; in_trace Hc; simpl; congruence);
    try lia;
    intros ? ? ? ? Hc; in_trace Hc; injection Hc; auto.
Qed.

(** Cutting an explicit trace at one of its calls. *)
Ltac split_trace H Hw :=
  match type of H with
  | [] = (?b ++ _ :: _)%list => destruct b; discriminate H
  | (_ :: _) = (?b ++ _ :: _)%list =>
      destruct b; simpl in H;
      [ injection H as ? ?; subst;
        first [reflexivity | simpl in Hw; discriminate Hw]
      | injection H as _ H; split_trace H Hw ]
  end.

(** X4.  The store is written at most once, and last: in every run of
    [create_entity], [update_entity] or [delete_entity], whatever the
    collaborators answer, a call that creates, updates or deletes is the
    last call of the run, so that nothing is attempted after a write,
    whether it succeeded or failed. *)
Theorem store_written_once_and_last :
  (forall competency text before c after,
     fst (run (create_entity self competency text))
       = (before ++ c :: after)%list ->
     Trace.is_write c = true -> after = [])
  /\ (forall identifier competency text before c after,
      fst (run (update_entity self identifier competency text))
        = (before ++ c :: after)%list ->
      Trace.is_write c = true -> after = [])
  /\ (forall identifier before c after,
      fst (run (delete_entity self identifier))
        = (before ++ c :: after)%list ->
      Trace.is_write c = true -> after = []).
Proof.
  split; [|split].
  - intros competency text before c after. run_service.
    split_branches; simpl negb; cbv iota; crunch;
      intros H Hw; split_trace H Hw.
  - intros identifier competency text before c after. run_service.
    split_branches; crunch; intros H Hw; split_trace H Hw.
  - intros identifier before c after. run_service.
    split_branches; crunch; intros H Hw; split_trace H Hw.
Qed.

(** X5.  What is written is what the caller passed: a repository create
    carries the caller's competency, and a repository update carries the
    caller's identifier and competency, never those of the stored entity;
    an update is only ever attempted after the look-up of that identifier,
    which is the first call. *)
Theorem written_model_is_the_callers :
  (forall competency text m,
     In (RepoCreate m) (fst (run (create_entity self competency text))) ->
     create_competency m = competency)
  /\ (forall identifier competency text m,
      In (RepoUpdate m)
         (fst (run (update_entity self identifier competency text))) ->
      update_identifier m = identifier
      /\ update_competency m = competency
      /\ hd_error (fst (run (update_entity self identifier competency text)))
         = Some (RepoGet identifier)).
Proof.
  split.
  - intros competency text m. run_service.
    split_branches; simpl negb; cbv iota; crunch;
      intros Hc; in_trace Hc; injection Hc as <-; reflexivity.
  - intros identifier competency text m. run_service.
    split_branches; crunch;
      intros Hc; in_trace Hc; injection Hc as <-; auto.
Qed.

End ServiceInvariants.

(** Deleting the stored entity ["e1"]: one look-up, one delete. *)
Lemma delete_entity_checks_existence_witness :
  Domain.run (Domain.delete_entity Fixtures.working "e1")
  = ([Domain.RepoGet "e1"; Domain.RepoDelete "e1"], inr tt).
Proof.
  destruct (delete_entity_checks_existence Z Fixtures.working "e1")
    as [_ [_ H]].
  exact (H _ eq_refl).
Defined.

(** Creating from [" baker "]: the encoders see ["baker"]. *)
Lemma encoders_receive_trimmed_text_witness : trimmed "baker".
Proof.
  apply (proj1 (encoders_receive_trimmed_text Z Fixtures.working)
           (Fixtures.competency_with None) (Some " baker ") "baker").
  simpl. auto.
Defined.

(** The hybrid search for [" bread "] passes the caller's filters on. *)
Lemma search_only_reads_witness :
  example_filters = example_filters /\ 10%Z = 10%Z.
Proof.
  destruct (search_only_reads Z Fixtures.working " bread " example_filters
              10 "hybrid") as [_ [_ [_ H]]].
  apply (H Fixtures.fresh_dense Fixtures.fresh_sparse).
  simpl. auto.
Defined.

(** Creation of "baker" with working collaborators: the write closes the
    run. *)
Lemma store_written_once_and_last_witness :
  @nil (Domain.Call Z) = [].
Proof.
  apply (proj1 (store_written_once_and_last Z Fixtures.working)
           (Fixtures.competency_with None) (Some " baker ")
           [Domain.DenseEncode "baker"; Domain.SparseEncode "baker"]
           (Domain.RepoCreate
              (Domain.mkCreate (Fixtures.competency_with None)
                 Fixtures.fresh_dense Fixtures.fresh_sparse))
           []);
    reflexivity.
Defined.

(** Updating ["e1"] with a new competency and text. *)
Lemma written_model_is_the_callers_witness :
  Domain.update_identifier
    (Domain.mkUpdate "e1" (Fixtures.competency_with (Some "pastry"))
       (Some Fixtures.fresh_dense) (Some Fixtures.fresh_sparse)) = "e1"
  /\ Domain.update_competency
       (Domain.mkUpdate "e1" (Fixtures.competency_with (Some "pastry"))
          (Some Fixtures.fresh_dense) (Some Fixtures.fresh_sparse))
     = Fixtures.competency_with (Some "pastry")
  /\ hd_error
       (fst (Domain.run
               (Domain.update_entity Fixtures.working "e1"
                  (Fixtures.competency_with (Some "pastry"))
                  (Some "pastry"))))
     = Some (Domain.RepoGet "e1").
Proof.
  apply (proj2 (written_model_is_the_callers Z Fixtures.working)
           "e1" (Fixtures.competency_with (Some "pastry")) (Some "pastry")).
  simpl. auto.
Defined.

(** ** The HTTP adapter *)

Lemma api_operator_mapped op :
  exists d, Api.ApiFilterMapper._get_domain_filter_operator op = inr d
            /\ Qdrant.is_negative d = excluding_operator op.
Proof. destruct op; eexists; split; reflexivity. Qed.

Lemma api_filters_mapped api_filters :
  exists domain_filters,
    Api.ApiFilterMapper.map_api_filters_to_domain api_filters
      = inr domain_filters
    /\ map field domain_filters = map Api.api_field api_filters
    /\ map value domain_filters = map Api.api_value api_filters
    /\ map (fun f => Qdrant.is_negative (operator f)) domain_filters
       = map (fun f => excluding_operator (Api.api_operator f)) api_filters.
Proof.
  induction api_filters as [|f fs IH]; simpl.
  - exists []. repeat split.
  - destruct (api_operator_mapped (Api.api_operator f)) as [d [Hd Hneg]].
    destruct IH as [rest [Hrest [Hf [Hv Hn]]]].
    rewrite Hd, Hrest. eexists. split; [reflexivity|].
    simpl. now rewrite Hf, Hv, Hn, Hneg.
Qed.

Lemma count_by_map {A B} (p : A -> bool) (q : B -> bool) :
  forall (l : list A) (m : list B),
    map p l = map q m ->
    List.length (filter p l) = List.length (filter q m).
Proof.
  induction l as [|x l IH]; intros [|y m] H; try discriminate;
    [reflexivity|].
  simpl in *. injection H as Hxy Hrest. rewrite Hxy.
  destruct (q y); simpl; auto.
Qed.

(** X6.  The filters of a search request always reach the store's
    translation: the mapping to domain filters never raises and keeps the
    order, the fields and the values; and when the store's models accept
    the values, so that a filter is returned, the request's [neq] and [nin]
    filters are its must-not conditions, all the others its must
    conditions. *)
Theorem api_filters_reach_the_store {Number}
    (models : Qdrant.StoreModels Number)
    (api_filters : list Api.APIFilter) :
  exists domain_filters,
    Api.ApiFilterMapper.map_api_filters_to_domain api_filters
      = inr domain_filters
    /\ map field domain_filters = map Api.api_field api_filters
    /\ map value domain_filters = map Api.api_value api_filters
    /\ forall translated,
         Qdrant._build_search_filters models domain_filters = inr translated ->
         List.length (Qdrant.conditions (Qdrant.must_not translated))
         = List.length
             (filter (fun f => excluding_operator (Api.api_operator f))
                     api_filters)
         /\ List.length (Qdrant.conditions (Qdrant.must translated))
            = List.length
                (filter
                   (fun f => negb (excluding_operator (Api.api_operator f)))
                   api_filters).
Proof.
  destruct (api_filters_mapped api_filters)
    as [domain_filters [Hmap [Hf [Hv Hn]]]].
  exists domain_filters. repeat (split; [assumption|]).
  intros translated H.
  apply build_clauses in H as (ps & ns & Hps & Hns & -> & ->).
  rewrite !conditions_or_none.
  rewrite <- (Forall2_length Hps), <- (Forall2_length Hns).
  unfold positive_filters, negative_filters. split.
  - apply count_by_map. rewrite <- Hn. apply map_ext.
    intros f. now destruct (operator f).
  - apply count_by_map.
    transitivity
      (map (fun f => negb (Qdrant.is_negative (operator f))) domain_filters).
    + apply map_ext. intros f. now destruct (operator f).
    + rewrite <- (map_map (fun f => Qdrant.is_negative (operator f)) negb).
      rewrite Hn. now rewrite map_map.
Qed.

(** A request with [lang eq fr] and [provider nin [rome]], and the sample
    models. *)
Lemma api_filters_reach_the_store_witness :
  exists domain_filters translated,
    Api.ApiFilterMapper.map_api_filters_to_domain
      [ Api.mkAPIFilter "lang" Api.APIFilterOperator.EQUAL
          (VScalar (SStr "fr"));
        Api.mkAPIFilter "provider" Api.APIFilterOperator.NOT_IN
          (VList [SStr "rome"]) ]
    = inr domain_filters
    /\ Qdrant._build_search_filters sample_models domain_filters
       = inr translated
    /\ List.length (Qdrant.conditions (Qdrant.must_not translated)) = 1%nat
    /\ List.length (Qdrant.conditions (Qdrant.must translated)) = 1%nat.
Proof.
  destruct (api_filters_reach_the_store sample_models
              [ Api.mkAPIFilter "lang" Api.APIFilterOperator.EQUAL
                  (VScalar (SStr "fr"));
                Api.mkAPIFilter "provider" Api.APIFilterOperator.NOT_IN
                  (VList [SStr "rome"]) ])
    as [domain_filters [Hmap [_ [_ Hcount]]]].
  exists domain_filters.
  injection Hmap as <-.
  eexists. split; [reflexivity|]. split; [reflexivity|].
  exact (Hcount _ eq_refl).
Defined.

(** X7.  The status of a handled exception: 400 for [ValidationError]
    and for no other class, 404 for [EntityNotFoundError] and for no other
    class, 500 for every other class, listed or not; the detail of the
    answer is the exception's text. *)
Theorem known_exception_status
    (exc_type : Api.ExceptionHandler.ExceptionType) (exc_text : string) :
  let response :=
    Api.ExceptionHandler.known_exception_handler exc_type exc_text in
  Api.ExceptionHandler.detail response = exc_text
  /\ (Api.ExceptionHandler.status_code response = 400%Z
      <-> exc_type = Api.ExceptionHandler.ValidationError)
  /\ (Api.ExceptionHandler.status_code response = 404%Z
      <-> exc_type = Api.ExceptionHandler.EntityNotFoundError)
  /\ (exc_type <> Api.ExceptionHandler.ValidationError ->
      exc_type <> Api.ExceptionHandler.EntityNotFoundError ->
      Api.ExceptionHandler.status_code response = 500%Z).
Proof.
  destruct exc_type; cbv; repeat split; intros; congruence.
Qed.

Lemma known_exception_status_witness :
  Api.ExceptionHandler.status_code
    (Api.ExceptionHandler.known_exception_handler
       Api.ExceptionHandler.RepositoryError "Failed to create entity")
  = 500%Z.
Proof.
  apply (known_exception_status Api.ExceptionHandler.RepositoryError
           "Failed to create entity"); discriminate.
Defined.

Section RouteProperties.

Variable float : Type.
Variable service : Domain.Collaborators float.

Import Domain.

Ltac run_route :=
  unfold Api.create_entity, Api.update_entity, Api.get_entity,
    Api.delete_entity, Api.search, Api.pure, run,
    search_by_text_and_filters_with_type, create_entity,
    update_entity, delete_entity, get_entity, bind, try_wrap, call, ret,
    raise, passed_on, same_text.

Ltac answers :=
  repeat match goal with
         | |- context [dense_encode ?s ?t] => destruct (dense_encode s t)
         | |- context [sparse_encode ?s ?t] => destruct (sparse_encode s t)
         | |- context [repo_create_entity ?s ?m] =>
             destruct (repo_create_entity s m)
         | |- context [repo_update_entity ?s ?m] =>
             destruct (repo_update_entity s m)
         | |- context [repo_search_by_vector_and_filters ?s ?v ?f ?n ?k] =>
             destruct (repo_search_by_vector_and_filters s v f n k)
         | |- context [repo_search_hybrid_by_vectors_and_filters
                         ?s ?d ?v ?f ?n] =>
             destruct (repo_search_hybrid_by_vectors_and_filters s d v f n)
         end.

(** X8.  The creation route encodes the competency's own indexed text
    and nothing else: for a request whose competency has no indexed text,
    or one that is blank, [ValidationError] is raised before any call; the
    title is not used in its place. *)
Theorem create_route_requires_indexed_text (req : Api.CreateEntityRequest) :
  (indexed_text (Api.create_request_competency req) = None
   \/ exists s, indexed_text (Api.create_request_competency req) = Some s
                /\ PyStr.strip s = "") ->
  run (Api.create_entity req service)
  = ([], inl (ValidationError "Text cannot be empty.")).
Proof.
  run_route. intros [-> | [s [-> Hs]]]; [reflexivity|].
  destruct (PyStr.truthy s); [|reflexivity].
  now rewrite Hs.
Qed.

(** X9.  The update route re-encodes only on a new indexed text: when the
    request's competency has no indexed text, an empty one, or the very
    text the stored entity is indexed under, no encoder is called and the
    repository's update receives the request's competency with the stored
    vectors. *)
Theorem update_route_keeps_vectors
    (entity_id : Identifier) (req : Api.UpdateEntityRequest)
    (entity : Entity float) :
  repo_get_entity service entity_id = inr (Some entity) ->
  (indexed_text (Api.update_request_competency req) = None
   \/ indexed_text (Api.update_request_competency req) = Some ""
   \/ indexed_text (Api.update_request_competency req)
      = indexed_text (competency entity)) ->
  fst (run (Api.update_entity entity_id req service))
  = [RepoGet entity_id;
     RepoUpdate (mkUpdate entity_id (Api.update_request_competency req)
                   (dense_vector entity) (sparse_vector entity))].
Proof.
  intros Hget Htext. run_route. rewrite Hget. simpl.
  destruct Htext as [-> | [-> | Heq]]; simpl.
  - now answers.
  - now answers.
  - rewrite Heq.
    destruct (indexed_text (competency entity)) as [stored|]; simpl;
      [|now answers].
    destruct (PyStr.truthy stored); [|now answers].
    rewrite String.eqb_refl. now answers.
Qed.

Lemma domain_search_type_of_request (st : Api.SearchType.t) :
  Api.DomainSearchType (Api.SearchType.value st)
  = inr (Api.SearchType.value st).
Proof. now destruct st. Qed.

(** X10.  The search route turns a request away before any call for one
    reason only: a text that is blank raises [ValidationError] with no call
    made; with any other text, whatever the filters and the search type of
    the request, the route reaches the encoders: the first call of the run
    is the encoder of the search type (the dense one for a semantic or a
    hybrid search, the sparse one for a sparse search) on the trimmed
    text. *)
Theorem search_route_validation (req : Api.SearchRequest) :
  (PyStr.strip (Api.text req) = "" ->
     run (Api.search req service)
     = ([], inl (ValidationError "Searched text cannot be empty.")))
  /\ (PyStr.strip (Api.text req) <> "" ->
      hd_error (fst (run (Api.search req service)))
      = Some (match Api.search_type req with
              | Api.SearchType.SPARSE =>
                  SparseEncode (PyStr.strip (Api.text req))
              | _ => DenseEncode (PyStr.strip (Api.text req))
              end)).
Proof.
  destruct (api_filters_mapped (Api.filters req))
    as [domain_filters [Hmap _]].
  split.
  - intros Hblank. run_route.
    rewrite Hmap, domain_search_type_of_request, Hblank. reflexivity.
  - intros Htext. run_route.
    rewrite Hmap, domain_search_type_of_request.
    rewrite (proj2 (truthy_true _) Htext).
    destruct (Api.search_type req); simpl; answers; reflexivity.
Qed.

(** X11.  No route shows the indexing fields: the competency of every
    answer of the creation, look-up and update routes, and of every result
    of the search route, comes without keywords, indexed text and
    metadata. *)
Theorem responses_hide_indexing_fields :
  (forall req response,
     snd (run (Api.create_entity req service)) = inr response ->
     hides_indexing_fields (Api.response_competency response))
  /\ (forall entity_id response,
      snd (run (Api.get_entity entity_id service)) = inr response ->
      hides_indexing_fields (Api.response_competency response))
  /\ (forall entity_id req response,
      snd (run (Api.update_entity entity_id req service)) = inr response ->
      hides_indexing_fields (Api.response_competency response))
  /\ (forall req response,
      snd (run (Api.search req service)) = inr response ->
      Forall (fun r => hides_indexing_fields (Api.result_competency r))
             (Api.results response)).
Proof.
  assert (Hhide : forall c,
            hides_indexing_fields (Api.ApiCompetencyMapper.domain_to_adapter c))
    by (intros c; repeat split).
  split; [|split; [|split]].
  - intros req response. run_route.
    destruct (indexed_text (Api.create_request_competency req)) as [s|];
      [|discriminate].
    destruct (PyStr.truthy s); [|discriminate].
    destruct (PyStr.truthy (PyStr.strip s)); [|discriminate].
    simpl. answers; simpl; try discriminate; intros [= <-]; apply Hhide.
  - intros entity_id response. run_route.
    destruct (repo_get_entity service entity_id) as [msg|[entity|]];
      simpl; try discriminate.
    intros [= <-]. apply Hhide.
  - intros entity_id req response. run_route.
    destruct (repo_get_entity service entity_id) as [msg|[entity|]];
      simpl; try discriminate.
    destruct (PyList.truthy_opt
                (indexed_text (Api.update_request_competency req)));
      [destruct (indexed_text (Api.update_request_competency req)) as [s|]|];
      simpl.
    + destruct (indexed_text (competency entity)) as [stored|]; simpl;
        [destruct (stored =? s)|];
        try destruct (PyStr.truthy (PyStr.strip s)); simpl;
        answers; simpl; try discriminate; intros [= <-]; apply Hhide.
    + answers; simpl; try discriminate; intros [= <-]; apply Hhide.
    + answers; simpl; try discriminate; intros [= <-]; apply Hhide.
  - intros req response. run_route.
    destruct (api_filters_mapped (Api.filters req))
      as [domain_filters [Hmap _]].
    rewrite Hmap, domain_search_type_of_request.
    assert (Hall : forall rs : list (SearchResult float),
              Forall (fun r => hides_indexing_fields (Api.result_competency r))
                     (Api.domains_to_adapters rs)).
    { intros rs. unfold Api.domains_to_adapters.
      apply Forall_forall. intros r Hr. apply in_map_iff in Hr.
      destruct Hr as [x [<- _]]. apply Hhide. }
    destruct (PyStr.truthy (PyStr.strip (Api.text req))); [|discriminate].
    destruct (Api.search_type req); simpl; answers; simpl;
      try discriminate; intros [= <-]; apply Hall.
Qed.

End RouteProperties.

(** A creation request without indexed text. *)
Lemma create_route_requires_indexed_text_witness :
  Domain.run (Api.create_entity
                (Api.mkCreateEntityRequest (Fixtures.competency_with None))
                Fixtures.working)
  = ([], inl (Domain.ValidationError "Text cannot be empty.")).
Proof.
  apply (create_route_requires_indexed_text Z Fixtures.working).
  left. reflexivity.
Defined.

(** An update request for ["e1"] without indexed text. *)
Lemma update_route_keeps_vectors_witness :
  fst (Domain.run
         (Api.update_entity "e1"
            (Api.mkUpdateEntityRequest (Fixtures.competency_with None))
            Fixtures.working))
  = [Domain.RepoGet "e1";
     Domain.RepoUpdate
       (Domain.mkUpdate "e1" (Fixtures.competency_with None)
          (Some Fixtures.stored_dense) (Some Fixtures.stored_sparse))].
Proof.
  apply (update_route_keeps_vectors Z Fixtures.working "e1"
           (Api.mkUpdateEntityRequest (Fixtures.competency_with None)) _
           eq_refl).
  left. reflexivity.
Defined.

(** A search request whose text is blank. *)
Lemma search_route_validation_witness :
  Domain.run
    (Api.search (Api.mkSearchRequest "  " [] 10 Api.SearchType.HYBRID)
       Fixtures.working)
  = ([], inl (Domain.ValidationError "Searched text cannot be empty."))
  /\ hd_error
       (fst (Domain.run
               (Api.search
                  (Api.mkSearchRequest " baker " [] 10 Api.SearchType.SPARSE)
                  Fixtures.working)))
     = Some (Domain.SparseEncode "baker").
Proof.
  split.
  - apply (proj1 (search_route_validation Z Fixtures.working
                    (Api.mkSearchRequest "  " [] 10 Api.SearchType.HYBRID))).
    reflexivity.
  - apply (proj2 (search_route_validation Z Fixtures.working
                    (Api.mkSearchRequest " baker " [] 10
                       Api.SearchType.SPARSE))).
    discriminate.
Defined.

(** The answer to the look-up of ["e1"]. *)
Lemma responses_hide_indexing_fields_witness :
  hides_indexing_fields
    (Api.response_competency
       (Api.mkEntityResponse "e1"
          (Api.ApiCompetencyMapper.domain_to_adapter
             (Fixtures.competency_with (Some "baker"))))).
Proof.
  destruct (responses_hide_indexing_fields Z Fixtures.working)
    as [_ [H _]].
  apply (H "e1"). reflexivity.
Defined.

(** ** The importer: choosing and applying an indexing strategy *)

Lemma stripped_fields_trimmed l :
  Forall trimmed (Importer.stripped_fields l).
Proof.
  unfold Importer.stripped_fields. apply Forall_forall. intros f Hf.
  apply in_map_iff in Hf. destruct Hf as [x [<- Hx]].
  apply filter_In in Hx. destruct Hx as [_ Hx].
  destruct (strip_result x) as [He|Ht]; [|exact Ht].
  rewrite He in Hx. discriminate.
Qed.

Lemma stripped_fields_blank l :
  Forall (fun f => PyStr.strip f = "") l -> Importer.stripped_fields l = [].
Proof.
  unfold Importer.stripped_fields.
  induction 1 as [|f l Hf _ IH]; simpl; [reflexivity|].
  now rewrite Hf.
Qed.

(** X12.  Without a usable field the dependency answers the Field
    Duplication strategy over title, description, category and keywords,
    whichever strategy was asked for: so it is when no field list is given,
    when every field of the list is blank, and when the comma-separated
    text holds blank pieces only. *)
Theorem strategy_falls_back_on_default
    (indexing_strategy : Importer.IndexingStrategy) :
  Importer.get_indexing_strat Importer.FieldsNone indexing_strategy
    = inr default_strategy
  /\ (forall l, Forall (fun f => PyStr.strip f = "") l ->
      Importer.get_indexing_strat (Importer.FieldsList l) indexing_strategy
        = inr default_strategy)
  /\ (forall s, Forall (fun f => PyStr.strip f = "") (PyStr.split "," s) ->
      Importer.get_indexing_strat (Importer.FieldsStr s) indexing_strategy
        = inr default_strategy).
Proof.
  split; [|split].
  - now destruct indexing_strategy.
  - intros l Hl. unfold Importer.get_indexing_strat.
    rewrite (stripped_fields_blank l Hl). now destruct indexing_strategy.
  - intros s Hs. unfold Importer.get_indexing_strat.
    rewrite (stripped_fields_blank _ Hs). now destruct indexing_strategy.
Qed.

Lemma strategy_falls_back_on_default_witness :
  Importer.get_indexing_strat (Importer.FieldsStr " , ,")
    Importer.FIELD_COMBINATION
  = inr default_strategy.
Proof.
  apply (proj2 (proj2 (strategy_falls_back_on_default
                         Importer.FIELD_COMBINATION))).
  repeat constructor.
Defined.

Lemma init_duplication_ok fs s :
  FieldDuplicationStrategy.__init__ fs = inr s ->
  s = FieldDuplicationStrategy.mk fs
  /\ forall f, In f fs -> In f recognised_fields.
Proof.
  unfold FieldDuplicationStrategy.__init__.
  destruct (FieldDuplicationStrategy.missing fs) as [|g m] eqn:Hm;
    [|discriminate].
  intros [= <-]. split; [reflexivity|].
  intros f Hf.
  destruct (in_dec string_dec f recognised_fields) as [Hin|Hout];
    [exact Hin|].
  assert (H : In f (FieldDuplicationStrategy.missing fs))
    by (apply in_missing; auto).
  rewrite Hm in H. destruct H.
Qed.

(** X13.  Every field name a strategy is built with is trimmed: it is
    not empty and has no white space at either end; and the fields of a
    Field Duplication strategy are all among title, description, category
    and keywords. *)
Theorem strategy_fields_are_clean fields_to_index indexing_strategy strategy :
  Importer.get_indexing_strat fields_to_index indexing_strategy
    = inr strategy ->
  Forall trimmed (Importer.fields_of strategy)
  /\ (forall s, strategy = Importer.Duplication s ->
      forall f, In f (FieldDuplicationStrategy.fields s) ->
                In f recognised_fields).
Proof.
  unfold Importer.get_indexing_strat.
  set (fs := match fields_to_index with
             | Importer.FieldsStr s =>
                 Importer.stripped_fields (PyStr.split "," s)
             | Importer.FieldsList l => Importer.stripped_fields l
             | Importer.FieldsNone => []
             end).
  assert (Hfs : Forall trimmed fs)
    by (subst fs; destruct fields_to_index;
        [apply stripped_fields_trimmed | apply stripped_fields_trimmed
        | constructor]).
  assert (Hdefault : Forall trimmed Importer.DEFAULT_STRATEGY)
    by (repeat constructor).
  assert (Hdup : forall l st,
            Forall trimmed l ->
            Importer.FieldDuplicationStrategy_class l = inr st ->
            Forall trimmed (Importer.fields_of st)
            /\ (forall s, st = Importer.Duplication s ->
                forall f, In f (FieldDuplicationStrategy.fields s) ->
                          In f recognised_fields)).
  { intros l st Hl. unfold Importer.FieldDuplicationStrategy_class.
    destruct (FieldDuplicationStrategy.__init__ l) as [e|s] eqn:Hinit;
      [discriminate|].
    intros [= <-]. apply init_duplication_ok in Hinit.
    destruct Hinit as [-> Hrec]. split; [exact Hl|].
    intros s' [= <-]. exact Hrec. }
  destruct indexing_strategy; simpl;
    destruct (0 <? List.length fs)%nat; try (now apply Hdup).
  unfold Importer.FieldCombinationStrategy_class. simpl.
  intros [= <-]. split; [exact Hfs|]. intros s' H. discriminate.
Qed.

Lemma strategy_fields_are_clean_witness :
  Forall trimmed ["title"; "keywords"].
Proof.
  apply (proj1 (strategy_fields_are_clean
                  (Importer.FieldsStr " title , ,keywords ")
                  Importer.FIELD_COMBINATION
                  (Importer.Combination
                     (FieldCombinationStrategy.mk ["title"; "keywords"]))
                  eq_refl)).
Defined.

Lemma in_stripped_fields f l :
  In f (Importer.stripped_fields l)
  <-> exists x, In x l /\ PyStr.strip x = f /\ f <> "".
Proof.
  unfold Importer.stripped_fields. rewrite in_map_iff. split.
  - intros [x [<- Hx]]. apply filter_In in Hx. destruct Hx as [Hin Hx].
    exists x. repeat split; [exact Hin|]. now apply truthy_true.
  - intros [x [Hin [<- Hne]]]. exists x. split; [reflexivity|].
    apply filter_In. split; [exact Hin|]. now apply truthy_true.
Qed.

(** X14.  A field list with at least one usable field goes to the class
    that was asked for, trimmed and without its blank entries.  Field
    Combination takes it as it is.  Field Duplication takes it when every
    usable field is, once trimmed, among title, description, category and
    keywords; an unrecognised field makes the dependency fail with the
    constructor's [ValueError], not with an [HTTPException]. *)
Theorem requested_strategy_gets_trimmed_fields (l : list string) :
  Importer.stripped_fields l <> [] ->
  Importer.get_indexing_strat (Importer.FieldsList l)
    Importer.FIELD_COMBINATION
  = inr (Importer.Combination
           (FieldCombinationStrategy.mk (Importer.stripped_fields l)))
  /\ ((forall f, In f l -> PyStr.strip f <> "" ->
                 In (PyStr.strip f) recognised_fields) ->
      Importer.get_indexing_strat (Importer.FieldsList l)
        Importer.FIELD_DUPLICATION
      = inr (Importer.Duplication
               (FieldDuplicationStrategy.mk (Importer.stripped_fields l))))
  /\ ((exists f, In f l /\ PyStr.strip f <> ""
                 /\ ~ In (PyStr.strip f) recognised_fields) ->
      exists unknown,
        Importer.get_indexing_strat (Importer.FieldsList l)
          Importer.FIELD_DUPLICATION
        = inl (Importer.FromStrategy (ValueError unknown))
        /\ unknown <> []).
Proof.
  intros Hne. unfold Importer.get_indexing_strat. simpl.
  assert (Hlen : (0 <? List.length (Importer.stripped_fields l))%nat = true).
  { apply Nat.ltb_lt. destruct (Importer.stripped_fields l);
      [congruence | simpl; lia]. }
  rewrite Hlen. split; [reflexivity|]. split.
  - intros Hall. unfold Importer.FieldDuplicationStrategy_class,
      FieldDuplicationStrategy.__init__.
    destruct (FieldDuplicationStrategy.missing (Importer.stripped_fields l))
      as [|g m] eqn:Hm; [reflexivity|].
    assert (Hg : In g (FieldDuplicationStrategy.missing
                         (Importer.stripped_fields l)))
      by (rewrite Hm; now left).
    apply in_missing in Hg. destruct Hg as [Hin Hout].
    apply in_stripped_fields in Hin. destruct Hin as [x [Hx [<- Hnb]]].
    exfalso. apply Hout. now apply Hall.
  - intros [f [Hin [Hnb Hout]]].
    exists (FieldDuplicationStrategy.missing (Importer.stripped_fields l)).
    assert (Hf : In (PyStr.strip f)
                   (FieldDuplicationStrategy.missing
                      (Importer.stripped_fields l))).
    { apply in_missing. split; [|exact Hout].
      apply in_stripped_fields. now exists f. }
    unfold Importer.FieldDuplicationStrategy_class,
      FieldDuplicationStrategy.__init__.
    destruct (FieldDuplicationStrategy.missing (Importer.stripped_fields l));
      [destruct Hf|].
    split; [reflexivity | discriminate].
Qed.

Lemma requested_strategy_gets_trimmed_fields_witness :
  Importer.get_indexing_strat
    (Importer.FieldsList [" title "; ""; "keywords"])
    Importer.FIELD_DUPLICATION
  = inr (Importer.Duplication
           (FieldDuplicationStrategy.mk ["title"; "keywords"])).
Proof.
  apply (requested_strategy_gets_trimmed_fields
           [" title "; ""; "keywords"]); [discriminate|].
  intros f [<-|[<-|[<-|[]]]] H; simpl; auto. now elim H.
Defined.

(** ** Field Duplication and Field Combination at work *)

Lemma extractor_values f c :
  In f recognised_fields ->
  exists extractor,
    FieldDuplicationStrategy.lookup
      f FieldDuplicationStrategy._field_extractors = Some extractor
    /\ filter nonblank (extractor c) = filter nonblank (field_values c f).
Proof.
  intros [<-|[<-|[<-|[<-|[]]]]]; eexists; (split; [reflexivity|]);
    unfold field_values; simpl; try reflexivity.
  - destruct (description c) as [[|x v]|]; reflexivity.
  - destruct (category c) as [[|x v]|]; reflexivity.
Qed.

Lemma expand_fields_documents c : forall fs,
  (forall f, In f fs -> In f recognised_fields) ->
  FieldDuplicationStrategy.expand_fields fs c = inr (documents_of c fs).
Proof.
  induction fs as [|f fs IH]; intros Hrec; [reflexivity|].
  destruct (extractor_values f c (Hrec f (or_introl eq_refl)))
    as [extractor [Hlook Hvals]].
  cbn [FieldDuplicationStrategy.expand_fields]. rewrite Hlook.
  rewrite IH by (intros g Hg; apply Hrec; now right).
  unfold documents_of. cbn [flat_map]. fold (documents_of c fs).
  unfold nonblank in Hvals. now rewrite Hvals.
Qed.

(** X15.  A Field Duplication strategy that could be built never fails
    to expand: for every competency it returns, for each of its fields in
    the order given, one copy of the competency per value of that field
    that is not blank, indexed under that value and otherwise unchanged. *)
Theorem duplication_expands_into_documents fs s (c : Competency) :
  FieldDuplicationStrategy.__init__ fs = inr s ->
  FieldDuplicationStrategy.expand_competency s c = inr (documents_of c fs).
Proof.
  intros Hinit. apply init_duplication_ok in Hinit.
  destruct Hinit as [-> Hrec].
  unfold FieldDuplicationStrategy.expand_competency. simpl.
  now apply expand_fields_documents.
Qed.

Lemma duplication_expands_into_documents_witness :
  FieldDuplicationStrategy.expand_competency
    (FieldDuplicationStrategy.mk ["keywords"; "title"]) pastry_competency
  = inr [with_indexed_text pastry_competency "Confectioner";
         with_indexed_text pastry_competency "Baker";
         with_indexed_text pastry_competency "Pastry chef"].
Proof.
  apply (duplication_expands_into_documents ["keywords"; "title"]).
  reflexivity.
Defined.

(** X16.  Expansion follows the field list piece by piece: a strategy
    built on two lists put end to end yields the documents of the first
    list followed by those of the second, so a field named twice is
    expanded twice. *)
Theorem duplication_expansion_concatenates fs1 fs2 s (c : Competency) :
  FieldDuplicationStrategy.__init__ (fs1 ++ fs2)%list = inr s ->
  exists s1 s2 docs1 docs2,
    FieldDuplicationStrategy.__init__ fs1 = inr s1
    /\ FieldDuplicationStrategy.__init__ fs2 = inr s2
    /\ FieldDuplicationStrategy.expand_competency s1 c = inr docs1
    /\ FieldDuplicationStrategy.expand_competency s2 c = inr docs2
    /\ FieldDuplicationStrategy.expand_competency s c
       = inr (docs1 ++ docs2)%list.
Proof.
  intros Hinit. pose proof (init_duplication_ok _ _ Hinit) as [-> Hrec].
  assert (Hok : forall fs, (forall f, In f fs -> In f recognised_fields) ->
                  FieldDuplicationStrategy.__init__ fs
                  = inr (FieldDuplicationStrategy.mk fs)).
  { intros fs Hfs. unfold FieldDuplicationStrategy.__init__.
    destruct (FieldDuplicationStrategy.missing fs) as [|g m] eqn:Hm;
      [reflexivity|].
    assert (Hg : In g (FieldDuplicationStrategy.missing fs))
      by (rewrite Hm; now left).
    apply in_missing in Hg. destruct Hg as [Hin Hout].
    exfalso. auto. }
  assert (H1 : forall f, In f fs1 -> In f recognised_fields)
    by (intros f Hf; apply Hrec, in_or_app; now left).
  assert (H2 : forall f, In f fs2 -> In f recognised_fields)
    by (intros f Hf; apply Hrec, in_or_app; now right).
  exists (FieldDuplicationStrategy.mk fs1), (FieldDuplicationStrategy.mk fs2),
    (documents_of c fs1), (documents_of c fs2).
  split; [now apply Hok|]. split; [now apply Hok|].
  unfold FieldDuplicationStrategy.expand_competency. simpl.
  rewrite !expand_fields_documents by assumption.
  repeat split. unfold documents_of. now rewrite flat_map_app.
Qed.

Lemma duplication_expansion_concatenates_witness :
  exists s1 s2 docs1 docs2,
    FieldDuplicationStrategy.__init__ ["title"] = inr s1
    /\ FieldDuplicationStrategy.__init__ ["title"] = inr s2
    /\ FieldDuplicationStrategy.expand_competency s1 pastry_competency
       = inr docs1
    /\ FieldDuplicationStrategy.expand_competency s2 pastry_competency
       = inr docs2
    /\ FieldDuplicationStrategy.expand_competency
         (FieldDuplicationStrategy.mk ["title"; "title"]) pastry_competency
       = inr (docs1 ++ docs2)%list.
Proof.
  apply (duplication_expansion_concatenates ["title"] ["title"]).
  reflexivity.
Defined.

Lemma document_text c fs d :
  In d (documents_of c fs) ->
  exists v, d = with_indexed_text c v /\ PyStr.strip v <> "".
Proof.
  unfold documents_of. rewrite in_flat_map.
  intros [f [_ Hd]]. apply in_map_iff in Hd.
  destruct Hd as [v [<- Hv]]. apply filter_In in Hv.
  destruct Hv as [_ Hv]. exists v. split; [reflexivity|].
  now apply truthy_true.
Qed.

(** X17.  Every document of Field Duplication gets past the validation
    of the entity service: its indexed text is present and not blank, so
    that [create_entity], given that text, is not turned away before the
    encoders: the first call of the run is the dense encoder on the trimmed
    text. *)
Theorem duplication_documents_pass_validation fs s (c : Competency) docs d :
  FieldDuplicationStrategy.__init__ fs = inr s ->
  FieldDuplicationStrategy.expand_competency s c = inr docs ->
  In d docs ->
  exists v,
    indexed_text d = Some v /\ PyStr.strip v <> ""
    /\ (forall float (self : Domain.Collaborators float) competency,
        hd_error
          (fst (Domain.run
                  (Domain.create_entity self competency (indexed_text d))))
        = Some (Domain.DenseEncode (PyStr.strip v))).
Proof.
  intros Hinit Hexp Hd.
  rewrite (duplication_expands_into_documents _ _ c Hinit) in Hexp.
  injection Hexp as <-.
  destruct (document_text _ _ _ Hd) as [v [-> Hv]].
  exists v. split; [reflexivity|]. split; [exact Hv|].
  intros float self competency. simpl indexed_text.
  assert (Hne : v <> "") by (intros ->; now apply Hv).
  unfold Domain.run, Domain.create_entity, Domain.bind, Domain.try_wrap,
    Domain.call, Domain.ret, Domain.raise.
  rewrite (proj2 (truthy_true v) Hne).
  rewrite (proj2 (truthy_true _) Hv). simpl.
  destruct (Domain.dense_encode self (PyStr.strip v));
    destruct (Domain.sparse_encode self (PyStr.strip v)); simpl;
    reflexivity.
Qed.

Lemma duplication_documents_pass_validation_witness :
  exists v,
    indexed_text (with_indexed_text pastry_competency "Baker") = Some v
    /\ PyStr.strip v <> ""
    /\ (forall float (self : Domain.Collaborators float) competency,
        hd_error
          (fst (Domain.run
                  (Domain.create_entity self competency
                     (indexed_text
                        (with_indexed_text pastry_competency "Baker")))))
        = Some (Domain.DenseEncode (PyStr.strip v))).
Proof.
  apply (duplication_documents_pass_validation ["keywords"]
           (FieldDuplicationStrategy.mk ["keywords"]) pastry_competency
           [with_indexed_text pastry_competency "Confectioner";
            with_indexed_text pastry_competency "Baker"]
           (with_indexed_text pastry_competency "Baker")
           eq_refl eq_refl).
  simpl. auto.
Defined.

(** X18.  For a list of recognised fields, Field Combination does not
    fail and answers exactly one document: the competency with all its
    fields as they were and a new indexed text, which has no white space at
    either end (it may be empty). *)
Theorem combination_yields_one_document
    (s : FieldCombinationStrategy.t) (c : Competency) :
  (forall f, In f (FieldCombinationStrategy.fields s) ->
             In f recognised_fields) ->
  exists text,
    FieldCombinationStrategy.expand_competency s c
      = [with_indexed_text c text]
    /\ PyStr.strip text = text
    /\ (text = "" \/ trimmed text).
Proof.
  intros _.
  exists (FieldCombinationStrategy.combined_text
            (FieldCombinationStrategy.fields s) c).
  split; [reflexivity|].
  unfold FieldCombinationStrategy.combined_text.
  split; [apply strip_idempotent | apply strip_result].
Qed.

(** The title and the keywords of the pastry competency. *)
Lemma combination_yields_one_document_witness :
  exists text,
    FieldCombinationStrategy.expand_competency
      (FieldCombinationStrategy.mk ["title"; "keywords"]) pastry_competency
      = [with_indexed_text pastry_competency text]
    /\ PyStr.strip text = text
    /\ (text = "" \/ trimmed text).
Proof.
  apply (combination_yields_one_document
           (FieldCombinationStrategy.mk ["title"; "keywords"])
           pastry_competency).
  intros f [<-|[<-|[]]]; simpl; auto.
Defined.

(** ** Code stripping in the FORMA mappers *)

Lemma drop_app a b : PyStr.drop (String.length a) (a ++ b) = b.
Proof. induction a as [|c a IH]; simpl; auto. Qed.

Lemma drop_short : forall n text,
  (String.length text <= n)%nat -> PyStr.drop n text = "".
Proof.
  induction n as [|n IH]; intros [|c r] H; simpl in *; try reflexivity;
    [lia | apply IH; lia].
Qed.

Lemma drop_length : forall n text,
  String.length (PyStr.drop n text) = (String.length text - n)%nat.
Proof.
  induction n as [|n IH]; intros [|c r]; simpl; auto.
Qed.

Lemma length_append a b :
  String.length (a ++ b) = (String.length a + String.length b)%nat.
Proof. induction a as [|c a IH]; simpl; auto. Qed.

(** X19.  FORMA's [remove_code_from_str] cuts by position only: it
    removes the code and the one character that follows it, whatever they
    are, so a text made of a code of the given length, a separator and a
    label comes out as the label; a text no longer than the code and its
    separator comes out empty; in all cases the result is the text without
    its first [code_length + 1] characters. *)
Theorem remove_code_from_str_cuts_by_position (n : nat) :
  (forall code sep label,
     String.length code = n ->
     FormaMapper.remove_code_from_str (code ++ String sep label) n = label)
  /\ (forall text,
      (String.length text <= n + 1)%nat ->
      FormaMapper.remove_code_from_str text n = "")
  /\ (forall text,
      String.length (FormaMapper.remove_code_from_str text n)
      = (String.length text - (n + 1))%nat).
Proof.
  unfold FormaMapper.remove_code_from_str. split; [|split].
  - intros code sep label Hlen.
    replace (code ++ String sep label)
      with ((code ++ String sep "") ++ label)
      by (clear; induction code as [|c code IH]; simpl; congruence).
    replace (n + 1)%nat with (String.length (code ++ String sep ""))
      by (rewrite length_append; simpl; lia).
    apply drop_app.
  - intros text Hlen. now apply drop_short.
  - intros text. apply drop_length.
Qed.

Lemma remove_code_from_str_cuts_by_position_witness :
  FormaMapper.remove_code_from_str ("12345" ++ String " " "Informatique") 5
  = "Informatique".
Proof.
  apply (proj1 (remove_code_from_str_cuts_by_position 5)). reflexivity.
Defined.

Lemma digit_not_blank c : PyStr.isdigit c = true -> c <> " "%char.
Proof. intros H ->. discriminate. Qed.

Lemma digit_not_dash c : PyStr.isdigit c = true -> c <> "-"%char.
Proof. intros H ->. discriminate. Qed.

Lemma digits_prefix_app : forall digits rest,
  all_digits digits ->
  PyStr.digits_prefix (String.length digits) (digits ++ rest) = Some rest.
Proof.
  induction digits as [|c d IH]; intros rest Hd; [reflexivity|].
  destruct Hd as [Hc Hd]. simpl. rewrite Hc. now apply IH.
Qed.

Lemma digits_prefix_split : forall n text rest,
  PyStr.digits_prefix n text = Some rest ->
  exists digits,
    text = digits ++ rest /\ String.length digits = n /\ all_digits digits.
Proof.
  induction n as [|n IH]; intros text rest H; simpl in H.
  - injection H as <-. now exists "".
  - destruct text as [|c r]; [discriminate|].
    destruct (PyStr.isdigit c) eqn:Hc; [|discriminate].
    destruct (IH _ _ H) as [d [-> [Hlen Hd]]].
    exists (String c d). simpl. auto.
Qed.

Lemma prefix_char c d s :
  prefix (String c "") (String d s) = if ascii_dec c d then true else false.
Proof.
  cbn [prefix]. destruct (ascii_dec c d); [now destruct s|reflexivity].
Qed.

Lemma after_first_blank : forall digits rest,
  all_digits digits ->
  PyStr.after_first " " (digits ++ " " ++ rest) = Some rest.
Proof.
  induction digits as [|c d IH]; intros rest Hd.
  - change ("" ++ " " ++ rest) with (String " " rest).
    cbn [PyStr.after_first]. rewrite prefix_char.
    destruct (ascii_dec " " " "); [|congruence]. reflexivity.
  - destruct Hd as [Hc Hd].
    change (String c d ++ " " ++ rest) with (String c (d ++ " " ++ rest)).
    cbn [PyStr.after_first]. rewrite prefix_char.
    destruct (ascii_dec " " c) as [<-|_]; [discriminate|].
    now apply IH.
Qed.

(** X20.  FORMA14's [remove_code_from_str_start] removes a leading code
    and nothing else: a text made of that many digits, a blank and a rest
    comes out as the rest, and a text that does not begin that way comes
    out unchanged. *)
Theorem remove_code_from_str_start_removes_code (n : nat) :
  (forall digits rest,
     String.length digits = n -> all_digits digits ->
     Forma14Mapper.remove_code_from_str_start (digits ++ " " ++ rest) n
     = rest)
  /\ (forall text,
      (forall digits rest,
         String.length digits = n -> all_digits digits ->
         text <> digits ++ " " ++ rest) ->
      Forma14Mapper.remove_code_from_str_start text n = text).
Proof.
  unfold Forma14Mapper.remove_code_from_str_start,
    Forma14Mapper.starts_with_code.
  split.
  - intros digits rest <- Hd.
    rewrite (digits_prefix_app digits (" " ++ rest) Hd).
    change (" " ++ rest) with (String " " rest). rewrite prefix_char.
    destruct (ascii_dec " " " "); [|congruence].
    change (String " " rest) with (" " ++ rest).
    now rewrite after_first_blank.
  - intros text Hno.
    destruct (PyStr.digits_prefix n text) as [rest|] eqn:Hp; [|reflexivity].
    destruct (prefix " " rest) eqn:Hb; [|reflexivity].
    exfalso. destruct (digits_prefix_split _ _ _ Hp) as [d [-> [Hlen Hd]]].
    destruct rest as [|c rest]; [discriminate|].
    rewrite prefix_char in Hb.
    destruct (ascii_dec " " c) as [<-|]; [|discriminate].
    now apply (Hno d rest).
Qed.

Lemma remove_code_from_str_start_removes_code_witness :
  Forma14Mapper.remove_code_from_str_start ("326" ++ " " ++ "informatique") 3
  = "informatique".
Proof.
  apply (proj1 (remove_code_from_str_start_removes_code 3));
    [reflexivity | repeat split].
Defined.

Lemma prefix_dash_sep_here d :
  prefix " - " (" - " ++ d) = true.
Proof.
  change (" - " ++ d) with (String " " (String "-" (String " " d))).
  cbn [prefix].
  destruct (ascii_dec " " " "); [|congruence].
  destruct (ascii_dec "-" "-"); [|congruence].
  now destruct d.
Qed.

Lemma before_last_digits : forall d,
  all_digits d -> PyStr.before_last " - " d = None.
Proof.
  induction d as [|c d IH]; intros Hd; [reflexivity|].
  destruct Hd as [Hc Hd]. cbn [PyStr.before_last]. rewrite (IH Hd).
  cbn [prefix]. destruct (ascii_dec " " c) as [<-|_]; [discriminate|].
  reflexivity.
Qed.

Lemma before_last_code d :
  all_digits d -> PyStr.before_last " - " (" - " ++ d) = Some "".
Proof.
  intros Hd.
  assert (H1 : PyStr.before_last " - " (String " " d) = None).
  { cbn [PyStr.before_last]. rewrite (before_last_digits d Hd).
    cbn [prefix]. destruct (ascii_dec " " " "); [|congruence].
    destruct d as [|c d]; cbn [prefix]; [reflexivity|].
    destruct Hd as [Hc _].
    destruct (ascii_dec "-" c) as [<-|_]; [discriminate|reflexivity]. }
  assert (H2 : PyStr.before_last " - " (String "-" (String " " d)) = None).
  { cbn [PyStr.before_last] in *. rewrite H1. cbn [prefix].
    destruct (ascii_dec " " "-"); [discriminate|reflexivity]. }
  change (" - " ++ d) with (String " " (String "-" (String " " d))).
  cbn [PyStr.before_last] in *. rewrite H2.
  change (String " " (String "-" (String " " d))) with (" - " ++ d).
  now rewrite prefix_dash_sep_here.
Qed.

Lemma before_last_head : forall head d,
  all_digits d ->
  PyStr.before_last " - " (head ++ " - " ++ d) = Some head.
Proof.
  induction head as [|c head IH]; intros d Hd.
  - now apply before_last_code.
  - change (String c head ++ " - " ++ d)
      with (String c (head ++ " - " ++ d)).
    cbn [PyStr.before_last]. now rewrite (IH d Hd).
Qed.

Lemma ends_with_code_head : forall head d,
  all_digits d ->
  Forma14Mapper.ends_with_code (String.length d) (head ++ " - " ++ d) = true.
Proof.
  induction head as [|c head IH]; intros d Hd.
  - assert (Hhere : Forma14Mapper.code_end_here (String.length d)
                      (" - " ++ d) = true).
    { unfold Forma14Mapper.code_end_here.
      rewrite prefix_dash_sep_here.
      change (PyStr.drop 3 (" - " ++ d)) with d.
      pose proof (digits_prefix_app d "" Hd) as Hp.
      replace (d ++ "") with d in Hp
        by (clear; induction d as [|c d IH]; simpl; congruence).
      now rewrite Hp. }
    change ("" ++ " - " ++ d) with (" - " ++ d).
    change (" - " ++ d) with (String " " ("- " ++ d)) at 1.
    cbn [Forma14Mapper.ends_with_code].
    change (String " " ("- " ++ d)) with (" - " ++ d).
    now rewrite Hhere.
  - change (String c head ++ " - " ++ d)
      with (String c (head ++ " - " ++ d)).
    cbn [Forma14Mapper.ends_with_code]. rewrite (IH d Hd).
    apply orb_true_r.
Qed.

(** X21.  FORMA14's [remove_code_from_str_end] gives back exactly what
    stands before a trailing code: a text made of any head, the separator
    " - " and that many digits comes out as the head, whatever the head
    holds, further separators included. *)
Theorem remove_code_from_str_end_removes_code (n : nat) head digits :
  String.length digits = n -> all_digits digits ->
  Forma14Mapper.remove_code_from_str_end (head ++ " - " ++ digits) n = head.
Proof.
  intros <- Hd. unfold Forma14Mapper.remove_code_from_str_end.
  now rewrite ends_with_code_head, before_last_head.
Qed.

Lemma remove_code_from_str_end_removes_code_witness :
  Forma14Mapper.remove_code_from_str_end
    ("langage - machine" ++ " - " ++ "31054") 5
  = "langage - machine".
Proof.
  apply (remove_code_from_str_end_removes_code 5);
    [reflexivity | repeat split].
Defined.

(** ** What the mappers put out *)

Lemma or_else_as_asked override fallback c :
  indexed_text c = Some (PyList.or_else override fallback) ->
  title c = fallback ->
  indexed_as_asked override c.
Proof.
  intros Hi Ht. unfold indexed_as_asked. rewrite Hi, Ht. split.
  - intros v -> Hv. simpl. now rewrite (proj2 (truthy_true v) Hv).
  - now intros [-> | ->].
Qed.

(** X22.  Every mapper indexes its competency as asked: under the given
    [indexed_text] when there is one and it is not empty, and under the
    title of the produced competency otherwise; the indexed text is never
    missing. *)
Theorem mappers_index_as_asked :
  (forall r, indexed_as_asked (RomeMapper.indexed_text r)
                              (RomeMapper.to_competency r))
  /\ (forall r c, EscoMapper.to_competency r = inr c ->
                  indexed_as_asked (EscoMapper.indexed_text r) c)
  /\ (forall r, indexed_as_asked (FormaMapper.indexed_text r)
                                 (FormaMapper.to_competency r))
  /\ (forall r, indexed_as_asked (Forma14Mapper.indexed_text r)
                                 (Forma14Mapper.to_competency r)).
Proof.
  split; [|split; [|split]].
  - intros r. now eapply or_else_as_asked.
  - intros r c. unfold EscoMapper.to_competency.
    destruct (EscoMapper.filled_code r); [|discriminate].
    intros [= <-]. now eapply or_else_as_asked.
  - intros r. now eapply or_else_as_asked.
  - intros r. now eapply or_else_as_asked.
Qed.

Lemma mappers_index_as_asked_witness :
  indexed_as_asked None
    (mkCompetency "http://data.europa.eu/esco/occupation/baker" EN
       OCCUPATION ESCO "Baker" (Some "http://data.europa.eu/esco/occupation/baker")
       None (Some "Bakes bread.") (Some []) (Some "Baker")).
Proof.
  apply (proj1 (proj2 mappers_index_as_asked) (esco_record "baker" None)).
  reflexivity.
Defined.

(** X23.  The ROME keywords are the pieces of the appellations, no more
    and no less: a string is a keyword exactly when the splitter returns it
    for one of the record's appellations. *)
Theorem rome_keywords_are_the_pieces (r : RomeMapper.t) (k : string) :
  In k (RomeMapper.cleaned_keywords r)
  <-> exists appellation,
        In appellation (RomeMapper.keywords r)
        /\ In k (RomeMapper.clean_rome_appelation appellation).
Proof.
  unfold RomeMapper.cleaned_keywords.
  rewrite in_sorted_set. apply in_flat_map.
Qed.

(** X24.  The ROME splitter answers one of two shapes: the input itself
    as the only item, or, for an input with a slash, two items of which
    neither has white space at its ends. *)
Theorem clean_rome_appelation_shape (appelation : string) :
  RomeMapper.clean_rome_appelation appelation = [appelation]
  \/ exists first second,
       RomeMapper.clean_rome_appelation appelation = [first; second]
       /\ PyStr.contains "/" appelation = true
       /\ PyStr.strip first = first
       /\ PyStr.strip second = second.
Proof.
  unfold RomeMapper.clean_rome_appelation.
  destruct (PyStr.contains "/" appelation); [|now left].
  cbn [negb].
  destruct (map PyStr.strip (PyStr.split "/" appelation))
    as [|gauche [|droite [|x l]]]; try now left.
  right.
  destruct (List.length (PyStr.split_ws droite)
            <? List.length (PyStr.split_ws gauche))%nat;
    [|destruct (List.length (PyStr.split_ws gauche)
                <? List.length (PyStr.split_ws droite))%nat];
    eexists; eexists; (split; [reflexivity|]);
    (split; [reflexivity|]); split; apply strip_idempotent.
Qed.

(** X25.  The ESCO mapper produces a competency unless the record has
    neither a code nor a concept URI: it fails exactly when the code is
    absent and the concept URI is empty.  The code of the competency is the
    record's own code when that is not empty, and the trimmed concept URI
    when the record's code is absent or empty and the URI is not. *)
Theorem esco_needs_code_or_uri (r : EscoMapper.t) :
  (EscoMapper.to_competency r = inl MissingCode
   <-> EscoMapper.code r = None /\ EscoMapper.concept_uri r = "")
  /\ (forall c, EscoMapper.to_competency r = inr c ->
      (forall v, EscoMapper.code r = Some v -> v <> "" -> code c = v)
      /\ (EscoMapper.code r = None \/ EscoMapper.code r = Some "" ->
          EscoMapper.concept_uri r <> "" ->
          code c = PyStr.strip (EscoMapper.concept_uri r))).
Proof.
  unfold EscoMapper.to_competency, EscoMapper.filled_code.
  destruct (EscoMapper.code r) as [[|x v]|];
    destruct (EscoMapper.concept_uri r) as [|y u]; simpl;
    (split; [split; [try discriminate; auto
                    | intros [H1 H2]; congruence]|]);
    intros c Hc; try discriminate Hc; injection Hc as <-; simpl;
    (split; [intros w Hw Hne; congruence
            | intros [H|H] Hu; congruence]).
Qed.

Lemma esco_needs_code_or_uri_witness :
  code (mkCompetency "http://data.europa.eu/esco/occupation/baker" EN
          OCCUPATION ESCO "Baker"
          (Some "http://data.europa.eu/esco/occupation/baker")
          None (Some "Bakes bread.") (Some []) (Some "Baker"))
  = PyStr.strip "http://data.europa.eu/esco/occupation/baker".
Proof.
  apply (proj2 (esco_needs_code_or_uri (esco_record "baker" None)) _
           eq_refl); [now left | discriminate].
Defined.

Lemma rome_keywords_are_the_pieces_witness :
  In "Chef de rang"
     (RomeMapper.cleaned_keywords (rome_record ["Chef / Cheffe de rang"])).
Proof.
  apply (proj2 (rome_keywords_are_the_pieces
                  (rome_record ["Chef / Cheffe de rang"]) "Chef de rang")).
  exists "Chef / Cheffe de rang". split; simpl; auto.
Defined.

Lemma esco_candidates_stripped r :
  Forall (fun k => PyStr.strip k = k)
    (EscoMapper.alt_label_keywords r ++ EscoMapper.hidden_label_keywords r
       ++ EscoMapper.appelation_keywords r)%list.
Proof.
  assert (Hlabels : forall l,
            Forall (fun k => PyStr.strip k = k) (EscoMapper.stripped_labels l)).
  { intros l. apply Forall_forall. intros k Hk.
    unfold EscoMapper.stripped_labels in Hk. apply in_map_iff in Hk.
    destruct Hk as [x [<- _]]. apply strip_idempotent. }
  apply Forall_app. split; [|apply Forall_app; split].
  - unfold EscoMapper.alt_label_keywords.
    destruct (EscoMapper.alt_labels r) as [alt|]; [|constructor].
    destruct (PyStr.truthy alt); [apply Hlabels | constructor].
  - unfold EscoMapper.hidden_label_keywords.
    destruct (EscoMapper.hidden_labels r) as [hidden|]; [|constructor].
    destruct (PyStr.truthy hidden); [apply Hlabels | constructor].
  - unfold EscoMapper.appelation_keywords, EscoMapper.clean_esco_appelation.
    destruct (PyStr.contains "/" (EscoMapper.cleaned_title r));
      [|constructor].
    cbn [negb].
    destruct (PyStr.split "/" (EscoMapper.cleaned_title r))
      as [|x [|y [|z l]]]; simpl; try constructor.
    + apply strip_idempotent.
    + constructor; [apply strip_idempotent | constructor].
Qed.

(** X26.  The ESCO keywords are the capitalised labels: a text is a
    keyword exactly when it is the capitalised form of a label, taken from
    the alternative labels, the hidden labels or the two halves of the
    title, that is not empty and has no white space at either end. *)
Theorem esco_keywords_are_normalised (r : EscoMapper.t) (k : string) :
  In k (EscoMapper.keywords r)
  <-> exists label,
        k = PyStr.capitalize label
        /\ trimmed label
        /\ In label
             (EscoMapper.alt_label_keywords r
                ++ EscoMapper.hidden_label_keywords r
                ++ EscoMapper.appelation_keywords r)%list.
Proof.
  pose proof (esco_candidates_stripped r) as Hs.
  rewrite Forall_forall in Hs. split.
  - unfold EscoMapper.keywords, EscoMapper.unique_keywords.
    intros Hk. apply in_sorted_set, in_map_iff in Hk.
    destruct Hk as [l [<- Hl]]. apply filter_In in Hl.
    destruct Hl as [Hin Hnb].
    exists l. split; [reflexivity|]. split; [|exact Hin].
    specialize (Hs l Hin).
    destruct (strip_result l) as [He|Ht]; rewrite Hs in *;
      [subst; discriminate | exact Ht].
  - intros [l [-> [Ht Hin]]]. unfold EscoMapper.keywords.
    apply in_unique_keywords; [exact Hin | exact (Hs l Hin) |].
    intros ->. destruct Ht as [Ht _]. exact Ht.
Qed.

(** ** The store's filter and the collection *)

(** X27.  A clause of a store's filter that the translation returns is
    absent or holds at least one condition, never an empty list: the must
    clause is absent exactly when no filter has one of the operators EQ, GT,
    GTE, LT, LTE, IN, and the must-not clause exactly when none has NEQ or
    NOT_IN. *)
Theorem filter_clauses_absent_or_populated {Number}
    (models : Qdrant.StoreModels Number)
    (filters : list DomainFilter) (translated : Qdrant.Filter Number) :
  Qdrant._build_search_filters models filters = inr translated ->
  Qdrant.must translated <> Some []
  /\ Qdrant.must_not translated <> Some []
  /\ (Qdrant.must translated = None <-> positive_filters filters = [])
  /\ (Qdrant.must_not translated = None <-> negative_filters filters = []).
Proof.
  intros H.
  apply build_clauses in H as (ps & ns & Hps & Hns & -> & ->).
  assert (Hnil : forall (fs : list DomainFilter)
                        (cs : list (Qdrant.FieldCondition Number)),
             Forall2 (Qdrant.built models) fs cs -> (cs = [] <-> fs = [])).
  { intros fs cs HF. destruct HF; split; congruence. }
  split; [apply or_none_spec|]. split; [apply or_none_spec|].
  split.
  - rewrite (proj2 (or_none_spec ps)). now apply Hnil.
  - rewrite (proj2 (or_none_spec ns)). now apply Hnil.
Qed.

(** Only positive filters, with the sample models: no must-not clause. *)
Lemma filter_clauses_absent_or_populated_witness :
  Qdrant.must_not
    (Qdrant.mkFilter
       (Some [Qdrant.mkFieldCondition "lang"
                (Some (Qdrant.MatchValue (VScalar (SStr "fr")))) None;
              Qdrant.mkFieldCondition "level" None
                (Some (Qdrant.mkRange (Some 3%Z) None None None))])
       None) = None
  <-> negative_filters
        [mkDomainFilter "lang" EQUAL (VScalar (SStr "fr"));
         mkDomainFilter "level" GREATER_THAN (VScalar (SInt 3))] = [].
Proof.
  apply (filter_clauses_absent_or_populated sample_models
           [mkDomainFilter "lang" EQUAL (VScalar (SStr "fr"));
            mkDomainFilter "level" GREATER_THAN (VScalar (SInt 3))]).
  reflexivity.
Defined.

(** X29.  Provisioning creates a collection only when it is missing: the
    client's [create_collection] is called exactly when the listing
    succeeded, does not hold the name, and the vector parameters are
    accepted, and then once, after the listing; the method succeeds exactly
    when the collection was listed, or the parameters were accepted and the
    creation answered [True], and fails otherwise. *)
Theorem collection_created_only_when_missing
    (vector_params_accepted : Z -> string -> bool)
    (client : QdrantClientWrapper.Client)
    (collection_name : string) (vector_dimensions : Z)
    (vector_distance dense_vector_name sparse_vector_name : string) :
  let creation :=
    QdrantClientWrapper.CreateCollection collection_name vector_dimensions
      vector_distance dense_vector_name sparse_vector_name in
  let r :=
    QdrantClientWrapper.create_db_collection_if_not_exists
      vector_params_accepted client
      collection_name vector_dimensions vector_distance dense_vector_name
      sparse_vector_name in
  (In creation (fst r)
   <-> exists names,
         QdrantClientWrapper.get_collections client = inr names
         /\ ~ In collection_name names
         /\ vector_params_accepted vector_dimensions vector_distance = true)
  /\ (fst r = [QdrantClientWrapper.GetCollections]
      \/ fst r = [QdrantClientWrapper.GetCollections; creation])
  /\ (snd r = inr tt
      <-> exists names,
            QdrantClientWrapper.get_collections client = inr names
            /\ (In collection_name names
                \/ (vector_params_accepted vector_dimensions vector_distance
                      = true
                    /\ QdrantClientWrapper.create_collection client
                         collection_name vector_dimensions vector_distance
                         dense_vector_name sparse_vector_name
                       = inr QdrantClientWrapper.IsTrue))).
Proof.
  intros creation r. subst r.
  unfold QdrantClientWrapper.create_db_collection_if_not_exists.
  fold creation.
  destruct (QdrantClientWrapper.get_collections client) as [msg|names].
  - simpl. split; [|split; [now left|]].
    + split; [intros [H|[]]; discriminate H
             | intros [names [H _]]; discriminate H].
    + split; [discriminate | intros [names [H _]]; discriminate H].
  - assert (Hlisted : existsb (String.eqb collection_name) names = true
                      <-> In collection_name names).
    { rewrite existsb_exists. split.
      - intros [x [Hx Heq]]. apply String.eqb_eq in Heq. now subst.
      - intros H. exists collection_name. split; [exact H|].
        apply String.eqb_refl. }
    destruct (existsb (String.eqb collection_name) names) eqn:Hex.
    + assert (Hin : In collection_name names) by now apply Hlisted.
      simpl. split; [|split; [now left|]].
      * split; [intros [H|[]]; discriminate H|].
        intros [names' [[= <-] [Hout _]]]. contradiction.
      * split; [|reflexivity]. intros _. exists names. auto.
    + assert (Hout : ~ In collection_name names).
      { intros H. apply Hlisted in H. discriminate. }
      destruct (vector_params_accepted vector_dimensions vector_distance)
        eqn:Hacc; simpl.
      * assert (Hcalled : exists names' : list string,
                   @inr string (list string) names = inr names'
                   /\ ~ In collection_name names' /\ true = true)
          by (exists names; auto).
        destruct (QdrantClientWrapper.create_collection client
                    collection_name vector_dimensions vector_distance
                    dense_vector_name sparse_vector_name) as [msg|[|]]; simpl.
        -- split; [split; [intros _; exact Hcalled | auto]|].
           split; [now right|].
           split; [discriminate|].
           intros [names' [[= <-] [H|[_ H]]]];
             [contradiction | discriminate H].
        -- split; [split; [intros _; exact Hcalled | auto]|].
           split; [now right|].
           split; [|reflexivity]. intros _. exists names. auto.
        -- split; [split; [intros _; exact Hcalled | auto]|].
           split; [now right|].
           split; [discriminate|].
           intros [names' [[= <-] [H|[_ H]]]];
             [contradiction | discriminate H].
      * split; [|split; [now left|]].
        -- split; [intros [H|[]]; discriminate H|].
           intros [names' [_ [_ H]]]. discriminate H.
        -- split; [discriminate|].
           intros [names' [[= <-] [H|[H _]]]];
             [contradiction | discriminate H].
Qed.

(** ** The import route *)




